(** * tda.streaming: the websocket session engine of python-tda

    A shallow embedding of [src/tda/__init__.py], [src/tda/streaming.py]
    and the fetch functions of [src/tda/api.py]: the enumerations and
    their case-insensitive lookup, the decoder [_ws_distill_data], the
    session functions [ws_connect], [ws_disconnect], [_ws_subscribe],
    [_ws_resubscribe] and [ws_listen] as state-passing programs over an
    explicit world (socket scripts, sent requests, error log, callback
    invocations), and [_get_user_principals], [get_history] and
    [get_quotes] as functions of what the token cache and the HTTP
    library give.  The log holds the error records of the functions
    embedded here; what a token renewal inside [_get_access_token] may
    write is not part of it. *)

From stdpp Require Import gmap strings.
From Stdlib Require Import ZArith List String Ascii Bool Lia Floats DecimalString.
Import ListNotations.
Local Open Scope string_scope.
Local Open Scope Z_scope.
Local Open Scope list_scope.

(** ** Python text operations

    Wire text is modelled as ASCII [string]s; bytes from 128 up are carried
    along uninterpreted (no case mapping, not white space). *)

Module PyStr.

(** [str.isspace] on the ASCII range: TAB..CR, FS..US and the blank. *)
Definition is_space (c : ascii) : bool :=
  let n := nat_of_ascii c in
  ((9 <=? n)%nat && (n <=? 13)%nat) || ((28 <=? n)%nat && (n <=? 32)%nat).

Definition lower_char (c : ascii) : ascii :=
  let n := nat_of_ascii c in
  if ((65 <=? n)%nat && (n <=? 90)%nat) then ascii_of_nat (n + 32) else c.

Definition upper_char (c : ascii) : ascii :=
  let n := nat_of_ascii c in
  if ((97 <=? n)%nat && (n <=? 122)%nat) then ascii_of_nat (n - 32) else c.

Fixpoint map_chars (f : ascii -> ascii) (s : string) : string :=
  match s with
  | EmptyString => EmptyString
  | String c s' => String (f c) (map_chars f s')
  end.

Definition lower : string -> string := map_chars lower_char.
Definition upper : string -> string := map_chars upper_char.

Fixpoint lstrip (s : string) : string :=
  match s with
  | String c s' => if is_space c then lstrip s' else s
  | EmptyString => EmptyString
  end.

(** Right strip: a suffix made of white space only is dropped. *)
Fixpoint rstrip (s : string) : string :=
  match s with
  | EmptyString => EmptyString
  | String c s' =>
      match rstrip s' with
      | EmptyString => if is_space c then EmptyString else String c EmptyString
      | r => String c r
      end
  end.

Definition strip (s : string) : string := rstrip (lstrip s).

Fixpoint is_prefix (p s : string) : bool :=
  match p, s with
  | EmptyString, _ => true
  | String a p', String b s' => Ascii.eqb a b && is_prefix p' s'
  | String _ _, EmptyString => false
  end.

(** [p in s] for two strings. *)
Fixpoint is_substring (p s : string) : bool :=
  is_prefix p s ||
  match s with
  | EmptyString => false
  | String _ s' => is_substring p s'
  end.

Fixpoint chars (s : string) : list string :=
  match s with
  | EmptyString => []
  | String c s' => String c EmptyString :: chars s'
  end.

Fixpoint join (sep : string) (l : list string) : string :=
  match l with
  | [] => EmptyString
  | [x] => x
  | x :: rest => String.append x (String.append sep (join sep rest))
  end.

(** [str(n)] of an integer. *)
Definition of_Z (z : Z) : string :=
  NilZero.string_of_int (Z.to_int z).

End PyStr.

(** ** Exceptions and outcomes *)

Inductive exn : Type :=
| KeyError (key : string)
| IndexError
| TypeError
| ValueError
| OverflowError
| AttributeError (attr : string)
| NameError (name : string)
| ConnectionClosedError
| ConnectFailure
| UserError (tag : string).

(** What running a piece of Python gives: a value, a raised exception, or
    [Beyond] when the run leaves what this development renders: the loop
    budget of [ws_listen] is spent, the scripted connection attempts are
    used up, the text of [repr] of a float, list or dict is asked for, or
    the XML library is reached. *)
Inductive result (A : Type) : Type :=
| Return (a : A)
| Raise (e : exn)
| Beyond.
Arguments Return {A} a.
Arguments Raise {A} e.
Arguments Beyond {A}.

Definition bind {A B : Type} (r : result A) (k : A -> result B) : result B :=
  match r with
  | Return a => k a
  | Raise e => Raise e
  | Beyond => Beyond
  end.

Declare Scope py_scope.
Delimit Scope py_scope with py.
Notation "'do' x <- r ; k" := (bind r (fun x => k))
  (at level 10, x name, r at level 100, k at level 200) : py_scope.
Local Open Scope py_scope.

Definition is_raise {A : Type} (r : result A) : Prop :=
  exists e, r = Raise e.

(** ** Values decoded by [json.loads]

    A dict lists its entries in order, each key once. *)

#[warnings="-register-all"]
Inductive json : Type :=
| JNull
| JBool (b : bool)
| JInt (z : Z)
| JFloat (f : float)
| JStr (s : string)
| JList (items : list json)
| JDict (entries : list (string * json)).

Module Py.

Fixpoint assoc {V : Type} (k : string) (d : list (string * V)) : option V :=
  match d with
  | [] => None
  | (k', v) :: d' => if String.eqb k k' then Some v else assoc k d'
  end.

Definition is_str (k : string) (v : json) : bool :=
  match v with
  | JStr s => String.eqb s k
  | _ => false
  end.

(** [k in v] for a text key [k]. *)
Definition contains (k : string) (v : json) : result bool :=
  match v with
  | JDict d => Return (match assoc k d with Some _ => true | None => false end)
  | JList l => Return (existsb (is_str k) l)
  | JStr s => Return (PyStr.is_substring k s)
  | _ => Raise TypeError
  end.

(** [v[k]] for a text key [k]. *)
Definition getitem (v : json) (k : string) : result json :=
  match v with
  | JDict d =>
      match assoc k d with
      | Some x => Return x
      | None => Raise (KeyError k)
      end
  | _ => Raise TypeError
  end.

(** [v[0]]. *)
Definition first (v : json) : result json :=
  match v with
  | JList (x :: _) => Return x
  | JList [] => Raise IndexError
  | JStr (String c _) => Return (JStr (String c EmptyString))
  | JStr EmptyString => Raise IndexError
  | JDict _ => Raise (KeyError "0")
  | _ => Raise TypeError
  end.

Definition len (v : json) : result Z :=
  match v with
  | JList l => Return (Z.of_nat (List.length l))
  | JDict d => Return (Z.of_nat (List.length d))
  | JStr s => Return (Z.of_nat (String.length s))
  | _ => Raise TypeError
  end.

(** The items a [for] loop over [v] visits. *)
Definition iter (v : json) : result (list json) :=
  match v with
  | JList l => Return l
  | JDict d => Return (map (fun kv => JStr (fst kv)) d)
  | JStr s => Return (map JStr (PyStr.chars s))
  | _ => Raise TypeError
  end.

(** [v != 0]. *)
Definition nonzero (v : json) : bool :=
  match v with
  | JInt z => negb (z =? 0)
  | JBool b => b
  | JFloat f => negb (PrimFloat.eqb f PrimFloat.zero)
  | _ => true
  end.

(** [str(v)] where its text is rendered here: text itself, integers,
    booleans and [None].  For a float, a list or a dict [str] gives the
    [repr], which this development does not render. *)
Definition str (v : json) : option string :=
  match v with
  | JStr s => Some s
  | JInt z => Some (PyStr.of_Z z)
  | JBool true => Some "True"
  | JBool false => Some "False"
  | JNull => Some "None"
  | _ => None
  end.

End Py.

(** ** The builtins [int] and [float] used as typecasts *)

Module PyNum.

Definition is_digit (c : ascii) : bool :=
  let n := nat_of_ascii c in (48 <=? n)%nat && (n <=? 57)%nat.

Definition digit_val (c : ascii) : Z := Z.of_nat (nat_of_ascii c) - 48.

Definition is_underscore (c : ascii) : bool := Ascii.eqb c "_"%char.

(** An underscore is accepted only between two digits. *)
Fixpoint underscores_ok (prev : option ascii) (l : list ascii) : bool :=
  match l with
  | [] => match prev with
          | Some p => negb (is_underscore p)
          | None => true
          end
  | c :: l' =>
      (if is_underscore c
       then match prev with Some p => is_digit p | None => false end
       else match prev with
            | Some p => if is_underscore p then is_digit c else true
            | None => true
            end)
      && underscores_ok (Some c) l'
  end.

Definition drop_underscores (l : list ascii) : list ascii :=
  filter (fun c => negb (is_underscore c)) l.

Definition sign (l : list ascii) : bool * list ascii :=
  match l with
  | "-"%char :: l' => (true, l')
  | "+"%char :: l' => (false, l')
  | _ => (false, l)
  end.

Fixpoint take_digits (l : list ascii) : list ascii * list ascii :=
  match l with
  | c :: l' =>
      if is_digit c
      then let '(ds, rest) := take_digits l' in (c :: ds, rest)
      else ([], l)
  | [] => ([], [])
  end.

Definition digits_value (ds : list ascii) : Z :=
  fold_left (fun acc c => 10 * acc + digit_val c) ds 0.

(** The white space [int] and [float] skip around a number: C's
    [isspace], that is TAB..CR and the blank.  ([str.strip] also drops
    FS..US; these builtins take them for stray characters.) *)
Definition is_c_space (c : ascii) : bool :=
  let n := nat_of_ascii c in
  ((9 <=? n)%nat && (n <=? 13)%nat) || (n =? 32)%nat.

Fixpoint skip_space (l : list ascii) : list ascii :=
  match l with
  | c :: l' => if is_c_space c then skip_space l' else l
  | [] => []
  end.

Definition strip_space (l : list ascii) : list ascii :=
  rev (skip_space (rev (skip_space l))).

(** The text a numeric builtin looks at: white space skipped at both
    ends, underscores checked and removed; [None] when an underscore is
    misplaced. *)
Definition numeric_text (s : string) : option (list ascii) :=
  let l := strip_space (list_ascii_of_string s) in
  if underscores_ok None l then Some (drop_underscores l) else None.

(** [sys.get_int_max_str_digits()] as the interpreter starts: a decimal
    text with more digits than this is refused by [int]. *)
Definition int_max_str_digits : Z := 4300.

(** [int(s)] for text, base ten. *)
Definition int_of_string (s : string) : result Z :=
  match numeric_text s with
  | None => Raise ValueError
  | Some l =>
      let '(neg, l1) := sign l in
      let '(ds, rest) := take_digits l1 in
      match ds, rest with
      | _ :: _, [] =>
          if int_max_str_digits <? Z.of_nat (List.length ds)
          then Raise ValueError
          else Return (if neg then - digits_value ds else digits_value ds)
      | _, _ => Raise ValueError
      end
  end.

(** The double nearest to [(-1)^neg * m * 10^e10] (ties to even), for
    [0 <= m]; overflow gives an infinity. *)
Definition float_of_decimal (neg : bool) (m e10 : Z) : float :=
  match m with
  | Zpos pm =>
      if 0 <=? e10
      then SF2Prim (binary_normalize prec emax
                      ((if neg then - m else m) * 10 ^ e10) 0 false)
      else SF2Prim (SFdiv prec emax
                      (S754_finite neg pm 0)
                      (S754_finite false (Z.to_pos (10 ^ (- e10))) 0))
  | _ => if neg then neg_zero else PrimFloat.zero
  end.

Definition lower_text (l : list ascii) : string :=
  PyStr.lower (string_of_list_ascii l).

(** [float(s)] for text. *)
Definition float_of_string (s : string) : result float :=
  match numeric_text s with
  | None => Raise ValueError
  | Some l =>
      let '(neg, l1) := sign l in
      let w := lower_text l1 in
      if String.eqb w "inf" || String.eqb w "infinity"
      then Return (if neg then neg_infinity else infinity)
      else if String.eqb w "nan" then Return nan
      else
        let '(ip, l2) := take_digits l1 in
        let '(fp, l3) :=
          match l2 with
          | "."%char :: l2' => take_digits l2'
          | _ => ([], l2)
          end in
        match ip ++ fp with
        | [] => Raise ValueError
        | ds =>
            let m := digits_value ds in
            let shift := Z.of_nat (List.length fp) in
            match l3 with
            | [] => Return (float_of_decimal neg m (- shift))
            | c :: l4 =>
                if Ascii.eqb c "e"%char || Ascii.eqb c "E"%char
                then
                  let '(eneg, l5) := sign l4 in
                  let '(es, l6) := take_digits l5 in
                  match es, l6 with
                  | _ :: _, [] =>
                      let e := digits_value es in
                      Return (float_of_decimal neg m
                                ((if eneg then - e else e) - shift))
                  | _, _ => Raise ValueError
                  end
                else Raise ValueError
            end
        end
  end.

(** [float(n)] for an integer: nearest double, [OverflowError] when the
    integer is too large. *)
Definition float_of_Z (z : Z) : result float :=
  match binary_normalize prec emax z 0 false with
  | S754_infinity _ => Raise OverflowError
  | sf => Return (SF2Prim sf)
  end.

(** [int(f)] for a float: truncation towards zero. *)
Definition Z_of_float (f : float) : result Z :=
  match Prim2SF f with
  | S754_zero _ => Return 0
  | S754_infinity _ => Raise OverflowError
  | S754_nan => Raise ValueError
  | S754_finite neg m e =>
      let a := if 0 <=? e then Zpos m * 2 ^ e else Zpos m / 2 ^ (- e) in
      Return (if neg then - a else a)
  end.

Definition int (v : json) : result json :=
  match v with
  | JInt z => Return (JInt z)
  | JBool b => Return (JInt (if b then 1 else 0))
  | JFloat f => do z <- Z_of_float f; Return (JInt z)
  | JStr s => do z <- int_of_string s; Return (JInt z)
  | _ => Raise TypeError
  end.

Definition float (v : json) : result json :=
  match v with
  | JFloat f => Return (JFloat f)
  | JInt z => do f <- float_of_Z z; Return (JFloat f)
  | JBool b => Return (JFloat (if b then PrimFloat.one else PrimFloat.zero))
  | JStr s => do f <- float_of_string s; Return (JFloat f)
  | _ => Raise TypeError
  end.

(** [str(v)] as a typecast. *)
Definition str (v : json) : result json :=
  match Py.str v with
  | Some s => Return (JStr s)
  | None => Beyond
  end.

End PyNum.

(** ** Enumerations of [tda/__init__.py] and their lookup *)

(** What an [Enum] class offers to a lookup: its canonical members in
    definition order, their values, and the member bound to the name
    [UNSUPPORTED] when the class body declares one. *)
Record enum_class (M : Type) : Type := EnumClass {
  members : list M;
  member_value : M -> string;
  UNSUPPORTED_member : option M
}.
Arguments EnumClass {M} _ _ _.
Arguments members {M} _.
Arguments member_value {M} _ _.
Arguments UNSUPPORTED_member {M} _.

Section EnumLookup.
Context {M : Type}.
Variable cls : enum_class M.

Definition value_matches (name : string) (member : M) : bool :=
    String.eqb (PyStr.lower (member_value cls member))
               (PyStr.lower (PyStr.strip name)).

  (** [cls.UNSUPPORTED]: an [AttributeError] when the class has no such
      member. *)
Definition cls_UNSUPPORTED : result M :=
    match UNSUPPORTED_member cls with
    | Some u => Return u
    | None => Raise (AttributeError "UNSUPPORTED")
    end.

  (** [_enum_case_insensitive_search_by_value] (and its twin
      [_enum_case_insensitive_search_by_typecasted_value], where
      [member_value] reads the first component of the member's value).
      [name.strip()] is evaluated while the members are filtered: a
      [name] that is not text has no [strip]. *)
Definition _enum_case_insensitive_search_by_value (name : json) : result M :=
    match name, members cls with
    | _, [] => cls_UNSUPPORTED
    | JStr name, ms =>
        match filter (value_matches name) ms with
        | member :: _ => Return member
        | [] => cls_UNSUPPORTED
        end
    | _, _ :: _ => Raise (AttributeError "strip")
    end.

  (** [cls(v)] for a class whose [_missing_] calls the search: the member
      whose value is [v], else what [_missing_] returns. *)
Definition enum_call (v : json) : result M :=
    match v with
    | JStr s =>
        match find (fun member => String.eqb (member_value cls member) s)
                   (members cls) with
        | Some member => Return member
        | None => _enum_case_insensitive_search_by_value v
        end
    | _ => _enum_case_insensitive_search_by_value v
    end.
End EnumLookup.

(** The callables stored as [typecast] in the typed field enumerations. *)
Inductive typecast_fn : Type := py_str | py_int | py_float.

Definition call_typecast (t : typecast_fn) (v : json) : result json :=
  match t with
  | py_str => PyNum.str v
  | py_int => PyNum.int v
  | py_float => PyNum.float v
  end.

Module tda.

Inductive ChartBarField : Type :=
| CB_SYMBOL | CB_TIMESTAMP | CB_OPEN_PRICE | CB_HIGH_PRICE | CB_LOW_PRICE
| CB_CLOSE_PRICE | CB_VOLUME | CB_UNSUPPORTED.

Definition ChartBarField_value (f : ChartBarField) : string * typecast_fn :=
  match f with
  | CB_SYMBOL      => ("symbol", py_str)
  | CB_TIMESTAMP   => ("datetime", py_int)
  | CB_OPEN_PRICE  => ("open", py_float)
  | CB_HIGH_PRICE  => ("high", py_float)
  | CB_LOW_PRICE   => ("low", py_float)
  | CB_CLOSE_PRICE => ("close", py_float)
  | CB_VOLUME      => ("volume", py_int)
  | CB_UNSUPPORTED => ("", py_str)
  end.

Inductive InstrumentType : Type :=
| IT_EQUITY | IT_OPTION | IT_MUTUAL_FUND | IT_CASH_EQUIVALENT
| IT_FIXED_INCOME | IT_CURRENCY | IT_INDEX | IT_UNSUPPORTED.

Definition InstrumentType_value (t : InstrumentType) : string :=
  match t with
  | IT_EQUITY          => "EQUITY"
  | IT_OPTION          => "OPTION"
  | IT_MUTUAL_FUND     => "MUTUAL_FUND"
  | IT_CASH_EQUIVALENT => "CASH_EQUIVALENT"
  | IT_FIXED_INCOME    => "FIXED_INCOME"
  | IT_CURRENCY        => "CURRENCY"
  | IT_INDEX           => "INDEX"
  | IT_UNSUPPORTED     => ""
  end.

Inductive OptionContractField : Type :=
| OC_SYMBOL | OC_DESCRIPTION | OC_OPEX | OC_SETTLEMENT_TYPE | OC_STRIKE
| OC_CONTRACT_TYPE | OC_BID_PRICE | OC_ASK_PRICE | OC_LAST_PRICE
| OC_MARK_PRICE | OC_VOLUME | OC_VOLATILITY | OC_OPEN_INTEREST
| OC_BID_SIZE | OC_ASK_SIZE | OC_LAST_SIZE | OC_DELTA | OC_GAMMA
| OC_THETA | OC_UNSUPPORTED.

Definition OptionContractField_value (f : OptionContractField)
  : string * typecast_fn :=
  match f with
  | OC_SYMBOL          => ("symbol", py_str)
  | OC_DESCRIPTION     => ("description", py_str)
  | OC_OPEX            => ("expirationDate", py_int)
  | OC_SETTLEMENT_TYPE => ("settlementType", py_str)
  | OC_STRIKE          => ("strikePrice", py_float)
  | OC_CONTRACT_TYPE   => ("putCall", py_str)
  | OC_BID_PRICE       => ("bid", py_float)
  | OC_ASK_PRICE       => ("ask", py_float)
  | OC_LAST_PRICE      => ("last", py_float)
  | OC_MARK_PRICE      => ("mark", py_float)
  | OC_VOLUME          => ("volume", py_int)
  | OC_VOLATILITY      => ("volatility", py_float)
  | OC_OPEN_INTEREST   => ("openInterest", py_int)
  | OC_BID_SIZE        => ("bidSize", py_int)
  | OC_ASK_SIZE        => ("askSize", py_int)
  | OC_LAST_SIZE       => ("lastSize", py_int)
  | OC_DELTA           => ("delta", py_float)
  | OC_GAMMA           => ("gamma", py_float)
  | OC_THETA           => ("theta", py_float)
  | OC_UNSUPPORTED     => ("", py_str)
  end.

Inductive QuoteField : Type :=
| Q_SYMBOL | Q_DESCRIPTION | Q_BID_PRICE | Q_ASK_PRICE | Q_LAST_PRICE
| Q_MARK_PRICE | Q_BID_SIZE | Q_ASK_SIZE | Q_LAST_SIZE | Q_VOLATILITY
| Q_QUOTE_TIMESTAMP | Q_LAST_TIMESTAMP | Q_UNSUPPORTED.

Definition QuoteField_value (f : QuoteField) : string * typecast_fn :=
  match f with
  | Q_SYMBOL          => ("symbol", py_str)
  | Q_DESCRIPTION     => ("description", py_str)
  | Q_BID_PRICE       => ("bidPrice", py_float)
  | Q_ASK_PRICE       => ("askPrice", py_float)
  | Q_LAST_PRICE      => ("lastPrice", py_float)
  | Q_MARK_PRICE      => ("mark", py_float)
  | Q_BID_SIZE        => ("bidSize", py_int)
  | Q_ASK_SIZE        => ("askSize", py_int)
  | Q_LAST_SIZE       => ("lastSize", py_int)
  | Q_VOLATILITY      => ("volatility", py_float)
  | Q_QUOTE_TIMESTAMP => ("quoteTimestamp", py_int)
  | Q_LAST_TIMESTAMP  => ("lastTimestamp", py_int)
  | Q_UNSUPPORTED     => ("", py_str)
  end.

(** [field.typecast], set by [__init__] from the member's value. *)
Definition ChartBarField_typecast f := snd (ChartBarField_value f).
Definition OptionContractField_typecast f := snd (OptionContractField_value f).
Definition QuoteField_typecast f := snd (QuoteField_value f).

Definition ChartBarField_class : enum_class ChartBarField :=
  EnumClass
    [CB_SYMBOL; CB_TIMESTAMP; CB_OPEN_PRICE; CB_HIGH_PRICE; CB_LOW_PRICE;
     CB_CLOSE_PRICE; CB_VOLUME; CB_UNSUPPORTED]
    (fun f => fst (ChartBarField_value f))
    (Some CB_UNSUPPORTED).

Definition InstrumentType_class : enum_class InstrumentType :=
  EnumClass
    [IT_EQUITY; IT_OPTION; IT_MUTUAL_FUND; IT_CASH_EQUIVALENT;
     IT_FIXED_INCOME; IT_CURRENCY; IT_INDEX; IT_UNSUPPORTED]
    InstrumentType_value
    (Some IT_UNSUPPORTED).

Definition OptionContractField_class : enum_class OptionContractField :=
  EnumClass
    [OC_SYMBOL; OC_DESCRIPTION; OC_OPEX; OC_SETTLEMENT_TYPE; OC_STRIKE;
     OC_CONTRACT_TYPE; OC_BID_PRICE; OC_ASK_PRICE; OC_LAST_PRICE;
     OC_MARK_PRICE; OC_VOLUME; OC_VOLATILITY; OC_OPEN_INTEREST;
     OC_BID_SIZE; OC_ASK_SIZE; OC_LAST_SIZE; OC_DELTA; OC_GAMMA;
     OC_THETA; OC_UNSUPPORTED]
    (fun f => fst (OptionContractField_value f))
    (Some OC_UNSUPPORTED).

Definition QuoteField_class : enum_class QuoteField :=
  EnumClass
    [Q_SYMBOL; Q_DESCRIPTION; Q_BID_PRICE; Q_ASK_PRICE; Q_LAST_PRICE;
     Q_MARK_PRICE; Q_BID_SIZE; Q_ASK_SIZE; Q_LAST_SIZE; Q_VOLATILITY;
     Q_QUOTE_TIMESTAMP; Q_LAST_TIMESTAMP; Q_UNSUPPORTED]
    (fun f => fst (QuoteField_value f))
    (Some Q_UNSUPPORTED).

(** The names bound in the namespace of the package [tda]: the globals
    of [tda/__init__.py], and the submodules bound by [import tda.api]
    and by the import of [tda.streaming] itself. *)
Definition namespace : list string :=
  ["logging"; "Enum"; "auto"; "logger"; "oauth_access_token";
   "oauth_access_token_expires_at"; "oauth_cache_path";
   "oauth_url_template"; "requests_timeout"; "ChartBarField";
   "InstrumentType"; "OptionContractField"; "QuoteField";
   "_enum_case_insensitive_search_by_typecasted_value";
   "_enum_case_insensitive_search_by_value"; "api"; "streaming"].

(** [tda.<name>]: attribute access on the package. *)
Definition getattr (name : string) : result unit :=
  if existsb (String.eqb name) namespace
  then Return tt
  else Raise (AttributeError name).

End tda.

(** [OrderStatus] is declared in [tda/api.py]. *)
Module tda_api.

Inductive OrderStatus : Type :=
| UNINITIALIZED | AWAITING_PARENT_ORDER | AWAITING_CONDITION
| AWAITING_MANUAL_REVIEW | ACCEPTED | AWAITING_UR_OUT | PENDING_ACTIVATION
| QUEUED | WORKING | REJECTED | PENDING_CANCEL | CANCELED | PENDING_REPLACE
| REPLACED | FILLED | EXPIRED.

Definition OrderStatus_value (s : OrderStatus) : string :=
  match s with
  | UNINITIALIZED          => ""
  | AWAITING_PARENT_ORDER  => "AWAITING_PARENT_ORDER"
  | AWAITING_CONDITION     => "AWAITING_CONDITION"
  | AWAITING_MANUAL_REVIEW => "AWAITING_MANUAL_REVIEW"
  | ACCEPTED               => "ACCEPTED"
  | AWAITING_UR_OUT        => "AWAITING_UR_OUT"
  | PENDING_ACTIVATION     => "PENDING_ACTIVATION"
  | QUEUED                 => "QUEUED"
  | WORKING                => "WORKING"
  | REJECTED               => "REJECTED"
  | PENDING_CANCEL         => "PENDING_CANCEL"
  | CANCELED               => "CANCELED"
  | PENDING_REPLACE        => "PENDING_REPLACE"
  | REPLACED               => "REPLACED"
  | FILLED                 => "FILLED"
  | EXPIRED                => "EXPIRED"
  end.

End tda_api.

(** ** Enumerations of [tda/streaming.py] *)

Inductive WSAccountActivityField : Type :=
| AA_SUBSCRIPTION_KEY | AA_ACCOUNT_ID | AA_MESSAGE_TYPE | AA_MESSAGE_DATA.

Definition WSAccountActivityField_value (f : WSAccountActivityField) : Z :=
  match f with
  | AA_SUBSCRIPTION_KEY => 0
  | AA_ACCOUNT_ID       => 1
  | AA_MESSAGE_TYPE     => 2
  | AA_MESSAGE_DATA     => 3
  end.

Inductive WSChartEquityField : Type :=
| CE_SYMBOL | CE_OPEN_PRICE | CE_HIGH_PRICE | CE_LOW_PRICE | CE_CLOSE_PRICE
| CE_VOLUME | CE_SEQUENCE | CE_TIMESTAMP.

Definition WSChartEquityField_value (f : WSChartEquityField) : Z :=
  match f with
  | CE_SYMBOL      => 0
  | CE_OPEN_PRICE  => 1
  | CE_HIGH_PRICE  => 2
  | CE_LOW_PRICE   => 3
  | CE_CLOSE_PRICE => 4
  | CE_VOLUME      => 5
  | CE_SEQUENCE    => 6
  | CE_TIMESTAMP   => 7
  end.

Inductive WSCommand : Type := LOGIN | LOGOUT | QOS | SUBS | UNSUBS.

Definition WSCommand_value (c : WSCommand) : string :=
  match c with
  | LOGIN  => "LOGIN"
  | LOGOUT => "LOGOUT"
  | QOS    => "QOS"
  | SUBS   => "SUBS"
  | UNSUBS => "UNSUBS"
  end.

Inductive WSOptionContractField : Type :=
| WO_SYMBOL | WO_DESCRIPTION | WO_BID_PRICE | WO_ASK_PRICE | WO_LAST_PRICE
| WO_MARK_PRICE | WO_VOLUME | WO_OPEN_INTEREST | WO_VOLATILITY
| WO_BID_SIZE | WO_ASK_SIZE | WO_LAST_SIZE | WO_DELTA.

Definition WSOptionContractField_value (f : WSOptionContractField) : Z :=
  match f with
  | WO_SYMBOL        => 0
  | WO_DESCRIPTION   => 1
  | WO_BID_PRICE     => 2
  | WO_ASK_PRICE     => 3
  | WO_LAST_PRICE    => 4
  | WO_MARK_PRICE    => 41
  | WO_VOLUME        => 8
  | WO_OPEN_INTEREST => 9
  | WO_VOLATILITY    => 10
  | WO_BID_SIZE      => 20
  | WO_ASK_SIZE      => 21
  | WO_LAST_SIZE     => 22
  | WO_DELTA         => 32
  end.

(** The canonical members; [D500MS] .. [D5000MS] are aliases of them. *)
Inductive WSQOSLevel : Type :=
| EXPRESS | REAL_TIME | FAST | MODERATE | SLOW | DELAYED.

Definition WSQOSLevel_value (q : WSQOSLevel) : Z :=
  match q with
  | EXPRESS   => 0
  | REAL_TIME => 1
  | FAST      => 2
  | MODERATE  => 3
  | SLOW      => 4
  | DELAYED   => 5
  end.

Inductive WSQuoteField : Type :=
| WQ_SYMBOL | WQ_BID_PRICE | WQ_ASK_PRICE | WQ_LAST_PRICE | WQ_MARK_PRICE
| WQ_BID_SIZE | WQ_ASK_SIZE | WQ_LAST_SIZE | WQ_VOLATILITY | WQ_DESCRIPTION
| WQ_QUOTE_TIMESTAMP | WQ_LAST_TIMESTAMP.

Definition WSQuoteField_value (f : WSQuoteField) : Z :=
  match f with
  | WQ_SYMBOL          => 0
  | WQ_BID_PRICE       => 1
  | WQ_ASK_PRICE       => 2
  | WQ_LAST_PRICE      => 3
  | WQ_MARK_PRICE      => 49
  | WQ_BID_SIZE        => 4
  | WQ_ASK_SIZE        => 5
  | WQ_LAST_SIZE       => 9
  | WQ_VOLATILITY      => 24
  | WQ_DESCRIPTION     => 25
  | WQ_QUOTE_TIMESTAMP => 50
  | WQ_LAST_TIMESTAMP  => 51
  end.

Inductive WSService : Type :=
| ACCT_ACTIVITY | ADMIN | CHART_EQUITY | OPTION | QUOTE | TIMESALE_EQUITY.

Definition WSService_value (s : WSService) : string :=
  match s with
  | ACCT_ACTIVITY   => "ACCT_ACTIVITY"
  | ADMIN           => "ADMIN"
  | CHART_EQUITY    => "CHART_EQUITY"
  | OPTION          => "OPTION"
  | QUOTE           => "QUOTE"
  | TIMESALE_EQUITY => "TIMESALE_EQUITY"
  end.

Inductive WSTimesaleEquityField : Type :=
| TS_SYMBOL | TS_TRADE_TIME | TS_LAST_PRICE | TS_LAST_SIZE | TS_LAST_SEQUENCE.

Definition WSTimesaleEquityField_value (f : WSTimesaleEquityField) : Z :=
  match f with
  | TS_SYMBOL        => 0
  | TS_TRADE_TIME    => 1
  | TS_LAST_PRICE    => 2
  | TS_LAST_SIZE     => 3
  | TS_LAST_SEQUENCE => 4
  end.

(** [WSCommand] and [WSService] route [_missing_] to the search of
    [tda/__init__.py]; their class bodies declare no [UNSUPPORTED]. *)
Definition WSCommand_class : enum_class WSCommand :=
  EnumClass [LOGIN; LOGOUT; QOS; SUBS; UNSUBS] WSCommand_value None.

Definition WSService_class : enum_class WSService :=
  EnumClass
    [ACCT_ACTIVITY; ADMIN; CHART_EQUITY; OPTION; QUOTE; TIMESALE_EQUITY]
    WSService_value None.

(** [WSService(v)] and [WSCommand(v)]. *)
Definition WSService_of (v : json) : result WSService :=
  enum_call WSService_class v.

Definition WSCommand_of (v : json) : result WSCommand :=
  enum_call WSCommand_class v.

#[export] Instance WSService_eq_dec : EqDecision WSService.
Proof. solve_decision. Defined.

(** A member of one of the five numeric field maps, as passed in the
    [fields] list of a subscription. *)
Inductive ws_field : Type :=
| AcctField (f : WSAccountActivityField)
| ChartField (f : WSChartEquityField)
| OptionField (f : WSOptionContractField)
| QuoteField_ (f : WSQuoteField)
| TimesaleField (f : WSTimesaleEquityField).

Definition ws_field_value (f : ws_field) : Z :=
  match f with
  | AcctField f => WSAccountActivityField_value f
  | ChartField f => WSChartEquityField_value f
  | OptionField f => WSOptionContractField_value f
  | QuoteField_ f => WSQuoteField_value f
  | TimesaleField f => WSTimesaleEquityField_value f
  end.

(** The names bound at the top level of [tda/streaming.py]: its imports,
    [logger], its classes and its functions. *)
Definition streaming_globals : list string :=
  ["asyncio"; "dateutil"; "json"; "logging"; "tda"; "urllib"; "websockets";
   "Enum"; "auto"; "logger";
   "WSAccountActivityField"; "WSChartEquityField"; "WSCommand";
   "WSOptionContractField"; "WSQOSLevel"; "WSQuoteField"; "WSService";
   "WSTimesaleEquityField";
   "ws_connect"; "ws_disconnect"; "ws_listen";
   "ws_subscribe_to_acct_activity"; "ws_subscribe_to_chart_equity";
   "ws_subscribe_to_option"; "ws_subscribe_to_quote";
   "ws_subscribe_to_timesale_equity";
   "_ws_distill_data"; "_ws_resubscribe"; "_ws_subscribe"].

(** Reading a global name inside a function of [tda/streaming.py]. *)
Definition global_name (name : string) : result unit :=
  if existsb (String.eqb name) streaming_globals
  then Return tt
  else Raise (NameError name).

(** ** Decoded records *)

(** Keys of the dicts the decoder builds: text, or a member of a field
    enumeration. *)
Inductive key : Type :=
| KText (s : string)
| KChartBar (f : tda.ChartBarField)
| KOptionContract (f : tda.OptionContractField)
| KQuote (f : tda.QuoteField)
| KTimesale (f : WSTimesaleEquityField).

#[export] Instance ChartBarField_eq_dec : EqDecision tda.ChartBarField.
Proof. solve_decision. Defined.
#[export] Instance OptionContractField_eq_dec :
  EqDecision tda.OptionContractField.
Proof. solve_decision. Defined.
#[export] Instance QuoteField_eq_dec : EqDecision tda.QuoteField.
Proof. solve_decision. Defined.
#[export] Instance WSTimesaleEquityField_eq_dec :
  EqDecision WSTimesaleEquityField.
Proof. solve_decision. Defined.
#[export] Instance key_eq_dec : EqDecision key.
Proof. solve_decision. Defined.

(** A dict in insertion order. *)
Definition record : Type := list (key * json).

Fixpoint dict_get (k : key) (d : record) : option json :=
  match d with
  | [] => None
  | (k', v) :: d' => if decide (k = k') then Some v else dict_get k d'
  end.

(** [d[k] = v]: the value is replaced in place when [k] is there, the
    entry is added last otherwise. *)
Fixpoint dict_set (k : key) (v : json) (d : record) : record :=
  match d with
  | [] => [(k, v)]
  | (k', v') :: d' =>
      if decide (k = k') then (k', v) :: d' else (k', v') :: dict_set k v d'
  end.

(** What [_ws_distill_data] hands back when it is not [None]: one dict
    for account activity, a list of dicts for the other services. *)
Inductive distilled : Type :=
| DRecord (r : record)
| DList (rs : list record).

(** Records written at error level: a message with the value formatted
    into it, or a value logged as it is.  Debug records are left out. *)
Inductive log_entry : Type :=
| LogError (message : string) (arg : json)
| LogValue (v : json).

Fixpoint for_each {A B : Type} (f : A -> result B) (l : list A)
  : result (list B) :=
  match l with
  | [] => Return []
  | x :: l' =>
      do y <- f x;
      do ys <- for_each f l';
      Return (y :: ys)
  end.

(** ** [_ws_distill_data] *)

Section Comprehension.
Context {W F : Type}.
Variable ws_value : W -> Z.
Variable typecast : F -> typecast_fn.
Variable as_key : F -> key.

  (** [{field: field.typecast(item[str(ws_field.value)])
        for ws_field, field in field_map.items()
        if str(ws_field.value) in item}], filled entry by entry. *)
Fixpoint comprehension (field_map : list (W * F)) (item : json)
      (acc : record) : result record :=
    match field_map with
    | [] => Return acc
    | (ws_field, field) :: rest =>
        let index := PyStr.of_Z (ws_value ws_field) in
        do present <- Py.contains index item;
        if (present : bool)
        then
          do raw <- Py.getitem item index;
          do v <- call_typecast (typecast field) raw;
          comprehension rest item (dict_set (as_key field) v acc)
        else comprehension rest item acc
    end.

  (** One pass of the loop body: the comprehension, then the symbol. *)
Definition distill_item (field_map : list (W * F)) (SYMBOL : F)
      (item : json) : result record :=
    do item_prime <- comprehension field_map item [];
    do symbol <- Py.getitem item "key";
    Return (dict_set (as_key SYMBOL) symbol item_prime).
End Comprehension.

Definition chart_equity_field_map
  : list (WSChartEquityField * tda.ChartBarField) :=
  [ (CE_TIMESTAMP,   tda.CB_TIMESTAMP);
    (CE_OPEN_PRICE,  tda.CB_OPEN_PRICE);
    (CE_HIGH_PRICE,  tda.CB_HIGH_PRICE);
    (CE_LOW_PRICE,   tda.CB_LOW_PRICE);
    (CE_CLOSE_PRICE, tda.CB_CLOSE_PRICE);
    (CE_VOLUME,      tda.CB_VOLUME) ].

Definition option_field_map
  : list (WSOptionContractField * tda.OptionContractField) :=
  [ (WO_BID_PRICE,     tda.OC_BID_PRICE);
    (WO_ASK_PRICE,     tda.OC_ASK_PRICE);
    (WO_LAST_PRICE,    tda.OC_LAST_PRICE);
    (WO_MARK_PRICE,    tda.OC_MARK_PRICE);
    (WO_VOLUME,        tda.OC_VOLUME);
    (WO_VOLATILITY,    tda.OC_VOLATILITY);
    (WO_OPEN_INTEREST, tda.OC_OPEN_INTEREST);
    (WO_BID_SIZE,      tda.OC_BID_SIZE);
    (WO_ASK_SIZE,      tda.OC_ASK_SIZE);
    (WO_LAST_SIZE,     tda.OC_LAST_SIZE);
    (WO_DELTA,         tda.OC_DELTA) ].

Definition quote_field_map : list (WSQuoteField * tda.QuoteField) :=
  [ (WQ_BID_PRICE,       tda.Q_BID_PRICE);
    (WQ_ASK_PRICE,       tda.Q_ASK_PRICE);
    (WQ_LAST_PRICE,      tda.Q_LAST_PRICE);
    (WQ_MARK_PRICE,      tda.Q_MARK_PRICE);
    (WQ_BID_SIZE,        tda.Q_BID_SIZE);
    (WQ_ASK_SIZE,        tda.Q_ASK_SIZE);
    (WQ_LAST_SIZE,       tda.Q_LAST_SIZE);
    (WQ_VOLATILITY,      tda.Q_VOLATILITY);
    (WQ_QUOTE_TIMESTAMP, tda.Q_QUOTE_TIMESTAMP);
    (WQ_LAST_TIMESTAMP,  tda.Q_LAST_TIMESTAMP) ].

Definition distill_bar : json -> result record :=
  distill_item WSChartEquityField_value tda.ChartBarField_typecast KChartBar
    chart_equity_field_map tda.CB_SYMBOL.

Definition distill_option : json -> result record :=
  distill_item WSOptionContractField_value tda.OptionContractField_typecast
    KOptionContract option_field_map tda.OC_SYMBOL.

Definition distill_quote : json -> result record :=
  distill_item WSQuoteField_value tda.QuoteField_typecast KQuote
    quote_field_map tda.Q_SYMBOL.

Definition ts_index (f : WSTimesaleEquityField) : string :=
  PyStr.of_Z (WSTimesaleEquityField_value f).

Definition distill_timesale (ts : json) : result record :=
  do symbol <- Py.getitem ts "key";
  let ts_prime := dict_set (KTimesale TS_SYMBOL) symbol [] in
  do trade_time <- Py.getitem ts (ts_index TS_TRADE_TIME);
  let ts_prime := dict_set (KTimesale TS_TRADE_TIME) trade_time ts_prime in
  do last_price <- Py.getitem ts (ts_index TS_LAST_PRICE);
  let ts_prime := dict_set (KTimesale TS_LAST_PRICE) last_price ts_prime in
  do raw_size <- Py.getitem ts (ts_index TS_LAST_SIZE);
  do last_size <- PyNum.int raw_size;
  let ts_prime := dict_set (KTimesale TS_LAST_SIZE) last_size ts_prime in
  do last_sequence <- Py.getitem ts (ts_index TS_LAST_SEQUENCE);
  Return (dict_set (KTimesale TS_LAST_SEQUENCE) last_sequence ts_prime).

(** [str(v).strip().upper()] of the message type.  Where [str] is the
    [repr] of a float, a list or a dict there is no text here ([None]):
    such a [repr] holds a digit, a bracket, a brace, [inf] or [nan], so
    it is none of the four literals the decoder compares with. *)
Definition message_type_of (v : json) : option string :=
  option_map (fun s => PyStr.upper (PyStr.strip s)) (Py.str v).

(** The branch of a recognised message type:
    [data_prime['status'] = tda.OrderStatus.<member>.value], then the
    account id and the order key read out of the XML message.  The XML
    library itself is not rendered: the branch stops at the name [ET]. *)
Definition distill_order (content : json) (status : tda_api.OrderStatus)
  : result (option distilled) :=
  do _ <- tda.getattr "OrderStatus";
  let data_prime :=
    dict_set (KText "status") (JStr (tda_api.OrderStatus_value status)) [] in
  do account_id <-
    Py.getitem content (PyStr.of_Z (WSAccountActivityField_value AA_ACCOUNT_ID));
  let data_prime := dict_set (KText "accountId") account_id data_prime in
  do message_xml <-
    Py.getitem content (PyStr.of_Z (WSAccountActivityField_value AA_MESSAGE_DATA));
  do _ <- global_name "ET";
  Beyond.

Definition distill_acct_activity (content : json) : result (option distilled) :=
  do content <- Py.first content;
  do raw <-
    Py.getitem content (PyStr.of_Z (WSAccountActivityField_value AA_MESSAGE_TYPE));
  match message_type_of raw with
  | Some message_type =>
      if String.eqb message_type "ORDERENTRYREQUEST"
      then distill_order content tda_api.QUEUED
      else if String.eqb message_type "ORDERFILL"
      then distill_order content tda_api.FILLED
      else if String.eqb message_type "UROUT"
      then distill_order content tda_api.CANCELED
      else if String.eqb message_type "ORDERREJECTION"
      then distill_order content tda_api.REJECTED
      else Return None
  | None => Return None
  end.

Definition distill_list (f : json -> result record) (content : json)
  : result (option distilled) :=
  do items <- Py.iter content;
  do data_prime <- for_each f items;
  Return (Some (DList data_prime)).

(** ['content' not in data or len(data['content']) == 0]. *)
Definition content_missing (data : json) : result bool :=
  do present <- Py.contains "content" data;
  if (present : bool)
  then
    do content <- Py.getitem data "content";
    do n <- Py.len content;
    Return (n =? 0)
  else Return true.

(** The decoder: the error records it logs and what it returns. *)
Definition _ws_distill_data (data : json)
  : list log_entry * result (option distilled) :=
  let start :=
    do name <- Py.getitem data "service";
    do service <- WSService_of name;
    do missing <- content_missing data;
    Return (service, missing) in
  match start with
  | Raise e => ([], Raise e)
  | Beyond => ([], Beyond)
  | Return (_, true) =>
      ([LogError "Missing expected content: {}" data], Return None)
  | Return (service, false) =>
      ([],
       do content <- Py.getitem data "content";
       match service with
       | ACCT_ACTIVITY => distill_acct_activity content
       | CHART_EQUITY => distill_list distill_bar content
       | OPTION => distill_list distill_option content
       | QUOTE => distill_list distill_quote content
       | TIMESALE_EQUITY => distill_list distill_timesale content
       | ADMIN => Return None
       end)
  end.

(** ** The session: handle, world and effects *)

(** What a consumer callback does when it is called, besides being
    recorded: it returns, it returns after setting [flags['done']], or it
    raises. *)
Inductive cb_effect : Type :=
| CbReturns
| CbSetsDone
| CbRaises (e : exn).

Record callback : Type := Callback {
  cb_name : string;
  cb_run : distilled -> json -> cb_effect
}.

(** One invocation [cb_function(distilled_data, context)]. *)
Record call : Type := Called {
  called_name : string;
  called_data : distilled;
  called_context : json
}.

(** The dict stored under [ws[service.value]]. *)
Record subscription : Type := Subscription {
  fields : list ws_field;
  symbols : option (list string);
  process_first_data : bool;
  cb_functions : list callback;
  cb_data : option (list json)
}.

(** The dict [ws] made by [ws_connect]: its five fixed keys, and the
    entries added under the service values (no service value is one of
    the fixed keys).  The key ['websocket'] is the [socket] of the world. *)
Record handle : Type := Handle {
  account : json;
  principal : json;
  qos : WSQOSLevel;
  next_request_id : Z;
  services : gmap string subscription
}.

(** What the HTTP library gives for a request: [requests.get] raises, or
    it returns a response with its [ok] flag, its [reason] and what
    [response.json()] gives. *)
Inductive http_answer : Type :=
| HttpRaises (message : string)
| HttpResponse (ok : bool) (reason : string) (body : result json).

(** [tda.api._get_user_principals(...)], given what [_get_access_token]
    and [requests.get] give (the arguments only shape the URL of the
    request): the error records it writes and what it returns, which is
    [None] when the request fails and the body of the response
    otherwise.  [None] is [JNull], as for [json.loads]. *)
Definition _get_user_principals (access_token : result string)
    (answer : http_answer) : list log_entry * result json :=
  match access_token with
  | Raise e => ([], Raise e)
  | Beyond => ([], Beyond)
  | Return _ =>
      match answer with
      | HttpRaises message => ([LogValue (JStr message)], Return JNull)
      | HttpResponse false reason _ => ([LogValue (JStr reason)], Return JNull)
      | HttpResponse true _ body => ([], body)
      end
  end.

(** What one call of [ws_connect] meets: what [_get_access_token] and
    [requests.get] give to [tda.api._get_user_principals], the token
    time stamp in milliseconds as [dateutil] reads it, and the frames the
    websocket opened by [websockets.connect] will deliver (or the
    exception [connect] raises, [ConnectFailure] for a refused
    connection). *)
Record attempt : Type := Attempt {
  at_access_token : result string;
  at_user_principals : http_answer;
  at_token_timestamp_ms : result Z;
  at_connect : result (list json)
}.

(** The world a session runs in.  [socket]: the frames the open websocket
    still delivers, in order; once they are read the connection is found
    closed ([ConnectionClosedError]).  [attempts]: what the next calls of
    [ws_connect] meet.  [sent]: the requests written, oldest first.
    [ws]: the handle dict shared by all functions.  [done]:
    [flags['done']]. *)
Record world : Type := World {
  ws : handle;
  socket : list json;
  attempts : list attempt;
  sent : list json;
  log : list log_entry;
  calls : list call;
  done : bool
}.

Definition M (A : Type) : Type := world -> result A * world.

Definition ret {A : Type} (a : A) : M A := fun w => (Return a, w).
Definition lift {A : Type} (r : result A) : M A := fun w => (r, w).
Definition raise {A : Type} (e : exn) : M A := fun w => (Raise e, w).

Definition bindM {A B : Type} (m : M A) (k : A -> M B) : M B :=
  fun w =>
    match m w with
    | (Return a, w') => k a w'
    | (Raise e, w') => (Raise e, w')
    | (Beyond, w') => (Beyond, w')
    end.

Notation "'run' x <- m ; k" := (bindM m (fun x => k))
  (at level 10, x name, m at level 100, k at level 200) : py_scope.
Notation "'exec' m ; k" := (bindM m (fun _ => k))
  (at level 10, m at level 100, k at level 200) : py_scope.

Definition set_ws (h : handle) (w : world) : world :=
  World h (socket w) (attempts w) (sent w) (log w) (calls w) (done w).
Definition set_socket (s : list json) (w : world) : world :=
  World (ws w) s (attempts w) (sent w) (log w) (calls w) (done w).
Definition set_attempts (a : list attempt) (w : world) : world :=
  World (ws w) (socket w) a (sent w) (log w) (calls w) (done w).
Definition set_done (b : bool) (w : world) : world :=
  World (ws w) (socket w) (attempts w) (sent w) (log w) (calls w) b.

Definition get_ws : M handle := fun w => (Return (ws w), w).

(** [await websocket.send(json.dumps(request))]. *)
Definition send (request : json) : M unit :=
  fun w => (Return tt,
            World (ws w) (socket w) (attempts w) (sent w ++ [request])
                  (log w) (calls w) (done w)).

Definition logger_error (entries : list log_entry) : M unit :=
  fun w => (Return tt,
            World (ws w) (socket w) (attempts w) (sent w)
                  (log w ++ entries) (calls w) (done w)).

(** [response = {}; while key not in response:
       response = json.loads(await websocket.recv())]
    over the frames still to come: the first frame holding [key], and the
    frames after it. *)
Fixpoint await_frame (key : string) (frames : list json)
  : result json * list json :=
  match frames with
  | [] => (Raise ConnectionClosedError, [])
  | frame :: rest =>
      match Py.contains key frame with
      | Return true => (Return frame, rest)
      | Return false => await_frame key rest
      | Raise e => (Raise e, rest)
      | Beyond => (Beyond, rest)
      end
  end.

Definition await (key : string) : M json :=
  fun w =>
    let '(r, rest) := await_frame key (socket w) in (r, set_socket rest w).

(** [response['response'][0]['content']['code'] != 0]. *)
Definition response_failed (response : json) : result bool :=
  do responses <- Py.getitem response "response";
  do first <- Py.first responses;
  do content <- Py.getitem first "content";
  do code <- Py.getitem content "code";
  Return (Py.nonzero code).

(** One call of a consumer. *)
Definition invoke (cb : callback) (data : distilled) (context : json)
  : M unit :=
  fun w =>
    let w' := World (ws w) (socket w) (attempts w) (sent w) (log w)
                    (calls w ++ [Called (cb_name cb) data context]) (done w) in
    match cb_run cb data context with
    | CbReturns => (Return tt, w')
    | CbSetsDone => (Return tt, set_done true w')
    | CbRaises e => (Raise e, w')
    end.

(** [for cb_idx, cb_function in enumerate(entry['cb_functions']):
       cb_function(distilled_data, entry['cb_data'][cb_idx])],
    from position [cb_idx] on. *)
Fixpoint dispatch (functions : list callback) (cb_idx : nat)
    (contexts : option (list json)) (data : distilled) : M unit :=
  match functions with
  | [] => ret tt
  | cb_function :: rest =>
      match contexts with
      | None => raise TypeError
      | Some l =>
          match nth_error l cb_idx with
          | None => raise IndexError
          | Some context =>
              exec invoke cb_function data context;
              dispatch rest (S cb_idx) contexts data
          end
      end
  end.

(** ** [ws_connect] *)

(** The first account of [user_principal_dict['accounts']] whose
    ['accountId'] is the text [account_id]. *)
Fixpoint find_account (account_id : string) (accounts : list json)
  : result (option json) :=
  match accounts with
  | [] => Return None
  | listed_account :: rest =>
      do listed_id <- Py.getitem listed_account "accountId";
      if Py.is_str account_id listed_id
      then Return (Some listed_account)
      else find_account account_id rest
  end.

(** ['wss://' + url + '/ws']. *)
Definition socket_uri (url : json) : result string :=
  match url with
  | JStr u => Return (String.append "wss://" (String.append u "/ws"))
  | _ => Raise TypeError
  end.

(** The login request.  [credential] stands for the dict handed to
    [urllib.parse.urlencode]; the encoded text is not rendered. *)
Definition login_request (principal account : json) (timestamp_ms : Z)
    (q : WSQOSLevel) : result json :=
  do account_id <- Py.getitem account "accountId";
  do info <- Py.getitem principal "streamerInfo";
  do token <- Py.getitem info "token";
  do company <- Py.getitem account "company";
  do segment <- Py.getitem account "segment";
  do cddomain <- Py.getitem account "accountCdDomainId";
  do usergroup <- Py.getitem info "userGroup";
  do accesslevel <- Py.getitem info "accessLevel";
  do appid <- Py.getitem info "appId";
  do acl <- Py.getitem info "acl";
  let credentials :=
    JDict [ ("userid", account_id); ("token", token); ("company", company);
            ("segment", segment); ("cddomain", cddomain);
            ("usergroup", usergroup); ("accesslevel", accesslevel);
            ("authorized", JStr "Y"); ("timestamp", JInt timestamp_ms);
            ("appid", appid); ("acl", acl) ] in
  Return
    (JDict [ ("requests", JList [ JDict
      [ ("service", JStr (WSService_value ADMIN));
        ("command", JStr (WSCommand_value LOGIN));
        ("requestid", JInt 0);
        ("account", account_id);
        ("source", appid);
        ("parameters", JDict
           [ ("credential", credentials);
             ("token", token);
             ("version", JStr "1.0");
             ("qoslevel", JInt (WSQOSLevel_value q)) ]) ] ]) ]).

(** [_connect]: open the websocket, send the login request, wait for the
    first response frame; a non-zero code is logged and the websocket is
    returned all the same. *)
Definition _connect (frames : list json) (request : json) : M unit :=
  fun w =>
    (exec send request;
     run response <- await "response";
     run failed <- lift (response_failed response);
     if (failed : bool)
     then logger_error [LogError "Failed to LOGIN: {}" response]
     else ret tt) (set_socket frames w).

(** [x is None]. *)
Definition is_None (v : json) : bool :=
  match v with
  | JNull => true
  | _ => false
  end.

(** The call of [tda.api._get_user_principals] inside a session: its
    error records go to the log. *)
Definition fetch_user_principals (a : attempt) : M json :=
  exec logger_error
    (fst (_get_user_principals (at_access_token a) (at_user_principals a)));
  lift (snd (_get_user_principals (at_access_token a) (at_user_principals a))).

(** The double quotation mark, as a text of one character. *)
Definition double_quote : string :=
  String (Ascii false true false false false true false false) EmptyString.

(** The template of the error for an account id that is not listed: the
    account id is set between double quotation marks. *)
Definition account_mismatch : string :=
  String.append "Account ID "
    (String.append double_quote
       (String.append "{}"
          (String.append double_quote " does not match user principals."))).

(** [ws_connect(account_id, qos)]: the new handle dict, or [None].  The
    call takes the next scripted attempt; with none left the run is
    beyond the script. *)
Definition ws_connect (account_id : string) (q : WSQOSLevel)
  : M (option handle) :=
  fun w =>
    match attempts w with
    | [] => (Beyond, w)
    | a :: later =>
        (run user_principal_dict <- fetch_user_principals a;
         if is_None user_principal_dict
         then
           exec logger_error
             [LogError "Failed to retrieve user principals." JNull];
           ret None
         else
           run accounts <- lift (Py.getitem user_principal_dict "accounts");
           run listed <- lift (Py.iter accounts);
           run found <- lift (find_account account_id listed);
           match found with
           | None =>
               exec logger_error [LogError account_mismatch (JStr account_id)];
               ret None
           | Some acct =>
               run info <-
                 lift (Py.getitem user_principal_dict "streamerInfo");
               run _stamp <- lift (Py.getitem info "tokenTimestamp");
               run timestamp_ms <- lift (at_token_timestamp_ms a);
               run request <-
                 lift (login_request user_principal_dict acct timestamp_ms q);
               run url <- lift (Py.getitem info "streamerSocketUrl");
               run _uri <- lift (socket_uri url);
               run frames <- lift (at_connect a);
               exec _connect frames request;
               ret (Some (Handle acct user_principal_dict q 1 ∅))
           end) (set_attempts later w)
    end.

(** ** [_ws_subscribe] and [_ws_resubscribe] *)

(** [','.join(str(field.value) for field in fields)]. *)
Definition field_str (fs : list ws_field) : string :=
  PyStr.join "," (map (fun field => PyStr.of_Z (ws_field_value field)) fs).

(** [ws['principal']['streamerSubscriptionKeys']['keys'][0]['key']
     if symbols is None else ','.join(symbols)]. *)
Definition key_str (h : handle) (syms : option (list string)) : result json :=
  match syms with
  | None =>
      do subscription_keys <- Py.getitem (principal h) "streamerSubscriptionKeys";
      do keys <- Py.getitem subscription_keys "keys";
      do first <- Py.first keys;
      Py.getitem first "key"
  | Some l => Return (JStr (PyStr.join "," l))
  end.

Definition subscribe_request (h : handle) (service : WSService)
    (fs : list ws_field) (syms : option (list string)) : result json :=
  do keys <- key_str h syms;
  do acct <- Py.getitem (account h) "accountId";
  do info <- Py.getitem (principal h) "streamerInfo";
  do appid <- Py.getitem info "appId";
  Return
    (JDict [ ("requests", JList [ JDict
      [ ("service", JStr (WSService_value service));
        ("command", JStr (WSCommand_value SUBS));
        ("requestid", JInt 1);
        ("account", acct);
        ("source", appid);
        ("parameters", JDict
           [ ("keys", keys); ("fields", JStr (field_str fs)) ]) ] ]) ]).

(** [_subscribe]: send, wait for the first response frame (a non-zero
    code is logged), then wait for the first data frame and return its
    first element. *)
Definition _subscribe (request : json) : M json :=
  exec send request;
  run response <- await "response";
  run failed <- lift (response_failed response);
  exec (if (failed : bool)
        then logger_error [LogError "Failed to SUBS: {}" response]
        else ret tt);
  run response <- await "data";
  run data_list <- lift (Py.getitem response "data");
  lift (Py.first data_list).

(** [WSService(data['service'])
     if data is not None and 'service' in data else None]. *)
Definition data_service_of (data : json) : result (option WSService) :=
  match data with
  | JNull => Return None
  | _ =>
      do present <- Py.contains "service" data;
      if (present : bool)
      then
        do name <- Py.getitem data "service";
        do service <- WSService_of name;
        Return (Some service)
      else Return None
  end.

(** [ws[name]] for a service value. *)
Definition ws_entry (name : string) : M subscription :=
  fun w =>
    match services (ws w) !! name with
    | Some entry => (Return entry, w)
    | None => (Raise (KeyError name), w)
    end.

(** [ws[service.value] = entry]. *)
Definition ws_store (name : string) (entry : subscription) : M unit :=
  fun w =>
    let h := ws w in
    (Return tt,
     set_ws (Handle (account h) (principal h) (qos h) (next_request_id h)
                    (<[name := entry]> (services h))) w).

(** Run the decoder inside a session: its error records go to the log. *)
Definition distill (data : json) : M (option distilled) :=
  exec logger_error (fst (_ws_distill_data data));
  lift (snd (_ws_distill_data data)).

Definition _ws_subscribe (service : WSService) (fs : list ws_field)
    (functions : list callback) (contexts : option (list json))
    (syms : option (list string)) (first_data : bool) : M unit :=
  run h <- get_ws;
  run request <- lift (subscribe_request h service fs syms);
  run data <- _subscribe request;
  run data_service <- lift (data_service_of data);
  run distilled_data <- distill data;
  exec ws_store (WSService_value service)
         (Subscription fs syms first_data functions contexts);
  match first_data, distilled_data with
  | true, Some d =>
      match data_service with
      | None => raise (AttributeError "value")
      | Some ds =>
          run entry <- ws_entry (WSService_value ds);
          dispatch (cb_functions entry) 0 (cb_data entry) d
      end
  | _, _ => ret tt
  end.

(** [for service in (...): if service.value not in ws: continue; ...]. *)
Fixpoint resubscribe_each (to_visit : list WSService) : M unit :=
  match to_visit with
  | [] => ret tt
  | service :: rest =>
      run h <- get_ws;
      match services h !! WSService_value service with
      | None => resubscribe_each rest
      | Some params =>
          exec _ws_subscribe service (fields params) (cb_functions params)
                 (cb_data params) (symbols params) (process_first_data params);
          resubscribe_each rest
      end
  end.

Definition _ws_resubscribe : M unit :=
  resubscribe_each [ACCT_ACTIVITY; CHART_EQUITY; OPTION; QUOTE].

(** The five public subscribe functions. *)
Definition ws_subscribe_to_acct_activity (functions : list callback)
    (contexts : option (list json)) : M unit :=
  _ws_subscribe ACCT_ACTIVITY
    [AcctField AA_ACCOUNT_ID; AcctField AA_MESSAGE_TYPE;
     AcctField AA_MESSAGE_DATA]
    functions contexts None false.

Definition ws_subscribe_to_chart_equity (syms : list string)
    (functions : list callback) (contexts : option (list json)) : M unit :=
  _ws_subscribe CHART_EQUITY
    (map ChartField
       [CE_SYMBOL; CE_OPEN_PRICE; CE_HIGH_PRICE; CE_LOW_PRICE; CE_CLOSE_PRICE;
        CE_VOLUME; CE_SEQUENCE; CE_TIMESTAMP])
    functions contexts (Some syms) true.

Definition ws_subscribe_to_option (syms : list string)
    (functions : list callback) (contexts : option (list json)) : M unit :=
  _ws_subscribe OPTION
    (map OptionField
       [WO_SYMBOL; WO_BID_PRICE; WO_ASK_PRICE; WO_LAST_PRICE; WO_VOLUME;
        WO_OPEN_INTEREST; WO_VOLATILITY; WO_BID_SIZE; WO_ASK_SIZE;
        WO_LAST_SIZE; WO_DELTA; WO_MARK_PRICE])
    functions contexts (Some syms) true.

Definition ws_subscribe_to_quote (syms : list string)
    (functions : list callback) (contexts : option (list json)) : M unit :=
  _ws_subscribe QUOTE
    (map QuoteField_
       [WQ_SYMBOL; WQ_BID_PRICE; WQ_ASK_PRICE; WQ_LAST_PRICE; WQ_MARK_PRICE;
        WQ_BID_SIZE; WQ_ASK_SIZE; WQ_LAST_SIZE; WQ_VOLATILITY;
        WQ_QUOTE_TIMESTAMP; WQ_LAST_TIMESTAMP])
    functions contexts (Some syms) true.

Definition ws_subscribe_to_timesale_equity (syms : list string)
    (functions : list callback) (contexts : option (list json)) : M unit :=
  _ws_subscribe TIMESALE_EQUITY
    (map TimesaleField
       [TS_SYMBOL; TS_TRADE_TIME; TS_LAST_PRICE; TS_LAST_SIZE;
        TS_LAST_SEQUENCE])
    functions contexts (Some syms) true.

(** ** [ws_listen] *)

(** [_listen]: what [json.loads] gives for the next frame, or [None] when
    the connection is found closed.  A frame that reads [null] is [None]
    too: the loop cannot tell it from a closed connection. *)
Definition _listen : M (option json) :=
  fun w =>
    match socket w with
    | [] => (Return None, w)
    | JNull :: rest => (Return None, set_socket rest w)
    | frame :: rest => (Return (Some frame), set_socket rest w)
    end.

(** [ws['account']['accountId']] as the text [ws_connect] takes; a handle
    whose account id is not text is beyond this development. *)
Definition handle_account_id (h : handle) : result string :=
  do v <- Py.getitem (account h) "accountId";
  match v with
  | JStr s => Return s
  | _ => Beyond
  end.

(** [ws_prime = None
     while not(ws_prime or ('done' in flags and flags['done'])):
         ws_prime = ws_connect(ws['account']['accountId'], ws['qos'])]
    with a budget of iterations. *)
Fixpoint reconnect (fuel : nat) : M (option handle) :=
  fun w =>
    if done w then (Return None, w)
    else
      match fuel with
      | O => (Beyond, w)
      | S fuel' =>
          (run h <- get_ws;
           run account_id <- lift (handle_account_id h);
           run ws_prime <- ws_connect account_id (qos h);
           match ws_prime with
           | Some h' => ret (Some h')
           | None => reconnect fuel'
           end) w
      end.

(** [ws.update(ws_prime)]: the five fixed keys are overwritten, the
    service entries stay. *)
Definition ws_update (ws_prime : handle) : M unit :=
  fun w =>
    (Return tt,
     set_ws (Handle (account ws_prime) (principal ws_prime) (qos ws_prime)
                    (next_request_id ws_prime) (services (ws w))) w).

(** The body of [for data in response['data']]. *)
Definition listen_data (data : json) : M unit :=
  run present <- lift (Py.contains "service" data);
  if (present : bool)
  then
    run name <- lift (Py.getitem data "service");
    run service <- lift (WSService_of name);
    run h <- get_ws;
    match services h !! WSService_value service with
    | None => ret tt
    | Some entry =>
        run distilled_data <- distill data;
        match distilled_data with
        | None => ret tt
        | Some d => dispatch (cb_functions entry) 0 (cb_data entry) d
        end
    end
  else ret tt.

Fixpoint listen_each (items : list json) : M unit :=
  match items with
  | [] => ret tt
  | data :: rest => exec listen_data data; listen_each rest
  end.

(** The confirmation branch: a lone response with a non-zero code is
    logged. *)
Definition listen_response (response : json) : M unit :=
  run responses <- lift (Py.getitem response "response");
  run n <- lift (Py.len responses);
  if negb (n =? 1) then ret tt
  else
    run first <- lift (Py.first responses);
    run has_content <- lift (Py.contains "content" first);
    if negb has_content then ret tt
    else
      run content <- lift (Py.getitem first "content");
      run code <- lift (Py.getitem content "code");
      if Py.nonzero code
      then
        run has_msg <- lift (Py.contains "msg" content);
        if (has_msg : bool)
        then
          run msg <- lift (Py.getitem content "msg");
          logger_error [LogValue msg]
        else logger_error [LogError "Bad response: {}" response]
      else ret tt.

(** What one pass of the loop does with a frame that was received. *)
Definition listen_frame (response : json) : M unit :=
  run is_notify <- lift (Py.contains "notify" response);
  if (is_notify : bool) then ret tt
  else
    run is_response <- lift (Py.contains "response" response);
    if (is_response : bool) then listen_response response
    else
      run is_data <- lift (Py.contains "data" response);
      if negb is_data then ret tt
      else
        run payload <- lift (Py.getitem response "data");
        run items <- lift (Py.iter payload);
        listen_each items.

(** What one pass of the loop does when the connection was found closed:
    connect again, and when that gave a handle, update [ws] and
    resubscribe. *)
Definition listen_reconnect (fuel : nat) : M unit :=
  run ws_prime <- reconnect fuel;
  match ws_prime with
  | Some h' => exec ws_update h'; _ws_resubscribe
  | None => ret tt
  end.

(** [ws_listen(ws, flags)], with a budget of loop passes. *)
Fixpoint ws_listen (fuel : nat) : M unit :=
  fun w =>
    if done w then (Return tt, w)
    else
      match fuel with
      | O => (Beyond, w)
      | S fuel' =>
          (run response <- _listen;
           exec (match response with
                 | None => listen_reconnect fuel'
                 | Some frame => listen_frame frame
                 end);
           ws_listen fuel') w
      end.

(** ** Sample data used by the closed statements *)

Module Sample.

Definition listed_account : json :=
  JDict [ ("accountId", JStr "A1"); ("company", JStr "AMER");
          ("segment", JStr "ADVNCED"); ("accountCdDomainId", JStr "D1") ].

Definition user_principal_dict : json :=
  JDict
    [ ("accounts", JList [listed_account]);
      ("streamerInfo", JDict
         [ ("token", JStr "tok"); ("tokenTimestamp", JStr "2020-01-01T00:00:00+0000");
           ("userGroup", JStr "ACCT"); ("accessLevel", JStr "ACCT");
           ("appId", JStr "app"); ("acl", JStr "AK");
           ("streamerSocketUrl", JStr "streamer.example") ]);
      ("streamerSubscriptionKeys", JDict
         [ ("keys", JList [JDict [("key", JStr "subkey")]]) ]) ].

(** [{"response":[{"content":{"code":code,"msg":msg}}]}]. *)
Definition response_frame (code : Z) (msg : string) : json :=
  JDict [ ("response", JList
    [ JDict [ ("content", JDict [("code", JInt code); ("msg", JStr msg)]) ] ]) ].

Definition heartbeat : json := JDict [("notify", JList [JDict []])].

Definition data_frame (items : list json) : json :=
  JDict [("data", JList items)].

(** The data element [{"service": name, "content": content}]. *)
Definition payload (name : string) (content : list json) : json :=
  JDict [("service", JStr name); ("content", JList content)].

Definition chart_bar : json :=
  JDict [ ("key", JStr "XYZ"); ("1", JStr "10.0"); ("2", JStr "10.5");
          ("7", JInt 1700000000000) ].

Definition bad_bar : json :=
  JDict [ ("key", JStr "ABC"); ("1", JStr "n/a"); ("7", JInt 1700000060000) ].

Definition quote_item : json :=
  JDict [ ("key", JStr "XYZ"); ("1", JStr "9.5"); ("2", JFloat 9.75) ].

Definition timesale_item : json :=
  JDict [ ("key", JStr "XYZ"); ("1", JInt 1700000000000); ("2", JFloat 9.5);
          ("3", JInt 100); ("4", JInt 7) ].

Definition activity (message_type : string) : json :=
  JDict [ ("1", JStr "A1"); ("2", JStr message_type);
          ("3", JStr "<OrderCancelRequestMessage/>") ].

Definition returns (name : string) : callback :=
  Callback name (fun _ _ => CbReturns).

Definition raises (name : string) : callback :=
  Callback name (fun _ _ => CbRaises (UserError name)).

Definition quote_fields : list ws_field :=
  [QuoteField_ WQ_SYMBOL; QuoteField_ WQ_BID_PRICE; QuoteField_ WQ_ASK_PRICE].

Definition timesale_fields : list ws_field :=
  [TimesaleField TS_SYMBOL; TimesaleField TS_LAST_PRICE].

Definition quote_entry (functions : list callback) (contexts : list json)
  : subscription :=
  Subscription quote_fields (Some ["XYZ"]) true functions (Some contexts).

Definition timesale_entry : subscription :=
  Subscription timesale_fields (Some ["XYZ"]) true [returns "on_timesale"]
               (Some [JStr "ts-ctx"]).

Definition handle_with (entries : gmap string subscription) : handle :=
  Handle listed_account user_principal_dict FAST 1 entries.

Definition world_with (entries : gmap string subscription)
    (frames : list json) (later : list attempt) : world :=
  World (handle_with entries) frames later [] [] [] false.

(** A connection attempt that succeeds and then delivers [frames]. *)
Definition connects (frames : list json) : attempt :=
  Attempt (Return "token")
          (HttpResponse true "OK" (Return user_principal_dict))
          (Return 1577836800000) (Return frames).

(** The service and the command of each request of a list. *)
Definition request_line (request : json) : result (json * json) :=
  do requests <- Py.getitem request "requests";
  do first <- Py.first requests;
  do service <- Py.getitem first "service";
  do command <- Py.getitem first "command";
  Return (service, command).

(** A consumer that returns after setting [flags['done']]. *)
Definition stops (name : string) : callback :=
  Callback name (fun _ _ => CbSetsDone).

(** Two domains are subscribed (QUOTE and TIMESALE_EQUITY) and the
    connection is found closed; the next connection attempt succeeds and
    the service then sends: the login confirmation, one confirmation, a
    QUOTE data frame. *)
Definition world_disconnected : world :=
  world_with
    (<["TIMESALE_EQUITY" := timesale_entry]>
       (<["QUOTE" := quote_entry [stops "on_quote"] [JStr "q-ctx"]]> ∅))
    []
    [connects [ response_frame 0 "ok"; response_frame 0 "ok";
                data_frame [payload "QUOTE" [quote_item]] ]].

(** The next connection attempt succeeds and the service answers the
    login with code 3, after a heartbeat. *)
Definition world_login_rejected : world :=
  World (Handle JNull JNull FAST 0 ∅) []
        [connects [heartbeat; response_frame 3 "bad token"]] [] [] [] false.

(** QUOTE is subscribed with two consumers, the first of which raises;
    a QUOTE data frame and a heartbeat are on their way. *)
Definition world_raising_consumer : world :=
  world_with
    (<["QUOTE" := quote_entry [raises "first"; returns "second"]
                              [JInt 1; JInt 2]]> ∅)
    [data_frame [payload "QUOTE" [quote_item]]; heartbeat]
    [].

(** QUOTE is subscribed; the service is about to confirm a request and
    then to send the data frame [first_data]. *)
Definition world_quote_live (first_data : json) : world :=
  world_with
    (<["QUOTE" := quote_entry [returns "on_quote"] [JStr "q-ctx"]]> ∅)
    [response_frame 0 "ok"; data_frame [first_data]]
    [].

End Sample.

(** The invocations a dispatch makes of [functions], each with the
    context at its own position. *)
Definition invocations (functions : list callback) (contexts : list json)
    (data : distilled) : list call :=
  map (fun p => Called (cb_name (fst p)) data (snd p))
      (combine functions contexts).

(** A consumer call that does not raise. *)
Definition returns_normally (data : distilled) (p : callback * json) : Prop :=
  forall e, cb_run (fst p) data (snd p) <> CbRaises e.

(** A program keeps the handle when no run of it changes [ws]. *)
Definition keeps_ws {A : Type} (m : M A) : Prop :=
  forall w r w', m w = (r, w') -> ws w' = ws w.

(** The typed coercions the decoder applies for a service: the text index
    looked up in an item and the typecast applied to the raw value. *)
Definition typed_indices {W F : Type} (ws_value : W -> Z)
    (typecast : F -> typecast_fn) (field_map : list (W * F))
  : list (string * typecast_fn) :=
  map (fun entry => (PyStr.of_Z (ws_value (fst entry)), typecast (snd entry)))
      field_map.

Definition service_coercions (service : WSService)
  : list (string * typecast_fn) :=
  match service with
  | CHART_EQUITY =>
      typed_indices WSChartEquityField_value tda.ChartBarField_typecast
                    chart_equity_field_map
  | OPTION =>
      typed_indices WSOptionContractField_value
                    tda.OptionContractField_typecast option_field_map
  | QUOTE =>
      typed_indices WSQuoteField_value tda.QuoteField_typecast quote_field_map
  | TIMESALE_EQUITY => [(ts_index TS_LAST_SIZE, py_int)]
  | ACCT_ACTIVITY | ADMIN => []
  end.

(** ** [ws_disconnect] *)

Definition logout_request (h : handle) : result json :=
  do acct <- Py.getitem (account h) "accountId";
  do info <- Py.getitem (principal h) "streamerInfo";
  do appid <- Py.getitem info "appId";
  Return
    (JDict [ ("requests", JList [ JDict
      [ ("service", JStr (WSService_value ADMIN));
        ("command", JStr (WSCommand_value LOGOUT));
        ("requestid", JInt (next_request_id h));
        ("account", acct);
        ("source", appid);
        ("parameters", JDict []) ] ]) ]).

(** [ws_disconnect(ws)]: send the logout request and wait for the first
    response frame; a non-zero code is logged and the function returns,
    otherwise the websocket is closed.  The value tells whether
    [websocket.close()] was reached; the world keeps the frames that were
    still to come. *)
Definition ws_disconnect : M bool :=
  run h <- get_ws;
  run request <- lift (logout_request h);
  exec send request;
  run response <- await "response";
  run failed <- lift (response_failed response);
  if (failed : bool)
  then exec logger_error [LogError "Failed to LOGOUT: {}" response]; ret false
  else ret true.

(** ** The name-keyed decoders of [tda/api.py] *)

Module PySeq.

(** [v[::-1]].  A dict takes the slice for a key: the lookup fails with
    an exception that depends on the interpreter, which is not
    rendered. *)
Definition reversed (v : json) : result json :=
  match v with
  | JList l => Return (JList (rev l))
  | JStr s => Return (JStr (string_of_list_ascii (rev (list_ascii_of_string s))))
  | JDict _ => Beyond
  | _ => Raise TypeError
  end.

(** [v.items()]. *)
Definition items (v : json) : result (list (string * json)) :=
  match v with
  | JDict d => Return d
  | _ => Raise (AttributeError "items")
  end.

(** [v[k]] for a raw field [k] that the search has resolved to a member
    other than UNSUPPORTED.  Such a [k] is text: for anything else the
    search raises or answers UNSUPPORTED, so the other indices are not
    rendered. *)
Definition getitem_key (v k : json) : result json :=
  match k with
  | JStr s => Py.getitem v s
  | _ => Beyond
  end.

End PySeq.

Section NamedDecoding.
Context {F : Type} `{EqDecision F}.
Variable cls : enum_class F.
Variable typecast : F -> typecast_fn.
Variable as_key : F -> key.

(** [{field: field.typecast(raw[raw_field]) for raw_field in raw
      if (field := cls(raw_field)) is not cls.UNSUPPORTED}],
    filled entry by entry.  No member's value (a pair) is a raw field, so
    [cls(raw_field)] is what [_missing_] returns. *)
Fixpoint named_comprehension (raw : json) (raw_fields : list json)
    (acc : record) : result record :=
  match raw_fields with
  | [] => Return acc
  | raw_field :: rest =>
      do field <- _enum_case_insensitive_search_by_value cls raw_field;
      do unsupported <- cls_UNSUPPORTED cls;
      if decide (field = unsupported)
      then named_comprehension raw rest acc
      else
        do raw_value <- PySeq.getitem_key raw raw_field;
        do v <- call_typecast (typecast field) raw_value;
        named_comprehension raw rest (dict_set (as_key field) v acc)
  end.

Definition decode_named (raw : json) : result record :=
  do raw_fields <- Py.iter raw;
  named_comprehension raw raw_fields [].
End NamedDecoding.

(** Whether the comprehension goes past the filter for a raw field named
    [raw_field]: [cls(raw_field)] is a member other than UNSUPPORTED, or
    the lookup does not return. *)
Definition known_field {F : Type} `{EqDecision F} (cls : enum_class F)
    (raw_field : string) : bool :=
  match _enum_case_insensitive_search_by_value cls (JStr raw_field),
        cls_UNSUPPORTED cls with
  | Return field, Return unsupported => negb (bool_decide (field = unsupported))
  | _, _ => true
  end.

(** The entries of a raw dict under such names, in their order. *)
Definition known_fields {F : Type} `{EqDecision F} (cls : enum_class F)
    (d : list (string * json)) : list (string * json) :=
  List.filter (fun entry => known_field cls (fst entry)) d.

(** The dict built for one candle by [get_history]. *)
Definition history_bar : json -> result record :=
  decode_named tda.ChartBarField_class tda.ChartBarField_typecast KChartBar.

(** The dict built for one ticker by [get_quotes]. *)
Definition quote_of : json -> result record :=
  decode_named tda.QuoteField_class tda.QuoteField_typecast KQuote.

(** [get_history(...)], given what [_get_access_token] and [requests.get]
    give (the arguments only shape the URL of the request): the error
    records logged and the list returned, [None] on error. *)
Definition get_history (access_token : result string) (answer : http_answer)
  : list log_entry * result (option (list record)) :=
  match access_token with
  | Raise e => ([], Raise e)
  | Beyond => ([], Beyond)
  | Return _ =>
      match answer with
      | HttpRaises message => ([LogValue (JStr message)], Return None)
      | HttpResponse false reason _ => ([LogValue (JStr reason)], Return None)
      | HttpResponse true _ body =>
          ([],
           do raw_history <- body;
           do candles <- Py.getitem raw_history "candles";
           do newest_first <- PySeq.reversed candles;
           do raw_bars <- Py.iter newest_first;
           do history <- for_each history_bar raw_bars;
           Return (Some history))
      end
  end.

(** [get_quotes(symbols)], likewise: the dict keyed by ticker. *)
Definition get_quotes (access_token : result string) (answer : http_answer)
  : list log_entry * result (option (list (string * record))) :=
  match access_token with
  | Raise e => ([], Raise e)
  | Beyond => ([], Beyond)
  | Return _ =>
      match answer with
      | HttpRaises message => ([LogValue (JStr message)], Return None)
      | HttpResponse false reason _ => ([LogValue (JStr reason)], Return None)
      | HttpResponse true _ body =>
          ([],
           do raw_quote_dict <- body;
           do entries <- PySeq.items raw_quote_dict;
           do quotes <-
             for_each (fun entry =>
                         do quote <- quote_of (snd entry);
                         Return (fst entry, quote))
                      entries;
           Return (Some quotes))
      end
  end.

(** ** Further scenarios *)

Module Scene.

(** Connection attempts for which the user principals are not
    retrieved: the request is refused, and the request times out. *)
Definition no_principals : attempt :=
  Attempt (Return "token") (HttpResponse false "Unauthorized" (Return JNull))
          (Return 0) (Return []).

Definition unreachable : attempt :=
  Attempt (Return "token") (HttpRaises "timed out") (Return 0) (Return []).

Definition answers_login : attempt :=
  Sample.connects [Sample.response_frame 0 "ok"].

(** The connection is lost; two attempts to connect again fail before one
    succeeds. *)
Definition world_two_failures : world :=
  Sample.world_with ∅ [] [no_principals; unreachable; answers_login].

(** A frame is still to come on the open connection when [ws_connect] is
    called once more. *)
Definition world_connected : world :=
  Sample.world_with ∅ [Sample.heartbeat] [answers_login].

(** TIMESALE_EQUITY has one consumer and QUOTE has three, the second of
    which raises; a frame with a TIMESALE_EQUITY element and two QUOTE
    elements is on its way, and a heartbeat after it. *)
Definition world_second_raises : world :=
  Sample.world_with
    (<["TIMESALE_EQUITY" := Sample.timesale_entry]>
       (<["QUOTE" := Sample.quote_entry
                       [Sample.returns "first"; Sample.raises "second";
                        Sample.returns "third"]
                       [JInt 1; JInt 2; JInt 3]]> ∅))
    [ Sample.data_frame
        [ Sample.payload "TIMESALE_EQUITY" [Sample.timesale_item];
          Sample.payload "QUOTE" [Sample.quote_item];
          Sample.payload "QUOTE" [Sample.quote_item] ];
      Sample.heartbeat ]
    [].

(** The service refuses the logout with code 3, between two
    heartbeats. *)
Definition world_logout_refused : world :=
  Sample.world_with ∅
    [Sample.heartbeat; Sample.response_frame 3 "no"; Sample.heartbeat] [].

(** Two candles as the price history service sends them, oldest first;
    the later one has a field [ChartBarField] does not list and a price
    sent as text. *)
Definition candle_old : json :=
  JDict [ ("open", JFloat 10); ("close", JFloat 10.5); ("volume", JInt 100);
          ("datetime", JInt 1700000000000) ].

Definition candle_new : json :=
  JDict [ ("open", JFloat 10.5); ("vwap", JFloat 10.75); ("close", JStr "11");
          ("volume", JInt 50); ("datetime", JInt 1700000060000) ].

Definition history_body : json :=
  JDict [ ("candles", JList [candle_old; candle_new]); ("symbol", JStr "XYZ");
          ("empty", JBool false) ].

Definition history_answer : http_answer :=
  HttpResponse true "OK" (Return history_body).

(** The body of a quotes response for two tickers. *)
Definition quotes_body : list (string * json) :=
  [ ("XYZ", JDict [ ("symbol", JStr "XYZ"); ("bidPrice", JFloat 9.5);
                    ("52WkHigh", JFloat 12); ("bidSize", JInt 300) ]);
    ("ABC", JDict [ ("symbol", JStr "ABC"); ("askPrice", JStr "4.25") ]) ].

End Scene.

(** ** Notions used by the properties *)

(** A program keeps a part of the world when no run of it changes it. *)
Definition keeps {A B : Type} (part : world -> B) (m : M A) : Prop :=
  forall w r w', m w = (r, w') -> part w' = part w.

(** What the receive loop leaves alone while it handles frames: the
    handle, the frames still to come, the connection attempts still to
    come and the requests sent. *)
Definition wire (w : world) : handle * list json * list attempt * list json :=
  (ws w, socket w, attempts w, sent w).

(** What a call of [ws_connect] that does not get the user principals
    writes at error level: the record of [_get_user_principals], if it
    wrote one, and then its own. *)
Definition failure_records (a : attempt) : list log_entry :=
  fst (_get_user_principals (at_access_token a) (at_user_principals a))
  ++ [LogError "Failed to retrieve user principals." JNull].

(** [ws['next_request_id']] of the session. *)
Definition request_id (w : world) : Z := next_request_id (ws w).

(** A program sends [requests] when every run of it adds just these to
    the requests sent. *)
Definition sends {A : Type} (requests : list json) (m : M A) : Prop :=
  forall w r w', m w = (r, w') -> sent w' = sent w ++ requests.

(** The value a typecast returns has the type it names. *)
Definition has_type (t : typecast_fn) (v : json) : Prop :=
  match t with
  | py_str => exists s, v = JStr s
  | py_int => exists z, v = JInt z
  | py_float => exists x, v = JFloat x
  end.

(** An entry of a dict built by [get_history] or [get_quotes] is typed
    when its key is a member other than UNSUPPORTED and its value has the
    type of that member's typecast. *)
Definition fetched_entry_typed (entry : key * json) : Prop :=
  match fst entry with
  | KChartBar f =>
      f <> tda.CB_UNSUPPORTED
      /\ has_type (tda.ChartBarField_typecast f) (snd entry)
  | KQuote f =>
      f <> tda.Q_UNSUPPORTED /\ has_type (tda.QuoteField_typecast f) (snd entry)
  | _ => False
  end.

(** An entry of a record decoded from a data frame is typed when its
    value has the type of its field; the symbol is the item's ['key'] as
    it came, and of the time and sales fields only the last size is
    cast. *)
Definition streamed_entry_typed (entry : key * json) : Prop :=
  match fst entry with
  | KChartBar f =>
      f = tda.CB_SYMBOL \/ has_type (tda.ChartBarField_typecast f) (snd entry)
  | KOptionContract f =>
      f = tda.OC_SYMBOL
      \/ has_type (tda.OptionContractField_typecast f) (snd entry)
  | KQuote f =>
      f = tda.Q_SYMBOL \/ has_type (tda.QuoteField_typecast f) (snd entry)
  | KTimesale TS_LAST_SIZE => has_type py_int (snd entry)
  | KTimesale _ => True
  | KText _ => True
  end.

(** The key under which the records of a service carry the symbol. *)
Definition symbol_key (service : WSService) : option key :=
  match service with
  | CHART_EQUITY => Some (KChartBar tda.CB_SYMBOL)
  | OPTION => Some (KOptionContract tda.OC_SYMBOL)
  | QUOTE => Some (KQuote tda.Q_SYMBOL)
  | TIMESALE_EQUITY => Some (KTimesale TS_SYMBOL)
  | ACCT_ACTIVITY | ADMIN => None
  end.

(** The keys of a content item the decoder of a service reads. *)
Definition item_keys (service : WSService) : list string :=
  match service with
  | TIMESALE_EQUITY =>
      "key" :: map ts_index
                 [TS_TRADE_TIME; TS_LAST_PRICE; TS_LAST_SIZE; TS_LAST_SEQUENCE]
  | _ => "key" :: map fst (service_coercions service)
  end.

(** The decoder of one content item of a service. *)
Definition distill_item_of (service : WSService)
  : option (json -> result record) :=
  match service with
  | CHART_EQUITY => Some distill_bar
  | OPTION => Some distill_option
  | QUOTE => Some distill_quote
  | TIMESALE_EQUITY => Some distill_timesale
  | ACCT_ACTIVITY | ADMIN => None
  end.

(** * Properties *)

(** ** Decoding *)

(** C6: the CHART_EQUITY scenario of the specification decodes to exactly
    one record: symbol ["XYZ"], open price the float 10.0, high price the
    float 10.5, time stamp the integer 1700000000000, and no entry at all
    for the low price, the close price and the volume. *)
Theorem C6_chart_equity_scenario :
  exists bar : record,
    _ws_distill_data (Sample.payload "CHART_EQUITY" [Sample.chart_bar])
      = ([], Return (Some (DList [bar])))
    /\ dict_get (KChartBar tda.CB_SYMBOL) bar = Some (JStr "XYZ")
    /\ dict_get (KChartBar tda.CB_OPEN_PRICE) bar = Some (JFloat 10%float)
    /\ dict_get (KChartBar tda.CB_HIGH_PRICE) bar = Some (JFloat 10.5%float)
    /\ dict_get (KChartBar tda.CB_TIMESTAMP) bar = Some (JInt 1700000000000)
    /\ dict_get (KChartBar tda.CB_LOW_PRICE) bar = None
    /\ dict_get (KChartBar tda.CB_CLOSE_PRICE) bar = None
    /\ dict_get (KChartBar tda.CB_VOLUME) bar = None
    /\ List.length bar = 4%nat.
Proof.
  eexists. split; [vm_compute; reflexivity|].
  repeat split; vm_compute; reflexivity.
Qed.

(** *** Lookup of enumeration members *)

Section EnumLookupFacts.
Context {M : Type}.
Variable cls : enum_class M.

  (** With an [UNSUPPORTED] member the search answers every text. *)
Lemma search_total (u : M) (name : string) :
    UNSUPPORTED_member cls = Some u ->
    exists member,
      _enum_case_insensitive_search_by_value cls (JStr name) = Return member.
  Proof.
    intros Hu. unfold _enum_case_insensitive_search_by_value, cls_UNSUPPORTED.
    rewrite Hu. destruct (members cls) as [|m ms]; [eauto|].
    destruct (filter _ _); eauto.
  Qed.

  (** Without one, a text that matches no value ends in [AttributeError]. *)
Lemma search_no_sentinel (name : string) :
    UNSUPPORTED_member cls = None ->
    filter (value_matches cls name) (members cls) = [] ->
    _enum_case_insensitive_search_by_value cls (JStr name)
      = Raise (AttributeError "UNSUPPORTED").
  Proof.
    intros Hu Hf. unfold _enum_case_insensitive_search_by_value, cls_UNSUPPORTED.
    rewrite Hu. destruct (members cls); [reflexivity|]. now rewrite Hf.
  Qed.
End EnumLookupFacts.

(** C3: the lookup of a service or command name is not total.  An unknown
    name such as ["FOO"] makes [WSService] and [WSCommand] raise
    [AttributeError], since [_missing_] reads [cls.UNSUPPORTED] and neither
    class declares that member; a frame carrying such a service name ends
    [ws_listen] with that exception.  Matching itself ignores case and
    surrounding blanks, and a class that declares [UNSUPPORTED]
    ([InstrumentType]) answers ["FOO"] with it. *)
Theorem C3_unknown_service_name_raises :
  WSService_of (JStr "FOO") = Raise (AttributeError "UNSUPPORTED")
  /\ WSCommand_of (JStr "FOO") = Raise (AttributeError "UNSUPPORTED")
  /\ WSService_of (JStr " quote ") = Return QUOTE
  /\ enum_call tda.InstrumentType_class (JStr "FOO") = Return tda.IT_UNSUPPORTED
  /\ fst (ws_listen 2
            (Sample.world_with ∅
               [Sample.data_frame [Sample.payload "FOO" [Sample.quote_item]]]
               []))
     = Raise (AttributeError "UNSUPPORTED").
Proof. repeat split; vm_compute; reflexivity. Qed.

(** *** Account activity *)

Lemma getitem_dict (d : list (string * json)) (k : string) (v : json) :
  Py.assoc k d = Some v -> Py.getitem (JDict d) k = Return v.
Proof. intros H. cbn. now rewrite H. Qed.

Lemma getitem_inv (data : json) (k : string) (v : json) :
  Py.getitem data k = Return v ->
  exists d, data = JDict d /\ Py.assoc k d = Some v.
Proof.
  destruct data; cbn; try discriminate.
  intros H. eexists; split; [reflexivity|].
  destruct (Py.assoc k entries); congruence.
Qed.

(** The decoder on a frame with a service and a non-empty content list. *)
Lemma distill_data_nonempty (data name : json) (service : WSService)
    (x : json) (xs : list json) :
  Py.getitem data "service" = Return name ->
  WSService_of name = Return service ->
  Py.getitem data "content" = Return (JList (x :: xs)) ->
  _ws_distill_data data =
    ([], match service with
         | ACCT_ACTIVITY => distill_acct_activity (JList (x :: xs))
         | CHART_EQUITY => distill_list distill_bar (JList (x :: xs))
         | OPTION => distill_list distill_option (JList (x :: xs))
         | QUOTE => distill_list distill_quote (JList (x :: xs))
         | TIMESALE_EQUITY => distill_list distill_timesale (JList (x :: xs))
         | ADMIN => Return None
         end).
Proof.
  intros Hs Hn Hc.
  destruct (getitem_inv _ _ _ Hc) as (d & -> & Hd).
  unfold _ws_distill_data, content_missing.
  rewrite Hs. cbn [bind]. rewrite Hn. cbn [bind].
  cbn [Py.contains]. rewrite Hd. cbn [bind].
  rewrite Hc. cbn [bind Py.len]. reflexivity.
Qed.

Lemma distill_acct_activity_first (first : json) (rest : list json) :
  distill_acct_activity (JList (first :: rest))
  = distill_acct_activity (JList [first]).
Proof. reflexivity. Qed.

Lemma distill_order_raises (content : json) (status : tda_api.OrderStatus) :
  distill_order content status = Raise (AttributeError "OrderStatus").
Proof. reflexivity. Qed.

Lemma distill_acct_activity_no_record (content : json) (d : distilled) :
  distill_acct_activity content <> Return (Some d).
Proof.
  unfold distill_acct_activity.
  destruct (Py.first content) as [c| |]; cbn [bind]; try discriminate.
  destruct (Py.getitem c _) as [raw| |]; cbn [bind]; try discriminate.
  destruct (message_type_of raw) as [t|]; try discriminate.
  repeat (match goal with
          | |- context [if ?b then _ else _] => destruct b
          end; rewrite ?distill_order_raises; try discriminate).
Qed.

(** C5: an ACCT_ACTIVITY payload whose message type is one of the four
    recognised ones (UROUT among them) does not decode to a status: the
    branch reads [tda.OrderStatus], a name the package [tda] does not
    bind, and the decoder ends in [AttributeError].  Any other message
    type, such as FOOBAR, is filtered: the decoder returns [None] and logs
    nothing. *)
Theorem C5_recognised_message_type_raises :
  forall (account_id message_data : json) (more : list json),
    let frame (message_type : string) :=
      JDict [ ("service", JStr "ACCT_ACTIVITY");
              ("content", JList
                 (JDict [ ("1", account_id); ("2", JStr message_type);
                          ("3", message_data) ] :: more)) ] in
    _ws_distill_data (frame "UROUT") = ([], Raise (AttributeError "OrderStatus"))
    /\ _ws_distill_data (frame "ORDERENTRYREQUEST")
       = ([], Raise (AttributeError "OrderStatus"))
    /\ _ws_distill_data (frame "ORDERFILL")
       = ([], Raise (AttributeError "OrderStatus"))
    /\ _ws_distill_data (frame "ORDERREJECTION")
       = ([], Raise (AttributeError "OrderStatus"))
    /\ _ws_distill_data (frame "FOOBAR") = ([], Return None).
Proof. intros. repeat split; reflexivity. Qed.

(** C10: an ACCT_ACTIVITY frame is decoded from the first element of its
    content list alone: two frames that agree on that element decode
    alike, log included, whatever else their lists hold; and the outcome
    is never a list of records. *)
Theorem C10_only_first_entry_inspected :
  forall (data1 data2 name first : json) (rest1 rest2 : list json),
    Py.getitem data1 "service" = Return name ->
    Py.getitem data2 "service" = Return name ->
    WSService_of name = Return ACCT_ACTIVITY ->
    Py.getitem data1 "content" = Return (JList (first :: rest1)) ->
    Py.getitem data2 "content" = Return (JList (first :: rest2)) ->
    _ws_distill_data data1 = _ws_distill_data data2
    /\ forall rs, snd (_ws_distill_data data1) <> Return (Some (DList rs)).
Proof.
  intros data1 data2 name first rest1 rest2 Hs1 Hs2 Hn Hc1 Hc2.
  rewrite (distill_data_nonempty _ _ _ _ _ Hs1 Hn Hc1).
  rewrite (distill_data_nonempty _ _ _ _ _ Hs2 Hn Hc2).
  split.
  - now rewrite (distill_acct_activity_first first rest1),
                (distill_acct_activity_first first rest2).
  - intros rs. cbn [snd]. apply distill_acct_activity_no_record.
Qed.

Lemma C10_only_first_entry_inspected_witness :
  _ws_distill_data
    (Sample.payload "ACCT_ACTIVITY"
       [Sample.activity "FOOBAR"; Sample.activity "UROUT";
        Sample.activity "ORDERFILL"])
  = _ws_distill_data (Sample.payload "ACCT_ACTIVITY" [Sample.activity "FOOBAR"])
  /\ forall rs,
       snd (_ws_distill_data
              (Sample.payload "ACCT_ACTIVITY"
                 [Sample.activity "FOOBAR"; Sample.activity "UROUT";
                  Sample.activity "ORDERFILL"]))
       <> Return (Some (DList rs)).
Proof.
  apply (C10_only_first_entry_inspected _ _ (JStr "ACCT_ACTIVITY")
           (Sample.activity "FOOBAR")
           [Sample.activity "UROUT"; Sample.activity "ORDERFILL"] []);
    reflexivity.
Defined.

(** *** Coercion failures *)

Lemma bind_not_beyond {A B : Type} (r : result A) (k : A -> result B) :
  r <> Beyond -> (forall a, k a <> Beyond) -> bind r k <> Beyond.
Proof. destruct r; cbn; auto; discriminate. Qed.

Lemma int_of_string_not_beyond (s : string) : PyNum.int_of_string s <> Beyond.
Proof.
  unfold PyNum.int_of_string.
  destruct (PyNum.numeric_text s); [|discriminate].
  destruct (PyNum.sign l) as [neg l1].
  destruct (PyNum.take_digits l1) as [[|c ds] [|c' rest]]; try discriminate.
  destruct (_ <? _); discriminate.
Qed.

Lemma float_of_string_not_beyond (s : string) :
  PyNum.float_of_string s <> Beyond.
Proof.
  unfold PyNum.float_of_string.
  repeat match goal with
         | |- (let '(_, _) := ?p in _) <> _ => destruct p
         | |- (if ?b then _ else _) <> _ => destruct b
         | |- (match ?x with _ => _ end) <> _ => destruct x
         end; discriminate.
Qed.

(** The typecasts [int] and [float] return or raise. *)
Lemma call_typecast_not_beyond (t : typecast_fn) (v : json) :
  t <> py_str -> call_typecast t v <> Beyond.
Proof.
  intros Ht. destruct t; [congruence| |]; destruct v; cbn; try discriminate.
  - unfold PyNum.Z_of_float. destruct (Prim2SF f); cbn; discriminate.
  - apply bind_not_beyond; [apply int_of_string_not_beyond|discriminate].
  - unfold PyNum.float_of_Z.
    destruct (binary_normalize prec emax z 0 false); cbn; discriminate.
  - apply bind_not_beyond; [apply float_of_string_not_beyond|discriminate].
Qed.

Lemma contains_not_beyond (k : string) (v : json) : Py.contains k v <> Beyond.
Proof. destruct v; cbn; discriminate. Qed.

Lemma getitem_not_beyond (v : json) (k : string) : Py.getitem v k <> Beyond.
Proof. destruct v; cbn; try discriminate. destruct (Py.assoc k entries); discriminate. Qed.

Lemma for_each_raises {A B : Type} (f : A -> result B) (l : list A) (x : A) :
  (forall y, f y <> Beyond) -> In x l -> is_raise (f x) ->
  is_raise (for_each f l).
Proof.
  intros Hf Hin [e He]. induction l as [|y l IH]; [destruct Hin|].
  cbn [for_each]. destruct Hin as [->|Hin].
  - rewrite He. cbn. now exists e.
  - destruct (f y) as [b|e'|] eqn:Hy; cbn [bind].
    + destruct (IH Hin) as [e2 ->]. cbn. now exists e2.
    + now exists e'.
    + now destruct (Hf y).
Qed.

Section ComprehensionFacts.
Context {W F : Type}.
Variable ws_value : W -> Z.
Variable typecast : F -> typecast_fn.
Variable as_key : F -> key.
Variable field_map : list (W * F).
Hypothesis no_str : forall entry, In entry field_map -> typecast (snd entry) <> py_str.

Lemma comprehension_not_beyond (item : json) :
    forall fm acc, incl fm field_map ->
      comprehension ws_value typecast as_key fm item acc <> Beyond.
  Proof.
    induction fm as [|[w f] fm IH]; intros acc Hincl; cbn [comprehension];
      [discriminate|].
    assert (Htail : incl fm field_map)
      by (intros x Hx; apply Hincl; now right).
    apply bind_not_beyond; [apply contains_not_beyond|].
    intros [|]; [|now apply IH].
    apply bind_not_beyond; [apply getitem_not_beyond|]. intros raw.
    apply bind_not_beyond.
    - apply call_typecast_not_beyond. apply (no_str (w, f)), Hincl. now left.
    - intros v. now apply IH.
  Qed.

Lemma distill_item_not_beyond (SYMBOL : F) (item : json) :
    distill_item ws_value typecast as_key field_map SYMBOL item <> Beyond.
  Proof.
    unfold distill_item.
    apply bind_not_beyond; [apply comprehension_not_beyond, incl_refl|].
    intros r. apply bind_not_beyond; [apply getitem_not_beyond|discriminate].
  Qed.

  (** A mapped field that is present with a raw value its typecast refuses
      makes the comprehension raise. *)
Lemma comprehension_raises (d : list (string * json)) (index : string)
      (cast : typecast_fn) (raw : json) :
    Py.assoc index d = Some raw ->
    is_raise (call_typecast cast raw) ->
    forall fm acc, incl fm field_map ->
      In (index, cast) (typed_indices ws_value typecast fm) ->
      is_raise (comprehension ws_value typecast as_key fm (JDict d) acc).
  Proof.
    intros Hraw [e He].
    induction fm as [|[w f] fm IH]; intros acc Hincl Hin; [destruct Hin|].
    cbn [comprehension]. cbn [Py.contains bind].
    destruct Hin as [Heq|Hin].
    - cbn [fst snd] in Heq. injection Heq as Hi Hc.
      rewrite Hi, Hraw. cbn [bind Py.getitem]. rewrite Hraw. cbn [bind].
      rewrite Hc, He. cbn. now exists e.
    - assert (Htail : incl fm field_map)
        by (intros x Hx; apply Hincl; now right).
      destruct (Py.assoc (PyStr.of_Z (ws_value w)) d) as [raw'|] eqn:Hw;
        cbn [bind Py.getitem]; [|now apply IH].
      rewrite Hw. cbn [bind].
      destruct (call_typecast (typecast f) raw') as [v|e'|] eqn:Hv; cbn [bind].
      + now apply IH.
      + now exists e'.
      + exfalso. revert Hv. apply call_typecast_not_beyond.
        apply (no_str (w, f)), Hincl. now left.
  Qed.

Lemma distill_item_raises (SYMBOL : F) (d : list (string * json))
      (index : string) (cast : typecast_fn) (raw : json) :
    Py.assoc index d = Some raw ->
    is_raise (call_typecast cast raw) ->
    In (index, cast) (typed_indices ws_value typecast field_map) ->
    is_raise (distill_item ws_value typecast as_key field_map SYMBOL (JDict d)).
  Proof.
    intros Hraw He Hin. unfold distill_item.
    destruct (comprehension_raises d index cast raw Hraw He field_map []
                (incl_refl _) Hin) as [e ->].
    cbn. now exists e.
  Qed.
End ComprehensionFacts.

Lemma distill_timesale_not_beyond (ts : json) : distill_timesale ts <> Beyond.
Proof.
  unfold distill_timesale.
  repeat (apply bind_not_beyond;
          [first [apply getitem_not_beyond
                 |apply call_typecast_not_beyond with (t := py_int); discriminate]
          |intros ?]).
  discriminate.
Qed.

Ltac getitem_or_raise :=
  match goal with
  | |- is_raise (bind (Py.getitem ?v ?k) _) =>
      let H := fresh "Hget" in
      destruct (Py.getitem v k) eqn:H; cbn [bind];
      [ | eexists; reflexivity | now destruct (getitem_not_beyond v k) ]
  end.

Lemma distill_timesale_raises (d : list (string * json)) (raw : json) :
  Py.assoc (ts_index TS_LAST_SIZE) d = Some raw ->
  is_raise (PyNum.int raw) ->
  is_raise (distill_timesale (JDict d)).
Proof.
  intros Hraw [e He]. unfold distill_timesale.
  do 3 getitem_or_raise.
  rewrite (getitem_dict _ _ _ Hraw). cbn [bind].
  rewrite He. cbn. now exists e.
Qed.

Lemma no_str_chart :
  forall entry, In entry chart_equity_field_map ->
    tda.ChartBarField_typecast (snd entry) <> py_str.
Proof. intros entry H. repeat (destruct H as [<-|H]; [discriminate|]). destruct H. Qed.

Lemma no_str_option :
  forall entry, In entry option_field_map ->
    tda.OptionContractField_typecast (snd entry) <> py_str.
Proof. intros entry H. repeat (destruct H as [<-|H]; [discriminate|]). destruct H. Qed.

Lemma no_str_quote :
  forall entry, In entry quote_field_map ->
    tda.QuoteField_typecast (snd entry) <> py_str.
Proof. intros entry H. repeat (destruct H as [<-|H]; [discriminate|]). destruct H. Qed.

Lemma distill_list_raises (f : json -> result record) (x : json)
    (xs : list json) (item : json) :
  (forall y, f y <> Beyond) -> In item (x :: xs) -> is_raise (f item) ->
  is_raise (distill_list f (JList (x :: xs))).
Proof.
  intros Hf Hin Hr. unfold distill_list. cbn [Py.iter bind].
  destruct (for_each_raises f (x :: xs) item Hf Hin Hr) as [e ->].
  cbn. now exists e.
Qed.

(** C4 (as amended): when the typed coercion of a mapped field of some
    record of a data payload fails, the decoder neither defaults the value
    nor reports a [MalformedFieldError]: the exception of the typecast (or
    an earlier one) leaves [_ws_distill_data], nothing is logged and no
    record of the frame is returned, the sibling records included. *)
Theorem C4_coercion_failure_raises :
  forall (data name : json) (service : WSService) (x : json) (xs : list json)
         (d : list (string * json)) (index : string) (cast : typecast_fn)
         (raw : json),
    Py.getitem data "service" = Return name ->
    WSService_of name = Return service ->
    Py.getitem data "content" = Return (JList (x :: xs)) ->
    In (JDict d) (x :: xs) ->
    In (index, cast) (service_coercions service) ->
    Py.assoc index d = Some raw ->
    is_raise (call_typecast cast raw) ->
    fst (_ws_distill_data data) = []
    /\ is_raise (snd (_ws_distill_data data)).
Proof.
  intros data name service x xs d index cast raw Hs Hn Hc Hin Hidx Hraw He.
  rewrite (distill_data_nonempty _ _ _ _ _ Hs Hn Hc). cbn [fst snd].
  split; [reflexivity|].
  destruct service; cbn [service_coercions] in Hidx.
  - destruct Hidx.
  - destruct Hidx.
  - apply distill_list_raises with (item := JDict d); auto.
    + apply distill_item_not_beyond, no_str_chart.
    + eapply distill_item_raises; eauto using no_str_chart.
  - apply distill_list_raises with (item := JDict d); auto.
    + apply distill_item_not_beyond, no_str_option.
    + eapply distill_item_raises; eauto using no_str_option.
  - apply distill_list_raises with (item := JDict d); auto.
    + apply distill_item_not_beyond, no_str_quote.
    + eapply distill_item_raises; eauto using no_str_quote.
  - apply distill_list_raises with (item := JDict d); auto.
    + apply distill_timesale_not_beyond.
    + destruct Hidx as [Heq|[]]. injection Heq as <- <-.
      eapply distill_timesale_raises; eauto.
Qed.

Lemma C4_coercion_failure_raises_witness :
  fst (_ws_distill_data
         (Sample.payload "CHART_EQUITY" [Sample.chart_bar; Sample.bad_bar])) = []
  /\ is_raise
       (snd (_ws_distill_data
               (Sample.payload "CHART_EQUITY"
                  [Sample.chart_bar; Sample.bad_bar]))).
Proof.
  apply (C4_coercion_failure_raises _ (JStr "CHART_EQUITY") CHART_EQUITY
           Sample.chart_bar [Sample.bad_bar]
           [ ("key", JStr "ABC"); ("1", JStr "n/a"); ("7", JInt 1700000060000) ]
           "1" py_float (JStr "n/a")).
  - reflexivity.
  - reflexivity.
  - reflexivity.
  - right; left; reflexivity.
  - right; left; reflexivity.
  - reflexivity.
  - exists ValueError. reflexivity.
Defined.

(** C4 as stated fails: a CHART_EQUITY frame holding a well-formed bar
    and a bar whose open price is the text ["n/a"] decodes to no record at
    all.  The [ValueError] of [float] leaves the decoder, the well-formed
    sibling is lost with the offending bar, and nothing is logged. *)
Lemma C4_counterexample :
  _ws_distill_data
    (Sample.payload "CHART_EQUITY" [Sample.chart_bar; Sample.bad_bar])
  = ([], Raise ValueError)
  /\ (exists bar,
        _ws_distill_data (Sample.payload "CHART_EQUITY" [Sample.chart_bar])
        = ([], Return (Some (DList [bar])))).
Proof. split; [|eexists]; vm_compute; reflexivity. Qed.

(** ** The session *)

(** *** What a step leaves untouched *)

Lemma bindM_inv {A B : Type} (m : M A) (k : A -> M B) (w w' : world) (b : B) :
  bindM m k w = (Return b, w') ->
  exists a w1, m w = (Return a, w1) /\ k a w1 = (Return b, w').
Proof.
  unfold bindM. destruct (m w) as [[a| |] w1]; try discriminate. eauto.
Qed.

Lemma keeps_ws_bind {A B : Type} (m : M A) (k : A -> M B) :
  keeps_ws m -> (forall a, keeps_ws (k a)) -> keeps_ws (bindM m k).
Proof.
  intros Hm Hk w r w'. unfold bindM.
  destruct (m w) as [[a|e|] w1] eqn:E; intros H.
  - rewrite (Hk a _ _ _ H). eauto.
  - injection H as <- <-. eauto.
  - injection H as <- <-. eauto.
Qed.

Lemma keeps_ws_ret {A : Type} (a : A) : keeps_ws (ret a).
Proof. intros w r w' [= <- <-]. reflexivity. Qed.

Lemma keeps_ws_lift {A : Type} (r : result A) : keeps_ws (lift r).
Proof. intros w r' w' [= <- <-]. reflexivity. Qed.

Lemma keeps_ws_raise {A : Type} (e : exn) : keeps_ws (@raise A e).
Proof. intros w r' w' [= <- <-]. reflexivity. Qed.

Lemma keeps_ws_get : keeps_ws get_ws.
Proof. intros w r w' [= <- <-]. reflexivity. Qed.

Lemma keeps_ws_send (request : json) : keeps_ws (send request).
Proof. intros w r w' [= <- <-]. reflexivity. Qed.

Lemma keeps_ws_logger_error (entries : list log_entry) :
  keeps_ws (logger_error entries).
Proof. intros w r w' [= <- <-]. reflexivity. Qed.

Lemma keeps_ws_await (key : string) : keeps_ws (await key).
Proof.
  intros w r w'. unfold await.
  destruct (await_frame key (socket w)) as [r0 rest].
  intros [= <- <-]. reflexivity.
Qed.

Lemma keeps_ws_invoke (cb : callback) (d : distilled) (context : json) :
  keeps_ws (invoke cb d context).
Proof.
  intros w r w'. unfold invoke.
  destruct (cb_run cb d context); intros [= <- <-]; reflexivity.
Qed.

Lemma keeps_ws_dispatch (functions : list callback) (contexts : option (list json))
    (d : distilled) :
  forall cb_idx, keeps_ws (dispatch functions cb_idx contexts d).
Proof.
  induction functions as [|cb rest IH]; intros cb_idx; cbn [dispatch].
  - apply keeps_ws_ret.
  - destruct contexts as [l|]; [|apply keeps_ws_raise].
    destruct (nth_error l cb_idx); [|apply keeps_ws_raise].
    apply keeps_ws_bind; [apply keeps_ws_invoke|]. intros _. apply IH.
Qed.

Lemma keeps_ws_subscribe_io (request : json) : keeps_ws (_subscribe request).
Proof.
  unfold _subscribe.
  apply keeps_ws_bind; [apply keeps_ws_send|intros _].
  apply keeps_ws_bind; [apply keeps_ws_await|intros response].
  apply keeps_ws_bind; [apply keeps_ws_lift|intros failed].
  apply keeps_ws_bind;
    [destruct failed; [apply keeps_ws_logger_error|apply keeps_ws_ret]
    |intros _].
  apply keeps_ws_bind; [apply keeps_ws_await|intros data_frame].
  apply keeps_ws_bind; [apply keeps_ws_lift|intros data_list].
  apply keeps_ws_lift.
Qed.

Lemma keeps_ws_distill (data : json) : keeps_ws (distill data).
Proof.
  unfold distill. apply keeps_ws_bind; [apply keeps_ws_logger_error|].
  intros _. apply keeps_ws_lift.
Qed.

(** What a call of [_ws_subscribe] that returns leaves in the handle. *)
Lemma _ws_subscribe_registry (service : WSService) (fs : list ws_field)
    (functions : list callback) (contexts : option (list json))
    (syms : option (list string)) (first_data : bool) (w w' : world) :
  _ws_subscribe service fs functions contexts syms first_data w
    = (Return tt, w') ->
  ws w' =
    Handle (account (ws w)) (principal (ws w)) (qos (ws w))
           (next_request_id (ws w))
           (<[WSService_value service :=
                Subscription fs syms first_data functions contexts]>
              (services (ws w))).
Proof.
  unfold _ws_subscribe. intros H.
  apply bindM_inv in H as (h & w1 & H1 & H).
  injection H1 as <- <-.
  apply bindM_inv in H as (request & w2 & H2 & H).
  apply keeps_ws_lift in H2 as E2.
  apply bindM_inv in H as (data & w3 & H3 & H).
  apply keeps_ws_subscribe_io in H3 as E3.
  apply bindM_inv in H as (data_service & w4 & H4 & H).
  apply keeps_ws_lift in H4 as E4.
  apply bindM_inv in H as (distilled_data & w5 & H5 & H).
  apply keeps_ws_distill in H5 as E5.
  apply bindM_inv in H as ([] & w6 & H6 & H).
  injection H6 as <-.
  assert (E : ws w5 = ws w) by congruence.
  assert (E7 : ws w' = ws (set_ws
             (Handle (account (ws w5)) (principal (ws w5)) (qos (ws w5))
                (next_request_id (ws w5))
                (<[WSService_value service :=
                     Subscription fs syms first_data functions contexts]>
                   (services (ws w5)))) w5)).
  { destruct first_data, distilled_data as [d|];
      try (injection H as <-; reflexivity).
    destruct data_service as [ds|]; [|discriminate].
    apply bindM_inv in H as (entry & w7 & H7 & H).
    unfold ws_entry in H7. cbn [ws set_ws] in H7.
    match type of H7 with
    | context [match ?x with _ => _ end] => destruct x; [|discriminate]
    end.
    injection H7 as <- <-.
    apply keeps_ws_dispatch in H. exact H. }
  rewrite E7. cbn [ws set_ws]. now rewrite E.
Qed.

(** C7: when a call of [_ws_subscribe] for a service returns, the entry
    of the handle under that service's value holds exactly the fields,
    symbols, callbacks and contexts (and flag) passed to the call,
    whatever the handle held there before (a former entry is replaced as
    a whole, nothing of it is merged), and the entry under every other
    key is the one from before the call. *)
Theorem C7_subscribe_registers_exactly :
  forall (service : WSService) (fs : list ws_field)
         (functions : list callback) (contexts : option (list json))
         (syms : option (list string)) (first_data : bool) (w w' : world),
    _ws_subscribe service fs functions contexts syms first_data w
      = (Return tt, w') ->
    services (ws w') !! WSService_value service
      = Some (Subscription fs syms first_data functions contexts)
    /\ forall name : string,
         name <> WSService_value service ->
         services (ws w') !! name = services (ws w) !! name.
Proof.
  intros service fs functions contexts syms first_data w w' H.
  rewrite (_ws_subscribe_registry _ _ _ _ _ _ _ _ H). cbn [services].
  split.
  - apply lookup_insert_eq.
  - intros name Hne. now apply lookup_insert_ne.
Qed.

Lemma C7_subscribe_registers_exactly_witness :
  _ws_subscribe QUOTE [QuoteField_ WQ_SYMBOL; QuoteField_ WQ_LAST_PRICE]
      [Sample.returns "new_consumer"] (Some [JStr "new-ctx"]) (Some ["ABC"])
      true (Sample.world_quote_live (Sample.payload "QUOTE" [Sample.quote_item]))
    = (Return tt,
       snd (_ws_subscribe QUOTE
              [QuoteField_ WQ_SYMBOL; QuoteField_ WQ_LAST_PRICE]
              [Sample.returns "new_consumer"] (Some [JStr "new-ctx"])
              (Some ["ABC"]) true
              (Sample.world_quote_live
                 (Sample.payload "QUOTE" [Sample.quote_item]))))
  /\ services
       (ws (snd (_ws_subscribe QUOTE
                   [QuoteField_ WQ_SYMBOL; QuoteField_ WQ_LAST_PRICE]
                   [Sample.returns "new_consumer"] (Some [JStr "new-ctx"])
                   (Some ["ABC"]) true
                   (Sample.world_quote_live
                      (Sample.payload "QUOTE" [Sample.quote_item])))))
       !! WSService_value QUOTE
     = Some (Subscription [QuoteField_ WQ_SYMBOL; QuoteField_ WQ_LAST_PRICE]
               (Some ["ABC"]) true [Sample.returns "new_consumer"]
               (Some [JStr "new-ctx"])).
Proof.
  assert (H : _ws_subscribe QUOTE
                [QuoteField_ WQ_SYMBOL; QuoteField_ WQ_LAST_PRICE]
                [Sample.returns "new_consumer"] (Some [JStr "new-ctx"])
                (Some ["ABC"]) true
                (Sample.world_quote_live
                   (Sample.payload "QUOTE" [Sample.quote_item]))
              = (Return tt,
                 snd (_ws_subscribe QUOTE
                        [QuoteField_ WQ_SYMBOL; QuoteField_ WQ_LAST_PRICE]
                        [Sample.returns "new_consumer"] (Some [JStr "new-ctx"])
                        (Some ["ABC"]) true
                        (Sample.world_quote_live
                           (Sample.payload "QUOTE" [Sample.quote_item])))))
    by (vm_compute; reflexivity).
  split; [exact H|].
  exact (proj1 (C7_subscribe_registers_exactly _ _ _ _ _ _ _ _ H)).
Defined.

(** *** Parts of the world a step keeps *)

Lemma keeps_bind {A B C : Type} (part : world -> C) (m : M A) (k : A -> M B) :
  keeps part m -> (forall a, keeps part (k a)) -> keeps part (bindM m k).
Proof.
  intros Hm Hk w r w'. unfold bindM.
  destruct (m w) as [[a|e|] w1] eqn:E; intros H.
  - rewrite (Hk a _ _ _ H). eauto.
  - injection H as <- <-. eauto.
  - injection H as <- <-. eauto.
Qed.

Lemma keeps_ret {A C : Type} (part : world -> C) (a : A) : keeps part (ret a).
Proof. intros w r w' [= <- <-]. reflexivity. Qed.

Lemma keeps_lift {A C : Type} (part : world -> C) (r : result A) :
  keeps part (lift r).
Proof. intros w r' w' [= <- <-]. reflexivity. Qed.

Lemma keeps_raise {A C : Type} (part : world -> C) (e : exn) :
  keeps part (@raise A e).
Proof. intros w r' w' [= <- <-]. reflexivity. Qed.

Lemma keeps_get {C : Type} (part : world -> C) : keeps part get_ws.
Proof. intros w r w' [= <- <-]. reflexivity. Qed.

Lemma keeps_wire_logger_error (entries : list log_entry) :
  keeps wire (logger_error entries).
Proof. intros w r w' [= <- <-]. reflexivity. Qed.

Lemma keeps_wire_invoke (cb : callback) (d : distilled) (context : json) :
  keeps wire (invoke cb d context).
Proof.
  intros w r w'. unfold invoke.
  destruct (cb_run cb d context); intros [= <- <-]; reflexivity.
Qed.

Lemma keeps_wire_dispatch (functions : list callback)
    (contexts : option (list json)) (d : distilled) :
  forall cb_idx, keeps wire (dispatch functions cb_idx contexts d).
Proof.
  induction functions as [|cb rest IH]; intros cb_idx; cbn [dispatch].
  - apply keeps_ret.
  - destruct contexts as [l|]; [|apply keeps_raise].
    destruct (nth_error l cb_idx); [|apply keeps_raise].
    apply keeps_bind; [apply keeps_wire_invoke|]. intros _. apply IH.
Qed.

Lemma keeps_wire_distill (data : json) : keeps wire (distill data).
Proof.
  unfold distill. apply keeps_bind; [apply keeps_wire_logger_error|].
  intros _. apply keeps_lift.
Qed.

Lemma keeps_wire_listen_data (data : json) : keeps wire (listen_data data).
Proof.
  unfold listen_data.
  apply keeps_bind; [apply keeps_lift|]. intros [|]; [|apply keeps_ret].
  apply keeps_bind; [apply keeps_lift|]. intros name.
  apply keeps_bind; [apply keeps_lift|]. intros service.
  apply keeps_bind; [apply keeps_get|]. intros h.
  destruct (services h !! WSService_value service) as [entry|];
    [|apply keeps_ret].
  apply keeps_bind; [apply keeps_wire_distill|]. intros [d|];
    [apply keeps_wire_dispatch|apply keeps_ret].
Qed.

Lemma keeps_wire_listen_each (items : list json) :
  keeps wire (listen_each items).
Proof.
  induction items as [|data rest IH]; cbn [listen_each]; [apply keeps_ret|].
  apply keeps_bind; [apply keeps_wire_listen_data|]. intros _. exact IH.
Qed.

Lemma keeps_wire_listen_response (response : json) :
  keeps wire (listen_response response).
Proof.
  unfold listen_response.
  apply keeps_bind; [apply keeps_lift|]. intros responses.
  apply keeps_bind; [apply keeps_lift|]. intros n.
  destruct (negb (n =? 1)); [apply keeps_ret|].
  apply keeps_bind; [apply keeps_lift|]. intros first.
  apply keeps_bind; [apply keeps_lift|]. intros has_content.
  destruct (negb has_content); [apply keeps_ret|].
  apply keeps_bind; [apply keeps_lift|]. intros content.
  apply keeps_bind; [apply keeps_lift|]. intros code.
  destruct (Py.nonzero code); [|apply keeps_ret].
  apply keeps_bind; [apply keeps_lift|]. intros [|].
  - apply keeps_bind; [apply keeps_lift|]. intros msg.
    apply keeps_wire_logger_error.
  - apply keeps_wire_logger_error.
Qed.

(** Handling a received frame sends nothing, reads nothing more from the
    socket, opens no connection and leaves the handle as it is. *)
Lemma keeps_wire_listen_frame (response : json) :
  keeps wire (listen_frame response).
Proof.
  unfold listen_frame.
  apply keeps_bind; [apply keeps_lift|]. intros [|]; [apply keeps_ret|].
  apply keeps_bind; [apply keeps_lift|]. intros [|];
    [apply keeps_wire_listen_response|].
  apply keeps_bind; [apply keeps_lift|]. intros is_data.
  destruct (negb is_data); [apply keeps_ret|].
  apply keeps_bind; [apply keeps_lift|]. intros payload.
  apply keeps_bind; [apply keeps_lift|]. intros items.
  apply keeps_wire_listen_each.
Qed.

Lemma keeps_log_invoke (cb : callback) (d : distilled) (context : json) :
  keeps log (invoke cb d context).
Proof.
  intros w r w'. unfold invoke.
  destruct (cb_run cb d context); intros [= <- <-]; reflexivity.
Qed.

(** The dispatch loop writes no log record, whether a consumer raises or
    not. *)
Lemma keeps_log_dispatch (functions : list callback)
    (contexts : option (list json)) (d : distilled) :
  forall cb_idx, keeps log (dispatch functions cb_idx contexts d).
Proof.
  induction functions as [|cb rest IH]; intros cb_idx; cbn [dispatch].
  - apply keeps_ret.
  - destruct contexts as [l|]; [|apply keeps_raise].
    destruct (nth_error l cb_idx); [|apply keeps_raise].
    apply keeps_bind; [apply keeps_log_invoke|]. intros _. apply IH.
Qed.

(** The elements of a frame are handled in order: when the elements
    before one are done and that one ends in an exception, so does the
    frame, there. *)
Lemma listen_each_stops_at_raise (data : json) (others : list json)
    (e : exn) :
  forall (earlier : list json) (w0 w1 w' : world),
    listen_each earlier w0 = (Return tt, w1) ->
    listen_data data w1 = (Raise e, w') ->
    listen_each (earlier ++ data :: others) w0 = (Raise e, w').
Proof.
  induction earlier as [|x earlier IH]; intros w0 w1 w' Hearlier Hdata.
  - cbn [listen_each] in Hearlier. injection Hearlier as <-.
    cbn [app listen_each]. unfold bindM. now rewrite Hdata.
  - cbn [app listen_each] in Hearlier |- *.
    apply bindM_inv in Hearlier as ([] & w2 & Hx & Hearlier).
    unfold bindM at 1. rewrite Hx. exact (IH _ _ _ Hearlier Hdata).
Qed.

(** *** Dispatch *)

Lemma skipn_nth_error {A : Type} (l : list A) (i : nat) (x : A) :
  nth_error l i = Some x -> skipn i l = x :: skipn (S i) l.
Proof.
  revert i. induction l as [|y l IH]; intros [|i]; cbn; try discriminate.
  - now intros [= ->].
  - intros H. now rewrite (IH _ H).
Qed.

(** Dispatch up to the first consumer that raises: the consumers before
    it are called in order, each with the context at its position, the
    exception leaves the loop, and the consumers after it are not
    called. *)
Lemma dispatch_stops_at_raise (cb : callback) (after : list callback)
    (contexts : list json) (d : distilled) (context : json) (e : exn) :
  cb_run cb d context = CbRaises e ->
  forall (before : list callback) (cb_idx : nat) (w : world),
    Forall (returns_normally d) (combine before (skipn cb_idx contexts)) ->
    nth_error contexts (cb_idx + List.length before) = Some context ->
    exists w',
      dispatch (before ++ cb :: after) cb_idx (Some contexts) d w
        = (Raise e, w')
      /\ calls w' = calls w ++ invocations before (skipn cb_idx contexts) d
                            ++ [Called (cb_name cb) d context]
      /\ socket w' = socket w.
Proof.
  intros Hcb. induction before as [|c before IH]; intros cb_idx w Hall Hnth.
  - cbn [app dispatch List.length] in *. rewrite Nat.add_0_r in Hnth.
    rewrite Hnth. unfold bindM, invoke. rewrite Hcb.
    eexists. split; [reflexivity|]. split; reflexivity.
  - cbn [app dispatch List.length] in *.
    assert (Hi : exists x, nth_error contexts cb_idx = Some x).
    { destruct (nth_error contexts cb_idx) as [x|] eqn:E; [eauto|].
      apply nth_error_None in E.
      assert (Hlt : (cb_idx + S (List.length before) < List.length contexts)%nat)
        by (apply nth_error_Some; congruence).
      lia. }
    destruct Hi as [x Hx]. rewrite Hx.
    rewrite (skipn_nth_error _ _ _ Hx) in Hall |- *.
    cbn [combine] in Hall. inversion Hall as [|p ps Hp Hps]; subst.
    replace (cb_idx + S (List.length before))%nat
      with (S cb_idx + List.length before)%nat in Hnth by lia.
    unfold bindM at 1. unfold invoke at 1.
    unfold returns_normally in Hp. cbn [fst snd] in Hp.
    destruct (cb_run c d x) as [| |e'] eqn:Hrun; [| |now destruct (Hp e')].
    + match goal with
      | |- context [dispatch _ _ _ _ ?w1] =>
          destruct (IH (S cb_idx) w1 Hps Hnth) as (w' & -> & Hcalls & Hsock)
      end.
      eexists. split; [reflexivity|]. split; [|exact Hsock].
      rewrite Hcalls. cbn [calls]. unfold invocations. cbn [combine map fst snd].
      now rewrite <- !app_assoc.
    + match goal with
      | |- context [dispatch _ _ _ _ ?w1] =>
          destruct (IH (S cb_idx) w1 Hps Hnth) as (w' & -> & Hcalls & Hsock)
      end.
      eexists. split; [reflexivity|]. split; [|exact Hsock].
      rewrite Hcalls. cbn [calls set_done]. unfold invocations.
      cbn [combine map fst snd]. now rewrite <- !app_assoc.
Qed.

(** C8 (as amended): an exception raised by a consumer while a data frame
    is dispatched is not caught or logged.  When an element of a data
    frame, at any position, reaches the consumers of its service after
    the elements before it were handled, and one of the consumers
    raises, the consumers registered before it have been called in
    registration order, each with the decoded records and its own
    context, the consumers registered after it are not called for that
    frame, no log record is written for the exception, and the exception
    leaves [ws_listen]: the receive loop ends there, with the later
    elements and the later frames unread and nothing sent. *)
Theorem C8_consumer_exception_ends_listen :
  forall (fuel : nat) (w w1 : world) (response data name : json)
         (earlier others later : list json) (service : WSService)
         (entry : subscription) (d : distilled) (logged : list log_entry)
         (before after : list callback) (cb : callback)
         (contexts : list json) (context : json) (e : exn),
    done w = false ->
    socket w = response :: later ->
    Py.contains "notify" response = Return false ->
    Py.contains "response" response = Return false ->
    Py.getitem response "data" = Return (JList (earlier ++ data :: others)) ->
    listen_each earlier (set_socket later w) = (Return tt, w1) ->
    Py.getitem data "service" = Return name ->
    WSService_of name = Return service ->
    services (ws w) !! WSService_value service = Some entry ->
    _ws_distill_data data = (logged, Return (Some d)) ->
    cb_functions entry = before ++ cb :: after ->
    cb_data entry = Some contexts ->
    Forall (returns_normally d) (combine before contexts) ->
    nth_error contexts (List.length before) = Some context ->
    cb_run cb d context = CbRaises e ->
    exists w',
      ws_listen (S fuel) w = (Raise e, w')
      /\ calls w' = calls w1 ++ invocations before contexts d
                             ++ [Called (cb_name cb) d context]
      /\ log w' = log w1 ++ logged
      /\ socket w' = later
      /\ sent w' = sent w.
Proof.
  intros fuel w w1 response data name earlier others later service entry d
         logged before after cb contexts context e
         Hdone Hsock Hnotify Hresp Hdata Hearlier Hname Hsvc Hentry Hdist
         Hfuns Hctx Hbefore Hnth Hraise.
  destruct (getitem_inv _ _ _ Hdata) as (rd & -> & Hrd).
  destruct (getitem_inv _ _ _ Hname) as (dd & -> & Hdd).
  pose proof (keeps_wire_listen_each _ _ _ _ Hearlier) as Hwire.
  unfold wire in Hwire. cbn [ws socket attempts sent set_socket] in Hwire.
  injection Hwire as Hws1 Hsocket1 Hattempts1 Hsent1.
  destruct (dispatch_stops_at_raise cb after contexts d context e Hraise
              before 0
              (World (ws w1) (socket w1) (attempts w1) (sent w1)
                     (log w1 ++ logged) (calls w1) (done w1)) Hbefore Hnth)
    as (w' & Hdisp & Hcalls & Hsocket).
  pose proof (keeps_log_dispatch _ _ _ _ _ _ _ Hdisp) as Hlog.
  pose proof (keeps_wire_dispatch _ _ _ _ _ _ _ Hdisp) as Hwire.
  unfold wire in Hwire. cbn [ws socket attempts sent] in Hwire.
  injection Hwire as _ _ _ Hsent.
  cbn [log socket calls] in Hlog, Hsocket, Hcalls.
  exists w'.
  split; [|split; [exact Hcalls|split; [exact Hlog|split; congruence]]].
  assert (Hone : listen_data (JDict dd) w1 = (Raise e, w')).
  { unfold listen_data. unfold bindM at 1. unfold lift at 1.
    cbn [Py.contains]. rewrite Hdd.
    unfold bindM at 1. unfold lift at 1. rewrite Hname.
    unfold bindM at 1. unfold lift at 1. rewrite Hsvc.
    unfold bindM at 1. unfold get_ws at 1. rewrite Hws1, Hentry.
    unfold bindM at 1. unfold distill.
    unfold bindM at 1. unfold logger_error at 1. unfold lift at 1.
    rewrite Hdist. cbn [fst snd]. rewrite Hfuns, Hctx.
    exact Hdisp. }
  cbn [ws_listen]. rewrite Hdone.
  unfold bindM at 1. unfold _listen. rewrite Hsock.
  unfold bindM at 1.
  assert (Hframe :
    listen_frame (JDict rd) (set_socket later w) = (Raise e, w')).
  { unfold listen_frame. unfold bindM at 1. unfold lift at 1.
    rewrite Hnotify. unfold bindM at 1. unfold lift at 1. rewrite Hresp.
    unfold bindM at 1. unfold lift at 1. cbn [Py.contains]. rewrite Hrd.
    cbn [negb]. unfold bindM at 1. unfold lift at 1. rewrite Hdata.
    unfold bindM at 1. unfold lift at 1. cbn [Py.iter].
    exact (listen_each_stops_at_raise _ _ _ _ _ _ _ Hearlier Hone). }
  rewrite Hframe. reflexivity.
Qed.

Lemma C8_consumer_exception_ends_listen_witness :
  exists w',
    ws_listen 3 Scene.world_second_raises = (Raise (UserError "second"), w')
    /\ map called_name (calls w') = ["on_timesale"; "first"; "second"]
    /\ log w' = []
    /\ socket w' = [Sample.heartbeat].
Proof.
  assert (Hdecoded : exists d,
            _ws_distill_data (Sample.payload "QUOTE" [Sample.quote_item])
            = ([], Return (Some d)))
    by (eexists; vm_compute; reflexivity).
  destruct Hdecoded as [d Hdecoded].
  destruct (C8_consumer_exception_ends_listen 2 Scene.world_second_raises
               (snd (listen_each
                       [Sample.payload "TIMESALE_EQUITY" [Sample.timesale_item]]
                       (set_socket [Sample.heartbeat]
                                   Scene.world_second_raises)))
               (Sample.data_frame
                  [ Sample.payload "TIMESALE_EQUITY" [Sample.timesale_item];
                    Sample.payload "QUOTE" [Sample.quote_item];
                    Sample.payload "QUOTE" [Sample.quote_item] ])
               (Sample.payload "QUOTE" [Sample.quote_item]) (JStr "QUOTE")
               [Sample.payload "TIMESALE_EQUITY" [Sample.timesale_item]]
               [Sample.payload "QUOTE" [Sample.quote_item]]
               [Sample.heartbeat] QUOTE
               (Sample.quote_entry
                  [Sample.returns "first"; Sample.raises "second";
                   Sample.returns "third"]
                  [JInt 1; JInt 2; JInt 3])
               d [] [Sample.returns "first"] [Sample.returns "third"]
               (Sample.raises "second") [JInt 1; JInt 2; JInt 3] (JInt 2)
               (UserError "second"))
    as (w' & Hrun & Hcalls & Hlog & Hsocket & _).
  - reflexivity.
  - reflexivity.
  - reflexivity.
  - reflexivity.
  - reflexivity.
  - vm_compute. reflexivity.
  - reflexivity.
  - reflexivity.
  - vm_compute. reflexivity.
  - exact Hdecoded.
  - reflexivity.
  - reflexivity.
  - repeat constructor. intros e. discriminate.
  - reflexivity.
  - reflexivity.
  - exists w'. split; [exact Hrun|].
    split; [rewrite Hcalls; vm_compute; reflexivity|].
    split; [rewrite Hlog; vm_compute; reflexivity|exact Hsocket].
Defined.

(** C8 as stated fails: QUOTE has two consumers and the first one raises.
    On a QUOTE data frame [ws_listen] ends with that exception: the second
    consumer is never called, nothing is logged, and the heartbeat that
    follows stays unread. *)
Lemma C8_counterexample :
  fst (ws_listen 3 Sample.world_raising_consumer) = Raise (UserError "first")
  /\ map called_name (calls (snd (ws_listen 3 Sample.world_raising_consumer)))
     = ["first"]
  /\ log (snd (ws_listen 3 Sample.world_raising_consumer)) = []
  /\ socket (snd (ws_listen 3 Sample.world_raising_consumer))
     = [Sample.heartbeat].
Proof. repeat split; vm_compute; reflexivity. Qed.

(** *** Reconnecting *)

(** Services without an entry are passed over. *)
Lemma resubscribe_each_absent (to_visit : list WSService) (w : world) :
  (forall service, In service to_visit ->
     services (ws w) !! WSService_value service = None) ->
  resubscribe_each to_visit w = (Return tt, w).
Proof.
  induction to_visit as [|service rest IH]; intros H; [reflexivity|].
  cbn [resubscribe_each]. unfold bindM at 1. unfold get_ws at 1.
  rewrite (H service) by now left.
  apply IH. intros s Hs. apply H. now right.
Qed.

(** A handle whose only entry is the one of TIMESALE_EQUITY is passed
    over by [_ws_resubscribe]: nothing is sent, nothing changes. *)
Lemma resubscribe_passes_over_timesale (w : world) (entry : subscription) :
  services (ws w) = {["TIMESALE_EQUITY" := entry]} ->
  _ws_resubscribe w = (Return tt, w).
Proof.
  intros H. apply resubscribe_each_absent. intros service Hin. rewrite H.
  apply lookup_singleton_ne.
  repeat (destruct Hin as [<-|Hin]; [discriminate|]). destruct Hin.
Qed.

(** C1: subscriptions are not all replayed after a reconnect.  With QUOTE
    and TIMESALE_EQUITY subscribed and the connection found closed,
    [ws_listen] connects again and sends the login and one SUBS request,
    for QUOTE; no request is sent for TIMESALE_EQUITY, whose entry is
    still in the handle: [_ws_resubscribe] visits ACCT_ACTIVITY,
    CHART_EQUITY, OPTION and QUOTE only, so that a handle holding the
    TIMESALE_EQUITY entry alone is passed over without a request. *)
Theorem C1_timesale_not_resubscribed :
  fst (ws_listen 2 Sample.world_disconnected) = Return tt
  /\ services (ws Sample.world_disconnected) !! "QUOTE"
     = Some (Sample.quote_entry [Sample.stops "on_quote"] [JStr "q-ctx"])
  /\ services (ws Sample.world_disconnected) !! "TIMESALE_EQUITY"
     = Some Sample.timesale_entry
  /\ services (ws (snd (ws_listen 2 Sample.world_disconnected)))
       !! "TIMESALE_EQUITY"
     = Some Sample.timesale_entry
  /\ map Sample.request_line (sent (snd (ws_listen 2 Sample.world_disconnected)))
     = [ Return (JStr "ADMIN", JStr "LOGIN");
         Return (JStr "QUOTE", JStr "SUBS") ]
  /\ socket (snd (ws_listen 2 Sample.world_disconnected)) = []
  /\ (forall (w : world) (entry : subscription),
        services (ws w) = {["TIMESALE_EQUITY" := entry]} ->
        _ws_resubscribe w = (Return tt, w)).
Proof.
  do 6 (split; [vm_compute; reflexivity|]).
  intros w entry. apply resubscribe_passes_over_timesale.
Qed.

(** *** The first data frame of a subscription *)

(** C9: the first data frame is not delivered to the consumers of the
    subscribe call when it carries another service.  CHART_EQUITY is
    subscribed with consumer [on_chart] while QUOTE is live with consumer
    [on_quote]; the first data frame after the confirmation is tagged
    QUOTE: [on_quote] is called with it (and with its own context),
    [on_chart] is not called at all.  When the frame is tagged with a
    service that has no entry (OPTION), the call ends in [KeyError]. *)
Theorem C9_first_data_follows_frame_tag :
  fst (ws_subscribe_to_chart_equity ["XYZ"] [Sample.returns "on_chart"]
         (Some [JStr "c-ctx"])
         (Sample.world_quote_live (Sample.payload "QUOTE" [Sample.quote_item])))
  = Return tt
  /\ map (fun c => (called_name c, called_context c))
         (calls (snd (ws_subscribe_to_chart_equity ["XYZ"]
                        [Sample.returns "on_chart"] (Some [JStr "c-ctx"])
                        (Sample.world_quote_live
                           (Sample.payload "QUOTE" [Sample.quote_item])))))
     = [("on_quote", JStr "q-ctx")]
  /\ option_map cb_functions
       (services
          (ws (snd (ws_subscribe_to_chart_equity ["XYZ"]
                      [Sample.returns "on_chart"] (Some [JStr "c-ctx"])
                      (Sample.world_quote_live
                         (Sample.payload "QUOTE" [Sample.quote_item])))))
          !! "CHART_EQUITY")
     = Some [Sample.returns "on_chart"]
  /\ fst (ws_subscribe_to_chart_equity ["XYZ"] [Sample.returns "on_chart"]
            (Some [JStr "c-ctx"])
            (Sample.world_quote_live
               (Sample.payload "OPTION" [Sample.chart_bar])))
     = Raise (KeyError "OPTION").
Proof. repeat split; vm_compute; reflexivity. Qed.

(** *** Login *)

Section LoginAnswered.
Variables (account_id : string) (q : WSQOSLevel) (w : world).
Variables (a : attempt) (later : list attempt).
Variables (user_principal_dict accounts acct info stamp url : json).
Variables (listed frames rest : list json).
Variables (timestamp_ms : Z) (uri : string) (request response : json).
Variables (access_token reason : string).

Hypothesis next_attempt : attempts w = a :: later.
Hypothesis token : at_access_token a = Return access_token.
Hypothesis principals :
  at_user_principals a = HttpResponse true reason (Return user_principal_dict).
Hypothesis has_accounts :
  Py.getitem user_principal_dict "accounts" = Return accounts.
Hypothesis accounts_listed : Py.iter accounts = Return listed.
Hypothesis account_listed : find_account account_id listed = Return (Some acct).
Hypothesis has_info :
  Py.getitem user_principal_dict "streamerInfo" = Return info.
Hypothesis has_stamp : Py.getitem info "tokenTimestamp" = Return stamp.
Hypothesis stamp_read : at_token_timestamp_ms a = Return timestamp_ms.
Hypothesis request_built :
  login_request user_principal_dict acct timestamp_ms q = Return request.
Hypothesis has_url : Py.getitem info "streamerSocketUrl" = Return url.
Hypothesis uri_built : socket_uri url = Return uri.
Hypothesis connected : at_connect a = Return frames.
Hypothesis answered : await_frame "response" frames = (Return response, rest).

(** [ws_connect] once the login request has been answered. *)
Lemma ws_connect_answered :
  ws_connect account_id q w =
    (exec (run failed <- lift (response_failed response);
           if (failed : bool)
           then logger_error [LogError "Failed to LOGIN: {}" response]
           else ret tt);
     ret (Some (Handle acct user_principal_dict q 1 ∅)))
      (World (ws w) rest later (sent w ++ [request]) (log w) (calls w) (done w)).
Proof.
  assert (Hsome : is_None user_principal_dict = false)
    by (destruct user_principal_dict; try reflexivity; discriminate).
  unfold ws_connect. rewrite next_attempt.
  unfold bindM at 1. unfold fetch_user_principals at 1.
  rewrite token, principals. cbn [_get_user_principals fst snd].
  unfold bindM at 1. unfold logger_error at 1. unfold lift at 1.
  rewrite Hsome.
  cbn [ws socket attempts sent log calls done set_attempts].
  rewrite app_nil_r.
  unfold bindM at 1. unfold lift at 1. rewrite has_accounts.
  unfold bindM at 1. unfold lift at 1. rewrite accounts_listed.
  unfold bindM at 1. unfold lift at 1. rewrite account_listed.
  unfold bindM at 1. unfold lift at 1. rewrite has_info.
  unfold bindM at 1. unfold lift at 1. rewrite has_stamp.
  unfold bindM at 1. unfold lift at 1. rewrite stamp_read.
  unfold bindM at 1. unfold lift at 1. rewrite request_built.
  unfold bindM at 1. unfold lift at 1. rewrite has_url.
  unfold bindM at 1. unfold lift at 1. rewrite uri_built.
  unfold bindM at 1. unfold lift at 1. rewrite connected.
  unfold _connect. unfold bindM at 1 2 3. unfold send at 1. unfold await at 1.
  cbn [socket set_socket set_attempts ws attempts sent log calls done].
  rewrite answered. reflexivity.
Qed.
End LoginAnswered.

(** C2 (as amended): a login response whose content code is not zero is
    reported by one error record, ["Failed to LOGIN"] with the response
    (and so its code) in it.  The rejection raises nothing, no
    ControlRejected error in particular: [ws_connect] returns; the login
    request is the only request it has sent and the connection attempt is
    used up, so nothing is retried. *)
Theorem C2_login_rejection_is_logged :
  forall (account_id : string) (q : WSQOSLevel) (w : world)
         (a : attempt) (later : list attempt)
         (user_principal_dict accounts acct info stamp url : json)
         (listed frames rest : list json)
         (timestamp_ms : Z) (uri : string) (request response : json)
         (access_token reason : string),
    attempts w = a :: later ->
    at_access_token a = Return access_token ->
    at_user_principals a
    = HttpResponse true reason (Return user_principal_dict) ->
    Py.getitem user_principal_dict "accounts" = Return accounts ->
    Py.iter accounts = Return listed ->
    find_account account_id listed = Return (Some acct) ->
    Py.getitem user_principal_dict "streamerInfo" = Return info ->
    Py.getitem info "tokenTimestamp" = Return stamp ->
    at_token_timestamp_ms a = Return timestamp_ms ->
    login_request user_principal_dict acct timestamp_ms q = Return request ->
    Py.getitem info "streamerSocketUrl" = Return url ->
    socket_uri url = Return uri ->
    at_connect a = Return frames ->
    await_frame "response" frames = (Return response, rest) ->
    response_failed response = Return true ->
    (exists v, fst (ws_connect account_id q w) = Return v)
    /\ log (snd (ws_connect account_id q w))
       = log w ++ [LogError "Failed to LOGIN: {}" response]
    /\ sent (snd (ws_connect account_id q w)) = sent w ++ [request]
    /\ attempts (snd (ws_connect account_id q w)) = later.
Proof.
  intros account_id q w a later user_principal_dict accounts acct info stamp
         url listed frames rest timestamp_ms uri request response
         access_token reason
         H1 Htoken H2 H3 H4 H5 H6 H7 H8 H9 H10 H11 H12 H13 Hfailed.
  rewrite (ws_connect_answered account_id q w a later user_principal_dict
             accounts acct info stamp url listed frames rest timestamp_ms uri
             request response access_token reason
             H1 Htoken H2 H3 H4 H5 H6 H7 H8 H9 H10 H11 H12 H13).
  unfold bindM, lift. rewrite Hfailed. cbn.
  split; [eexists; reflexivity|]. repeat split.
Qed.

Lemma C2_login_rejection_is_logged_witness :
  (exists v, fst (ws_connect "A1" FAST Sample.world_login_rejected) = Return v)
  /\ log (snd (ws_connect "A1" FAST Sample.world_login_rejected))
     = log Sample.world_login_rejected
       ++ [LogError "Failed to LOGIN: {}" (Sample.response_frame 3 "bad token")]
  /\ attempts (snd (ws_connect "A1" FAST Sample.world_login_rejected)) = [].
Proof.
  assert (H := C2_login_rejection_is_logged "A1" FAST
           Sample.world_login_rejected
           (Sample.connects
              [Sample.heartbeat; Sample.response_frame 3 "bad token"])
           [] Sample.user_principal_dict (JList [Sample.listed_account])
           Sample.listed_account
           (JDict
              [ ("token", JStr "tok");
                ("tokenTimestamp", JStr "2020-01-01T00:00:00+0000");
                ("userGroup", JStr "ACCT"); ("accessLevel", JStr "ACCT");
                ("appId", JStr "app"); ("acl", JStr "AK");
                ("streamerSocketUrl", JStr "streamer.example") ])
           (JStr "2020-01-01T00:00:00+0000") (JStr "streamer.example")
           [Sample.listed_account]
           [Sample.heartbeat; Sample.response_frame 3 "bad token"] []
           1577836800000 "wss://streamer.example/ws" _
           (Sample.response_frame 3 "bad token") "token" "OK"
           eq_refl eq_refl eq_refl eq_refl eq_refl eq_refl eq_refl eq_refl
           eq_refl eq_refl eq_refl eq_refl eq_refl eq_refl eq_refl).
  destruct H as (Hret & Hlog & _ & Hatt).
  split; [exact Hret|]. split; [exact Hlog|exact Hatt].
Defined.

(** C2 as stated fails: with the login answered by code 3, [ws_connect]
    raises nothing and hands back a handle like the one of an accepted
    login, with the websocket left open; the rejection shows in the log
    only. *)
Lemma C2_counterexample :
  fst (ws_connect "A1" FAST Sample.world_login_rejected)
    = Return (Some (Handle Sample.listed_account Sample.user_principal_dict
                           FAST 1 ∅))
  /\ log (snd (ws_connect "A1" FAST Sample.world_login_rejected))
     = [LogError "Failed to LOGIN: {}" (Sample.response_frame 3 "bad token")].
Proof. split; vm_compute; reflexivity. Qed.

(** * Further properties of the code *)

(** ** Lookup of enumeration members, continued *)

Lemma filter_unique {A B : Type} (f : A -> B) (eqb : B -> B -> bool)
    (l : list A) (m : A) :
  (forall x y, eqb x y = true <-> x = y) ->
  NoDup (map f l) -> In m l ->
  filter (fun x => eqb (f x) (f m)) l = [m].
Proof.
  intros Heq. induction l as [|a l IH]; intros Hnd Hin; [destruct Hin|].
  cbn [map] in Hnd. apply NoDup_cons_iff in Hnd as [Hnotin Hnd].
  cbn [filter]. destruct Hin as [->|Hin].
  - assert (E : eqb (f m) (f m) = true) by now apply Heq. rewrite E. f_equal.
    clear IH E. induction l as [|b l IHl]; [reflexivity|]. cbn [filter].
    destruct (eqb (f b) (f m)) eqn:Eb.
    + exfalso. apply Hnotin. apply Heq in Eb. rewrite <- Eb. now left.
    + apply IHl.
      * intros Hm. apply Hnotin. now right.
      * cbn [map] in Hnd. now apply NoDup_cons_iff in Hnd as [_ Hnd].
  - destruct (eqb (f a) (f m)) eqn:Ea.
    + exfalso. apply Hnotin. apply Heq in Ea. rewrite Ea. now apply in_map.
    + now apply IH.
Qed.

Section EnumSearchFacts.
Context {M : Type}.
Variable cls : enum_class M.

Lemma value_matches_iff (name : string) (member : M) :
  value_matches cls name member = true
  <-> PyStr.lower (member_value cls member) = PyStr.lower (PyStr.strip name).
Proof. unfold value_matches. apply String.eqb_eq. Qed.

(** A class of which no two members have values that agree up to letter
    case gives back each member for its own name, in any letter case and
    with blanks around it. *)
Lemma search_by_own_name (member : M) (name : string) :
  NoDup (map (fun x => PyStr.lower (member_value cls x)) (members cls)) ->
  In member (members cls) ->
  PyStr.lower (PyStr.strip name) = PyStr.lower (member_value cls member) ->
  _enum_case_insensitive_search_by_value cls (JStr name) = Return member.
Proof.
  intros Hnd Hin Hname.
  assert (E : filter (value_matches cls name) (members cls) = [member]).
  { unfold value_matches. rewrite Hname.
    apply (filter_unique (fun x => PyStr.lower (member_value cls x))
             String.eqb (members cls) member); auto.
    intros x y. apply String.eqb_eq. }
  unfold _enum_case_insensitive_search_by_value.
  destruct (members cls) as [|m0 ms]; [destruct Hin|].
  now rewrite E.
Qed.
End EnumSearchFacts.

Ltac nodup_names :=
  vm_compute;
  repeat (apply NoDup_cons; [cbn [In]; intuition discriminate|]);
  apply NoDup_nil.

Lemma filter_first {A : Type} (f : A -> bool) (l : list A) :
  match filter f l with
  | [] => Forall (fun x => f x = false) l
  | first :: _ =>
      exists before after,
        l = before ++ first :: after /\ f first = true
        /\ Forall (fun x => f x = false) before
  end.
Proof.
  induction l as [|a l IH]; cbn [filter]; [constructor|].
  destruct (f a) eqn:Ea.
  - exists [], l. split; [reflexivity|]. split; [exact Ea|constructor].
  - destruct (filter f l) as [|first rest].
    + now constructor.
    + destruct IH as (before & after & -> & Hfirst & Hbefore).
      exists (a :: before), after. split; [reflexivity|].
      split; [exact Hfirst|now constructor].
Qed.

(** X1: for an enumeration that declares [UNSUPPORTED], the search
    answers every text without raising, and what it answers is the first
    match: the member returned is the first one, in definition order,
    whose value equals the stripped text up to letter case; when no
    member's value does, and only then, the answer is [UNSUPPORTED] for
    want of a match. *)
Theorem search_answers_every_text :
  forall (M : Type) (cls : enum_class M) (u : M) (name : string),
    UNSUPPORTED_member cls = Some u ->
    exists member,
      _enum_case_insensitive_search_by_value cls (JStr name) = Return member
      /\ ((exists before after,
             members cls = before ++ member :: after
             /\ PyStr.lower (member_value cls member)
                = PyStr.lower (PyStr.strip name)
             /\ Forall (fun m => PyStr.lower (member_value cls m)
                                 <> PyStr.lower (PyStr.strip name)) before)
          \/ (member = u
              /\ Forall (fun m => PyStr.lower (member_value cls m)
                                  <> PyStr.lower (PyStr.strip name))
                        (members cls))).
Proof.
  intros M cls u name Hu.
  assert (Hno : forall l,
            Forall (fun m => value_matches cls name m = false) l ->
            Forall (fun m => PyStr.lower (member_value cls m)
                             <> PyStr.lower (PyStr.strip name)) l).
  { intros l. apply Forall_impl. intros m Hm Heq.
    apply value_matches_iff in Heq. congruence. }
  unfold _enum_case_insensitive_search_by_value, cls_UNSUPPORTED. rewrite Hu.
  pose proof (filter_first (value_matches cls name) (members cls)) as Hfirst.
  destruct (members cls) as [|m0 ms] eqn:Hmembers.
  - exists u. split; [reflexivity|]. right. split; [reflexivity|constructor].
  - destruct (filter (value_matches cls name) (m0 :: ms)) as [|member rest].
    + exists u. split; [reflexivity|]. right. split; [reflexivity|].
      now apply Hno.
    + destruct Hfirst as (before & after & Hsplit & Hmatch & Hbefore).
      exists member. split; [reflexivity|]. left. exists before, after.
      split; [exact Hsplit|]. split; [now apply value_matches_iff|].
      now apply Hno.
Qed.

Lemma search_answers_every_text_witness :
  _enum_case_insensitive_search_by_value tda.InstrumentType_class
    (JStr " mutual_Fund ") = Return tda.IT_MUTUAL_FUND
  /\ _enum_case_insensitive_search_by_value tda.InstrumentType_class
       (JStr "bond") = Return tda.IT_UNSUPPORTED.
Proof.
  split.
  - destruct (search_answers_every_text _ tda.InstrumentType_class
                tda.IT_UNSUPPORTED " mutual_Fund " eq_refl)
      as (member & Hsearch & [(before & after & _ & Hmatch & _)|[_ Hnone]]).
    + rewrite Hsearch. destruct member; vm_compute in Hmatch;
        try discriminate. reflexivity.
    + exfalso. rewrite Forall_forall in Hnone.
      apply (Hnone tda.IT_MUTUAL_FUND); [cbn; tauto|].
      vm_compute. reflexivity.
  - destruct (search_answers_every_text _ tda.InstrumentType_class
                tda.IT_UNSUPPORTED "bond" eq_refl)
      as (member & Hsearch & [(before & after & _ & Hmatch & _)|[-> _]]).
    + exfalso. destruct member; vm_compute in Hmatch; discriminate.
    + exact Hsearch.
Defined.

(** X2: the typed field enumerations give back each member for its own
    API name written in any letter case and with blanks around it: no two
    names of a class agree up to letter case. *)
Theorem typed_field_found_by_own_name :
  (forall (field : tda.ChartBarField) (name : string),
     PyStr.lower (PyStr.strip name)
       = PyStr.lower (fst (tda.ChartBarField_value field)) ->
     _enum_case_insensitive_search_by_value tda.ChartBarField_class (JStr name)
       = Return field)
  /\ (forall (field : tda.OptionContractField) (name : string),
        PyStr.lower (PyStr.strip name)
          = PyStr.lower (fst (tda.OptionContractField_value field)) ->
        _enum_case_insensitive_search_by_value tda.OptionContractField_class
          (JStr name) = Return field)
  /\ (forall (field : tda.QuoteField) (name : string),
        PyStr.lower (PyStr.strip name)
          = PyStr.lower (fst (tda.QuoteField_value field)) ->
        _enum_case_insensitive_search_by_value tda.QuoteField_class (JStr name)
          = Return field).
Proof.
  repeat split; intros field name Hname;
    (apply search_by_own_name;
     [ nodup_names
     | destruct field; cbn; tauto
     | exact Hname ]).
Qed.

Lemma typed_field_found_by_own_name_witness :
  _enum_case_insensitive_search_by_value tda.QuoteField_class
    (JStr " BIDPRICE ") = Return tda.Q_BID_PRICE.
Proof.
  apply (proj2 (proj2 typed_field_found_by_own_name)
           tda.Q_BID_PRICE " BIDPRICE ").
  reflexivity.
Defined.

(** X3: every service and every command is found by its own name in any
    letter case and with blanks around it. *)
Theorem service_found_by_own_name :
  (forall (service : WSService) (name : string),
     PyStr.lower (PyStr.strip name) = PyStr.lower (WSService_value service) ->
     WSService_of (JStr name) = Return service)
  /\ (forall (command : WSCommand) (name : string),
        PyStr.lower (PyStr.strip name) = PyStr.lower (WSCommand_value command) ->
        WSCommand_of (JStr name) = Return command).
Proof.
  split.
  - intros service name Hname. unfold WSService_of, enum_call.
    destruct (find _ (members WSService_class)) as [found|] eqn:Hfind.
    + apply find_some in Hfind as [_ Heq]. apply String.eqb_eq in Heq.
      subst name. f_equal.
      destruct found, service; vm_compute in Hname;
        first [reflexivity|discriminate].
    + apply search_by_own_name;
        [ nodup_names
        | destruct service; cbn; tauto
        | exact Hname ].
  - intros command name Hname. unfold WSCommand_of, enum_call.
    destruct (find _ (members WSCommand_class)) as [found|] eqn:Hfind.
    + apply find_some in Hfind as [_ Heq]. apply String.eqb_eq in Heq.
      subst name. f_equal.
      destruct found, command; vm_compute in Hname;
        first [reflexivity|discriminate].
    + apply search_by_own_name;
        [ nodup_names
        | destruct command; cbn; tauto
        | exact Hname ].
Qed.

Lemma service_found_by_own_name_witness :
  WSService_of (JStr " timesale_Equity ") = Return TIMESALE_EQUITY.
Proof.
  apply (proj1 service_found_by_own_name TIMESALE_EQUITY " timesale_Equity ").
  reflexivity.
Defined.

(** ** Decoding, continued *)

Lemma call_typecast_has_type (t : typecast_fn) (raw v : json) :
  call_typecast t raw = Return v -> has_type t v.
Proof.
  destruct t; cbn [call_typecast has_type].
  - unfold PyNum.str. destruct (Py.str raw); [|discriminate].
    intros [= <-]. eauto.
  - destruct raw; cbn; try discriminate.
    + intros [= <-]. eauto.
    + intros [= <-]. eauto.
    + destruct (PyNum.Z_of_float f); cbn; try discriminate.
      intros [= <-]. eauto.
    + destruct (PyNum.int_of_string s); cbn; try discriminate.
      intros [= <-]. eauto.
  - destruct raw; cbn; try discriminate.
    + intros [= <-]. eauto.
    + destruct (PyNum.float_of_Z z); cbn; try discriminate.
      intros [= <-]. eauto.
    + intros [= <-]. eauto.
    + destruct (PyNum.float_of_string s); cbn; try discriminate.
      intros [= <-]. eauto.
Qed.

Lemma dict_set_Forall (P : key * json -> Prop) (k : key) (v : json)
    (d : record) :
  P (k, v) -> Forall P d -> Forall P (dict_set k v d).
Proof.
  intros Hkv. induction 1 as [|[k' v'] d Hhd Htl IH]; cbn [dict_set].
  - constructor; [exact Hkv|constructor].
  - destruct (decide (k = k')) as [<-|Hne]; constructor; auto.
Qed.

Lemma dict_get_set_eq (k : key) (v : json) (d : record) :
  dict_get k (dict_set k v d) = Some v.
Proof.
  induction d as [|[k' v'] d IH]; cbn [dict_set dict_get].
  - now destruct (decide (k = k)).
  - destruct (decide (k = k')) as [<-|Hne]; cbn [dict_get].
    + now destruct (decide (k = k)).
    + now destruct (decide (k = k')).
Qed.

Lemma dict_get_set_ne (k k0 : key) (v : json) (d : record) :
  k <> k0 -> dict_get k (dict_set k0 v d) = dict_get k d.
Proof.
  intros Hne. induction d as [|[k' v'] d IH]; cbn [dict_set dict_get].
  - now destruct (decide (k = k0)).
  - destruct (decide (k0 = k')) as [<-|Hne']; cbn [dict_get].
    + now destruct (decide (k = k0)).
    + destruct (decide (k = k')); auto.
Qed.

Lemma for_each_Forall2 {A B : Type} (f : A -> result B) (l : list A)
    (rs : list B) :
  for_each f l = Return rs -> Forall2 (fun x y => f x = Return y) l rs.
Proof.
  revert rs. induction l as [|x l IH]; intros rs; cbn [for_each].
  - intros [= <-]. constructor.
  - destruct (f x) as [y| |] eqn:Hx; cbn [bind]; try discriminate.
    destruct (for_each f l) as [ys| |]; cbn [bind]; try discriminate.
    intros [= <-]. constructor; auto.
Qed.

Section ComprehensionTyping.
Context {W F : Type}.
Variable ws_value : W -> Z.
Variable typecast : F -> typecast_fn.
Variable as_key : F -> key.
Variable P : key * json -> Prop.
Hypothesis typed_is_P :
  forall field v, has_type (typecast field) v -> P (as_key field, v).

Lemma comprehension_Forall (item : json) :
  forall field_map acc r,
    Forall P acc ->
    comprehension ws_value typecast as_key field_map item acc = Return r ->
    Forall P r.
Proof.
  induction field_map as [|[w f] fm IH]; intros acc r Hacc; cbn [comprehension].
  - now intros [= <-].
  - destruct (Py.contains _ item) as [[|]| |]; cbn [bind]; try discriminate;
      [|now apply IH].
    destruct (Py.getitem item _) as [raw| |]; cbn [bind]; try discriminate.
    destruct (call_typecast (typecast f) raw) as [v| |] eqn:Hv; cbn [bind];
      try discriminate.
    apply IH. apply dict_set_Forall; [|exact Hacc].
    apply typed_is_P. now apply call_typecast_has_type with (raw := raw).
Qed.

Lemma distill_item_Forall (field_map : list (W * F)) (SYMBOL : F)
    (item : json) (r : record) :
  (forall v, P (as_key SYMBOL, v)) ->
  distill_item ws_value typecast as_key field_map SYMBOL item = Return r ->
  Forall P r.
Proof.
  intros Hsym. unfold distill_item.
  destruct (comprehension _ _ _ field_map item []) as [r0| |] eqn:Hc;
    cbn [bind]; try discriminate.
  destruct (Py.getitem item "key") as [symbol| |]; cbn [bind]; try discriminate.
  intros [= <-]. apply dict_set_Forall; [apply Hsym|].
  eapply comprehension_Forall; [constructor|exact Hc].
Qed.

Lemma distill_item_symbol (field_map : list (W * F)) (SYMBOL : F)
    (item : json) (r : record) :
  distill_item ws_value typecast as_key field_map SYMBOL item = Return r ->
  exists symbol,
    Py.getitem item "key" = Return symbol
    /\ dict_get (as_key SYMBOL) r = Some symbol.
Proof.
  unfold distill_item.
  destruct (comprehension _ _ _ field_map item []) as [r0| |];
    cbn [bind]; try discriminate.
  destruct (Py.getitem item "key") as [symbol| |]; cbn [bind]; try discriminate.
  intros [= <-]. exists symbol. split; [reflexivity|apply dict_get_set_eq].
Qed.

(** The comprehension looks at the mapped indices of a dict only. *)
Lemma comprehension_reads_indices (d d' : list (string * json)) :
  forall field_map acc,
    (forall entry, In entry field_map ->
       Py.assoc (PyStr.of_Z (ws_value (fst entry))) d
       = Py.assoc (PyStr.of_Z (ws_value (fst entry))) d') ->
    comprehension ws_value typecast as_key field_map (JDict d) acc
    = comprehension ws_value typecast as_key field_map (JDict d') acc.
Proof.
  induction field_map as [|[w f] fm IH]; intros acc Hsame; [reflexivity|].
  cbn [comprehension Py.contains Py.getitem].
  pose proof (Hsame (w, f) (or_introl eq_refl)) as Hw. cbn [fst] in Hw.
  rewrite Hw.
  assert (Htail : forall entry, In entry fm ->
            Py.assoc (PyStr.of_Z (ws_value (fst entry))) d
            = Py.assoc (PyStr.of_Z (ws_value (fst entry))) d')
    by (intros entry Hin; apply Hsame; now right).
  destruct (Py.assoc (PyStr.of_Z (ws_value w)) d') as [raw|]; cbn [bind];
    [|now apply IH].
  destruct (call_typecast (typecast f) raw); cbn [bind]; auto.
Qed.

Lemma distill_item_reads_keys (field_map : list (W * F)) (SYMBOL : F)
    (d d' : list (string * json)) :
  (forall k, In k ("key" :: map fst (typed_indices ws_value typecast field_map)) ->
     Py.assoc k d = Py.assoc k d') ->
  distill_item ws_value typecast as_key field_map SYMBOL (JDict d)
  = distill_item ws_value typecast as_key field_map SYMBOL (JDict d').
Proof.
  intros Hsame. unfold distill_item.
  rewrite (comprehension_reads_indices d d').
  - cbn [Py.getitem]. rewrite (Hsame "key") by now left. reflexivity.
  - intros entry Hin. apply Hsame. right.
    unfold typed_indices. rewrite map_map. cbn [fst].
    apply (in_map (fun e => PyStr.of_Z (ws_value (fst e))) _ _ Hin).
Qed.

Lemma distill_item_needs_key (field_map : list (W * F)) (SYMBOL : F)
    (d : list (string * json)) :
  (forall entry, In entry field_map -> typecast (snd entry) <> py_str) ->
  Py.assoc "key" d = None ->
  is_raise (distill_item ws_value typecast as_key field_map SYMBOL (JDict d)).
Proof.
  intros Hno Hkey. unfold distill_item.
  destruct (comprehension _ _ _ field_map (JDict d) []) as [r0|e|] eqn:Hc;
    cbn [bind].
  - cbn [Py.getitem]. rewrite Hkey. cbn. eexists; reflexivity.
  - eexists; reflexivity.
  - exfalso. revert Hc.
    apply (comprehension_not_beyond ws_value typecast as_key field_map Hno);
      apply incl_refl.
Qed.
End ComprehensionTyping.

Lemma distill_timesale_typed (ts : json) (r : record) :
  distill_timesale ts = Return r -> Forall streamed_entry_typed r.
Proof.
  unfold distill_timesale.
  repeat match goal with
         | |- bind ?x _ = _ -> _ =>
             let v := fresh "v" in
             let E := fresh "E" in
             destruct x as [v| |] eqn:E; cbn [bind]; try discriminate
         end.
  intros [= <-].
  repeat first [apply Forall_nil | apply Forall_cons];
    unfold streamed_entry_typed; cbn [fst snd]; auto.
  match goal with
  | H : PyNum.int _ = Return _ |- _ =>
      exact (call_typecast_has_type py_int _ _ H)
  end.
Qed.

Lemma distill_timesale_symbol (ts : json) (r : record) :
  distill_timesale ts = Return r ->
  exists symbol,
    Py.getitem ts "key" = Return symbol
    /\ dict_get (KTimesale TS_SYMBOL) r = Some symbol.
Proof.
  unfold distill_timesale.
  repeat match goal with
         | |- bind ?x _ = _ -> _ =>
             let v := fresh "v" in
             let E := fresh "E" in
             destruct x as [v| |] eqn:E; cbn [bind]; try discriminate
         end.
  intros [= <-]. eexists. split; reflexivity.
Qed.

(** What the decoder ran when it returns a list of records. *)
Lemma distill_data_list_inv (data : json) (rs : list record) :
  snd (_ws_distill_data data) = Return (Some (DList rs)) ->
  exists name service f content items,
    Py.getitem data "service" = Return name
    /\ WSService_of name = Return service
    /\ distill_item_of service = Some f
    /\ Py.getitem data "content" = Return content
    /\ Py.iter content = Return items
    /\ for_each f items = Return rs.
Proof.
  unfold _ws_distill_data.
  destruct (Py.getitem data "service") as [name| |] eqn:Hs; cbn [bind snd];
    try discriminate.
  destruct (WSService_of name) as [service| |] eqn:Hn; cbn [bind snd];
    try discriminate.
  destruct (content_missing data) as [[|]| |]; cbn [bind snd];
    try discriminate.
  destruct (Py.getitem data "content") as [content| |] eqn:Hc; cbn [bind];
    try discriminate.
  intros H. exists name, service.
  destruct service; try discriminate;
    try (exfalso; exact (distill_acct_activity_no_record _ _ H));
    unfold distill_list in H;
    (destruct (Py.iter content) as [items| |] eqn:Hi; cbn [bind] in H;
       try discriminate);
    match type of H with
    | bind (for_each ?f _) _ = _ =>
        destruct (for_each f items) as [rs'| |] eqn:Hf; cbn [bind] in H;
        try discriminate; injection H as <-;
        exists f, content, items; repeat split; auto
    end.
Qed.

Lemma distill_item_of_typed (service : WSService) (f : json -> result record)
    (item : json) (r : record) :
  distill_item_of service = Some f -> f item = Return r ->
  Forall streamed_entry_typed r.
Proof.
  destruct service; cbn [distill_item_of]; intros [= <-] Hr.
  - eapply distill_item_Forall; [| |exact Hr].
    + intros field v Hv. now right.
    + intros v. now left.
  - eapply distill_item_Forall; [| |exact Hr].
    + intros field v Hv. now right.
    + intros v. now left.
  - eapply distill_item_Forall; [| |exact Hr].
    + intros field v Hv. now right.
    + intros v. now left.
  - now apply distill_timesale_typed with (ts := item).
Qed.

Lemma distill_item_of_symbol (service : WSService) (f : json -> result record)
    (item : json) (r : record) :
  distill_item_of service = Some f -> f item = Return r ->
  exists symbol k,
    symbol_key service = Some k
    /\ Py.getitem item "key" = Return symbol
    /\ dict_get k r = Some symbol.
Proof.
  destruct service; cbn [distill_item_of symbol_key]; intros [= <-] Hr.
  - apply distill_item_symbol in Hr as (symbol & H1 & H2). eauto.
  - apply distill_item_symbol in Hr as (symbol & H1 & H2). eauto.
  - apply distill_item_symbol in Hr as (symbol & H1 & H2). eauto.
  - apply distill_timesale_symbol in Hr as (symbol & H1 & H2). eauto.
Qed.

Lemma distill_item_of_not_beyond (service : WSService)
    (f : json -> result record) (item : json) :
  distill_item_of service = Some f -> f item <> Beyond.
Proof.
  destruct service; cbn [distill_item_of]; intros [= <-].
  - apply distill_item_not_beyond, no_str_chart.
  - apply distill_item_not_beyond, no_str_option.
  - apply distill_item_not_beyond, no_str_quote.
  - apply distill_timesale_not_beyond.
Qed.

(** X4: in every list of records the decoder returns, each value stored
    under a typed field has the type of that field: prices, volatility
    and delta are floats, sizes, volumes and time stamps are integers,
    and so is the last size of a time and sales record.  (The symbol is
    the item's ['key'] as it came.) *)
Theorem decoded_values_are_typed :
  forall (data : json) (rs : list record),
    snd (_ws_distill_data data) = Return (Some (DList rs)) ->
    Forall (Forall streamed_entry_typed) rs.
Proof.
  intros data rs H.
  apply distill_data_list_inv in H
    as (name & service & f & content & items & _ & _ & Hf & _ & _ & Heach).
  apply for_each_Forall2 in Heach.
  induction Heach as [|item r items rs Hr _ IH]; constructor; auto.
  now apply (distill_item_of_typed service f item).
Qed.

Lemma decoded_values_are_typed_witness :
  Forall (Forall streamed_entry_typed)
    [[ (KQuote tda.Q_BID_PRICE, JFloat 9.5%float);
       (KQuote tda.Q_ASK_PRICE, JFloat 9.75%float);
       (KQuote tda.Q_SYMBOL, JStr "XYZ") ]].
Proof.
  apply (decoded_values_are_typed
           (Sample.payload "QUOTE" [Sample.quote_item])).
  vm_compute. reflexivity.
Defined.

(** X5: a list of records returned by the decoder has one record for each
    item of the frame's content, in the order of the content, and each
    record carries under the symbol key of its service the value the item
    has under ['key'], unchanged. *)
Theorem decoded_records_follow_items :
  forall (data : json) (rs : list record),
    snd (_ws_distill_data data) = Return (Some (DList rs)) ->
    exists (name : json) (service : WSService) (k : key) (content : json)
           (items : list json),
      Py.getitem data "service" = Return name
      /\ WSService_of name = Return service
      /\ symbol_key service = Some k
      /\ Py.getitem data "content" = Return content
      /\ Py.iter content = Return items
      /\ Forall2 (fun item r =>
                    exists symbol,
                      Py.getitem item "key" = Return symbol
                      /\ dict_get k r = Some symbol)
                 items rs.
Proof.
  intros data rs H.
  apply distill_data_list_inv in H
    as (name & service & f & content & items & Hs & Hn & Hf & Hc & Hi & Heach).
  assert (Hk : exists k, symbol_key service = Some k)
    by (destruct service; try discriminate; cbn; eauto).
  destruct Hk as [k Hk].
  exists name, service, k, content, items. repeat split; auto.
  apply for_each_Forall2 in Heach. clear Hi.
  induction Heach as [|item r items' rs' Hr _ IH]; constructor; auto.
  destruct (distill_item_of_symbol service f item r Hf Hr)
    as (symbol & k' & Hk' & Hitem & Hget).
  exists symbol. split; [exact Hitem|]. congruence.
Qed.

Lemma decoded_records_follow_items_witness :
  exists (name : json) (service : WSService) (k : key) (content : json)
         (items : list json),
    Py.getitem (Sample.payload "TIMESALE_EQUITY" [Sample.timesale_item])
               "service" = Return name
    /\ WSService_of name = Return service
    /\ symbol_key service = Some k
    /\ Py.getitem (Sample.payload "TIMESALE_EQUITY" [Sample.timesale_item])
                  "content" = Return content
    /\ Py.iter content = Return items
    /\ Forall2 (fun item r =>
                  exists symbol,
                    Py.getitem item "key" = Return symbol
                    /\ dict_get k r = Some symbol)
               items
               [[ (KTimesale TS_SYMBOL, JStr "XYZ");
                  (KTimesale TS_TRADE_TIME, JInt 1700000000000);
                  (KTimesale TS_LAST_PRICE, JFloat 9.5%float);
                  (KTimesale TS_LAST_SIZE, JInt 100);
                  (KTimesale TS_LAST_SEQUENCE, JInt 7) ]].
Proof.
  apply (decoded_records_follow_items
           (Sample.payload "TIMESALE_EQUITY" [Sample.timesale_item])).
  vm_compute. reflexivity.
Defined.

(** X6: the decoder of a content item reads the item's ['key'] and the
    positional indices its service maps, nothing else: two items that
    agree on those keys decode alike, so entries under other keys (and
    the order of the entries) have no effect. *)
Theorem item_decoder_reads_listed_keys :
  forall (service : WSService) (f : json -> result record)
         (d d' : list (string * json)),
    distill_item_of service = Some f ->
    (forall k, In k (item_keys service) -> Py.assoc k d = Py.assoc k d') ->
    f (JDict d) = f (JDict d').
Proof.
  intros service f d d' Hf Hsame.
  destruct service; cbn [distill_item_of] in Hf; try discriminate;
    injection Hf as <-.
  - now apply distill_item_reads_keys.
  - now apply distill_item_reads_keys.
  - now apply distill_item_reads_keys.
  - unfold distill_timesale. cbn [Py.getitem].
    rewrite (Hsame "key") by (cbn; tauto).
    rewrite (Hsame (ts_index TS_TRADE_TIME)) by (cbn; tauto).
    rewrite (Hsame (ts_index TS_LAST_PRICE)) by (cbn; tauto).
    rewrite (Hsame (ts_index TS_LAST_SIZE)) by (cbn; tauto).
    rewrite (Hsame (ts_index TS_LAST_SEQUENCE)) by (cbn; tauto).
    reflexivity.
Qed.

Lemma item_decoder_reads_listed_keys_witness :
  distill_quote
    (JDict [ ("99", JStr "new field"); ("2", JFloat 9.75%float);
             ("key", JStr "XYZ"); ("1", JStr "9.5") ])
  = distill_quote Sample.quote_item.
Proof.
  apply (item_decoder_reads_listed_keys QUOTE distill_quote); [reflexivity|].
  intros k Hin. cbn in Hin.
  repeat (destruct Hin as [<-|Hin]; [reflexivity|]). destruct Hin.
Defined.

(** X7: a content item without ['key'] cannot be decoded, whatever else
    it holds, and takes the frame with it: the decoder raises and returns
    no record of any item of that frame. *)
Theorem item_without_key_fails_frame :
  forall (data name : json) (service : WSService) (f : json -> result record)
         (x : json) (xs : list json) (d : list (string * json)),
    Py.getitem data "service" = Return name ->
    WSService_of name = Return service ->
    distill_item_of service = Some f ->
    Py.getitem data "content" = Return (JList (x :: xs)) ->
    In (JDict d) (x :: xs) ->
    Py.assoc "key" d = None ->
    fst (_ws_distill_data data) = []
    /\ is_raise (snd (_ws_distill_data data)).
Proof.
  intros data name service f x xs d Hs Hn Hf Hc Hin Hkey.
  rewrite (distill_data_nonempty _ _ _ _ _ Hs Hn Hc). cbn [fst snd].
  split; [reflexivity|].
  assert (Hraise : is_raise (f (JDict d))).
  { destruct service; cbn [distill_item_of] in Hf; try discriminate;
      injection Hf as <-.
    - apply distill_item_needs_key; auto using no_str_chart.
    - apply distill_item_needs_key; auto using no_str_option.
    - apply distill_item_needs_key; auto using no_str_quote.
    - unfold distill_timesale. cbn [Py.getitem]. rewrite Hkey. cbn.
      eexists; reflexivity. }
  pose proof (distill_item_of_not_beyond service f) as Hnb.
  destruct service; cbn [distill_item_of] in Hf; try discriminate;
    injection Hf as <-;
    apply distill_list_raises with (item := JDict d); auto.
Qed.

Lemma item_without_key_fails_frame_witness :
  fst (_ws_distill_data
         (Sample.payload "QUOTE"
            [Sample.quote_item; JDict [("1", JStr "9.5")]])) = []
  /\ is_raise
       (snd (_ws_distill_data
               (Sample.payload "QUOTE"
                  [Sample.quote_item; JDict [("1", JStr "9.5")]]))).
Proof.
  apply (item_without_key_fails_frame _ (JStr "QUOTE") QUOTE distill_quote
           Sample.quote_item [JDict [("1", JStr "9.5")]] [("1", JStr "9.5")]).
  - reflexivity.
  - reflexivity.
  - reflexivity.
  - reflexivity.
  - right; left; reflexivity.
  - reflexivity.
Defined.

(** ** The session, continued *)

(** X8: as long as frames keep coming, the receive loop only receives.
    Run for no more passes than there are frames to read, none of which
    reads [null], [ws_listen] sends no request, opens no connection and
    leaves every entry of the handle as it was, however it ends; what is
    left of the socket is a tail of what was there.  (A frame that reads
    [null] is taken for a closed connection, and the loop connects
    again.) *)
Theorem listen_only_receives :
  forall (fuel : nat) (w : world),
    (fuel <= List.length (socket w))%nat ->
    Forall (fun frame => frame <> JNull) (socket w) ->
    ws (snd (ws_listen fuel w)) = ws w
    /\ sent (snd (ws_listen fuel w)) = sent w
    /\ attempts (snd (ws_listen fuel w)) = attempts w
    /\ exists read, socket w = read ++ socket (snd (ws_listen fuel w)).
Proof.
  induction fuel as [|fuel IH]; intros w Hlen Hframes.
  - cbn [ws_listen]. destruct (done w); cbn [snd];
      (split; [reflexivity|]; split; [reflexivity|]; split; [reflexivity|];
       exists []; reflexivity).
  - destruct (done w) eqn:Hdone.
    { cbn [ws_listen]. rewrite Hdone. cbn [snd].
      split; [reflexivity|]. split; [reflexivity|]. split; [reflexivity|].
      exists []. reflexivity. }
    destruct (socket w) as [|frame rest] eqn:Hsock; [cbn in Hlen; lia|].
    inversion Hframes as [|x l Hframe Hrest]; subst x l.
    assert (E : ws_listen (S fuel) w =
                match listen_frame frame (set_socket rest w) with
                | (Return _, w1) => ws_listen fuel w1
                | (Raise e, w1) => (Raise e, w1)
                | (Beyond, w1) => (Beyond, w1)
                end).
    { cbn [ws_listen]. rewrite Hdone. unfold bindM, _listen. rewrite Hsock.
      destruct frame; [contradiction|reflexivity..]. }
    rewrite E. clear E.
    destruct (listen_frame frame (set_socket rest w)) as [r w1] eqn:Hstep.
    apply keeps_wire_listen_frame in Hstep as Hwire.
    unfold wire in Hwire. cbn [ws socket attempts sent set_socket] in Hwire.
    injection Hwire as Hws Hs Ha Hsent.
    destruct r as [[]|e|]; cbn [snd].
    + destruct (IH w1) as (H1 & H2 & H3 & read & H4).
      { rewrite Hs. cbn in Hlen. lia. }
      { now rewrite Hs. }
      split; [congruence|]. split; [congruence|]. split; [congruence|].
      exists (frame :: read). rewrite Hs in H4. rewrite H4. reflexivity.
    + split; [auto|]. split; [auto|]. split; [auto|].
      exists [frame]. now rewrite Hs.
    + split; [auto|]. split; [auto|]. split; [auto|].
      exists [frame]. now rewrite Hs.
Qed.

Lemma listen_only_receives_witness :
  ws (snd (ws_listen 2 Sample.world_raising_consumer))
    = ws Sample.world_raising_consumer
  /\ sent (snd (ws_listen 2 Sample.world_raising_consumer))
     = sent Sample.world_raising_consumer
  /\ attempts (snd (ws_listen 2 Sample.world_raising_consumer))
     = attempts Sample.world_raising_consumer
  /\ exists read,
       socket Sample.world_raising_consumer
       = read ++ socket (snd (ws_listen 2 Sample.world_raising_consumer)).
Proof.
  apply (listen_only_receives 2 Sample.world_raising_consumer).
  - cbn. lia.
  - repeat constructor; discriminate.
Defined.

(** *** Delivery of a data element *)

(** Dispatch when no consumer raises and every consumer has a context:
    all are called, in order, each with the context at its position. *)
Lemma dispatch_all_return (contexts : list json) (d : distilled) :
  forall (functions : list callback) (cb_idx : nat) (w : world),
    (cb_idx + List.length functions <= List.length contexts)%nat ->
    Forall (returns_normally d) (combine functions (skipn cb_idx contexts)) ->
    exists w',
      dispatch functions cb_idx (Some contexts) d w = (Return tt, w')
      /\ calls w' = calls w ++ invocations functions (skipn cb_idx contexts) d
      /\ log w' = log w.
Proof.
  induction functions as [|c functions IH]; intros cb_idx w Hlen Hall.
  - exists w. cbn [dispatch]. unfold ret, invocations. cbn [combine map].
    rewrite app_nil_r. auto.
  - cbn [dispatch List.length] in *.
    destruct (nth_error contexts cb_idx) as [x|] eqn:Hx;
      [|apply nth_error_None in Hx; lia].
    rewrite (skipn_nth_error _ _ _ Hx) in Hall |- *.
    cbn [combine] in Hall. inversion Hall as [|p ps Hp Hps]; subst.
    unfold returns_normally in Hp. cbn [fst snd] in Hp.
    unfold bindM at 1. unfold invoke at 1.
    destruct (cb_run c d x) as [| |e'] eqn:Hrun; [| |now destruct (Hp e')];
      match goal with
      | |- context [dispatch _ _ _ _ ?w1] =>
          destruct (IH (S cb_idx) w1) as (w' & -> & Hcalls & Hlog);
            [lia|exact Hps|]
      end;
      exists w'; (split; [reflexivity|]); rewrite Hcalls, Hlog;
      unfold invocations; cbn [calls log set_done combine map fst snd];
      rewrite <- app_assoc; auto.
Qed.

(** A data element of a subscribed service that decodes to records goes
    to [dispatch] with the callbacks and contexts of the entry. *)
Lemma listen_data_dispatches (w : world) (data name : json)
    (service : WSService) (entry : subscription) (d : distilled)
    (logged : list log_entry) :
  Py.getitem data "service" = Return name ->
  WSService_of name = Return service ->
  services (ws w) !! WSService_value service = Some entry ->
  _ws_distill_data data = (logged, Return (Some d)) ->
  listen_data data w =
    dispatch (cb_functions entry) 0 (cb_data entry) d
      (World (ws w) (socket w) (attempts w) (sent w) (log w ++ logged)
             (calls w) (done w)).
Proof.
  intros Hname Hsvc Hentry Hdist.
  destruct (getitem_inv _ _ _ Hname) as (dd & -> & Hdd).
  unfold listen_data. unfold bindM at 1. unfold lift at 1.
  cbn [Py.contains]. rewrite Hdd.
  unfold bindM at 1. unfold lift at 1. rewrite Hname.
  unfold bindM at 1. unfold lift at 1. rewrite Hsvc.
  unfold bindM at 1. unfold get_ws at 1. rewrite Hentry.
  unfold bindM at 1. unfold distill.
  unfold bindM at 1. unfold logger_error at 1. unfold lift at 1.
  rewrite Hdist. reflexivity.
Qed.

(** X9: a data element of a subscribed service reaches every consumer of
    that service when none of them raises and each has a context: the
    callbacks are called once each, in registration order, with the
    decoded records and the context at their own position, and what the
    decoder logged is in the log. *)
Theorem data_reaches_every_consumer :
  forall (w : world) (data name : json) (service : WSService)
         (entry : subscription) (d : distilled) (logged : list log_entry)
         (contexts : list json),
    Py.getitem data "service" = Return name ->
    WSService_of name = Return service ->
    services (ws w) !! WSService_value service = Some entry ->
    _ws_distill_data data = (logged, Return (Some d)) ->
    cb_data entry = Some contexts ->
    (List.length (cb_functions entry) <= List.length contexts)%nat ->
    Forall (returns_normally d) (combine (cb_functions entry) contexts) ->
    exists w',
      listen_data data w = (Return tt, w')
      /\ calls w' = calls w ++ invocations (cb_functions entry) contexts d
      /\ log w' = log w ++ logged.
Proof.
  intros w data name service entry d logged contexts
         Hname Hsvc Hentry Hdist Hctx Hlen Hall.
  rewrite (listen_data_dispatches w data name service entry d logged
             Hname Hsvc Hentry Hdist).
  rewrite Hctx.
  destruct (dispatch_all_return contexts d (cb_functions entry) 0
              (World (ws w) (socket w) (attempts w) (sent w) (log w ++ logged)
                     (calls w) (done w)))
    as (w' & Hrun & Hcalls & Hlog); auto.
  exists w'. split; [exact Hrun|]. split; [exact Hcalls|exact Hlog].
Qed.

Lemma data_reaches_every_consumer_witness :
  exists w',
    listen_data (Sample.payload "QUOTE" [Sample.quote_item])
      (Sample.world_with
         (<["QUOTE" := Sample.quote_entry
                         [Sample.returns "first"; Sample.stops "second"]
                         [JInt 1; JInt 2; JInt 3]]> ∅) [] [])
    = (Return tt, w')
    /\ calls w' =
         [] ++ invocations [Sample.returns "first"; Sample.stops "second"]
                 [JInt 1; JInt 2; JInt 3]
                 (DList [[ (KQuote tda.Q_BID_PRICE, JFloat 9.5%float);
                           (KQuote tda.Q_ASK_PRICE, JFloat 9.75%float);
                           (KQuote tda.Q_SYMBOL, JStr "XYZ") ]])
    /\ log w' = [] ++ [].
Proof.
  apply (data_reaches_every_consumer
           (Sample.world_with
              (<["QUOTE" := Sample.quote_entry
                              [Sample.returns "first"; Sample.stops "second"]
                              [JInt 1; JInt 2; JInt 3]]> ∅) [] [])
           (Sample.payload "QUOTE" [Sample.quote_item]) (JStr "QUOTE") QUOTE
           (Sample.quote_entry [Sample.returns "first"; Sample.stops "second"]
                               [JInt 1; JInt 2; JInt 3])).
  - reflexivity.
  - reflexivity.
  - vm_compute; reflexivity.
  - vm_compute; reflexivity.
  - reflexivity.
  - cbn. lia.
  - repeat constructor; intros e; discriminate.
Defined.

(** X10: an entry registered without contexts ([cb_data=None], the
    default of the public subscribe functions) cannot deliver: a data
    element that decodes to records ends in [TypeError] before any
    consumer is called. *)
Theorem data_without_contexts_raises :
  forall (w : world) (data name : json) (service : WSService)
         (entry : subscription) (d : distilled) (logged : list log_entry)
         (cb : callback) (more : list callback),
    Py.getitem data "service" = Return name ->
    WSService_of name = Return service ->
    services (ws w) !! WSService_value service = Some entry ->
    _ws_distill_data data = (logged, Return (Some d)) ->
    cb_functions entry = cb :: more ->
    cb_data entry = None ->
    fst (listen_data data w) = Raise TypeError
    /\ calls (snd (listen_data data w)) = calls w.
Proof.
  intros w data name service entry d logged cb more
         Hname Hsvc Hentry Hdist Hfuns Hctx.
  rewrite (listen_data_dispatches w data name service entry d logged
             Hname Hsvc Hentry Hdist).
  rewrite Hfuns, Hctx. split; reflexivity.
Qed.

Lemma data_without_contexts_raises_witness :
  fst (listen_data (Sample.payload "QUOTE" [Sample.quote_item])
         (Sample.world_with
            (<["QUOTE" := Subscription Sample.quote_fields (Some ["XYZ"]) true
                            [Sample.returns "on_quote"] None]> ∅) [] []))
    = Raise TypeError
  /\ calls
       (snd (listen_data (Sample.payload "QUOTE" [Sample.quote_item])
               (Sample.world_with
                  (<["QUOTE" := Subscription Sample.quote_fields (Some ["XYZ"])
                                  true [Sample.returns "on_quote"] None]> ∅)
                  [] [])))
     = [].
Proof.
  apply (data_without_contexts_raises
           (Sample.world_with
              (<["QUOTE" := Subscription Sample.quote_fields (Some ["XYZ"]) true
                              [Sample.returns "on_quote"] None]> ∅) [] [])
           (Sample.payload "QUOTE" [Sample.quote_item]) (JStr "QUOTE") QUOTE
           (Subscription Sample.quote_fields (Some ["XYZ"]) true
              [Sample.returns "on_quote"] None)
           (DList [[ (KQuote tda.Q_BID_PRICE, JFloat 9.5%float);
                     (KQuote tda.Q_ASK_PRICE, JFloat 9.75%float);
                     (KQuote tda.Q_SYMBOL, JStr "XYZ") ]])
           [] (Sample.returns "on_quote") []).
  - reflexivity.
  - reflexivity.
  - vm_compute; reflexivity.
  - vm_compute; reflexivity.
  - reflexivity.
  - reflexivity.
Defined.

(** X11: a data element of a service that has no entry in the handle is
    passed over before it is decoded: nothing is called, nothing is
    logged and nothing is raised, whatever its content is. *)
Theorem data_of_unsubscribed_service_is_dropped :
  forall (w : world) (data name : json) (service : WSService),
    Py.getitem data "service" = Return name ->
    WSService_of name = Return service ->
    services (ws w) !! WSService_value service = None ->
    listen_data data w = (Return tt, w).
Proof.
  intros w data name service Hname Hsvc Hnone.
  destruct (getitem_inv _ _ _ Hname) as (dd & -> & Hdd).
  unfold listen_data. unfold bindM at 1. unfold lift at 1.
  cbn [Py.contains]. rewrite Hdd.
  unfold bindM at 1. unfold lift at 1. rewrite Hname.
  unfold bindM at 1. unfold lift at 1. rewrite Hsvc.
  unfold bindM at 1. unfold get_ws at 1. rewrite Hnone. reflexivity.
Qed.

Lemma data_of_unsubscribed_service_is_dropped_witness :
  listen_data
    (JDict [("service", JStr "option"); ("content", JInt 5)])
    (Sample.world_quote_live JNull)
  = (Return tt, Sample.world_quote_live JNull).
Proof.
  apply (data_of_unsubscribed_service_is_dropped _ _ (JStr "option") OPTION).
  - reflexivity.
  - reflexivity.
  - vm_compute; reflexivity.
Defined.

(** X12: a data element of a subscribed service whose content is missing
    or an empty list reaches no consumer: one error record is logged and
    the loop goes on. *)
Theorem data_without_content_is_logged :
  forall (w : world) (d : list (string * json)) (name : json)
         (service : WSService) (entry : subscription),
    Py.assoc "service" d = Some name ->
    WSService_of name = Return service ->
    services (ws w) !! WSService_value service = Some entry ->
    Py.assoc "content" d = None \/ Py.assoc "content" d = Some (JList []) ->
    listen_data (JDict d) w =
      (Return tt,
       World (ws w) (socket w) (attempts w) (sent w)
             (log w ++ [LogError "Missing expected content: {}" (JDict d)])
             (calls w) (done w)).
Proof.
  intros w d name service entry Hname Hsvc Hentry Hcontent.
  assert (Hdist : _ws_distill_data (JDict d)
                  = ([LogError "Missing expected content: {}" (JDict d)],
                     Return None)).
  { unfold _ws_distill_data, content_missing. cbn [Py.getitem Py.contains].
    rewrite Hname. cbn [bind]. rewrite Hsvc. cbn [bind].
    destruct Hcontent as [-> | ->]; reflexivity. }
  unfold listen_data. unfold bindM at 1. unfold lift at 1.
  cbn [Py.contains]. rewrite Hname.
  unfold bindM at 1. unfold lift at 1. cbn [Py.getitem]. rewrite Hname.
  unfold bindM at 1. unfold lift at 1. rewrite Hsvc.
  unfold bindM at 1. unfold get_ws at 1. rewrite Hentry.
  unfold bindM at 1. unfold distill.
  unfold bindM at 1. unfold logger_error at 1. unfold lift at 1.
  rewrite Hdist. reflexivity.
Qed.

Lemma data_without_content_is_logged_witness :
  listen_data (JDict [("service", JStr "QUOTE"); ("content", JList [])])
    (Sample.world_quote_live JNull)
  = (Return tt,
     World (ws (Sample.world_quote_live JNull))
           (socket (Sample.world_quote_live JNull))
           (attempts (Sample.world_quote_live JNull))
           (sent (Sample.world_quote_live JNull))
           (log (Sample.world_quote_live JNull)
            ++ [LogError "Missing expected content: {}"
                  (JDict [("service", JStr "QUOTE"); ("content", JList [])])])
           (calls (Sample.world_quote_live JNull))
           (done (Sample.world_quote_live JNull))).
Proof.
  apply (data_without_content_is_logged _ _ (JStr "QUOTE") QUOTE
           (Sample.quote_entry [Sample.returns "on_quote"] [JStr "q-ctx"])).
  - reflexivity.
  - reflexivity.
  - vm_compute; reflexivity.
  - right; reflexivity.
Defined.

(** *** Subscribing *)

Lemma await_frame_skips (key : string) (skipped frames : list json) :
  Forall (fun frame => Py.contains key frame = Return false) skipped ->
  await_frame key (skipped ++ frames) = await_frame key frames.
Proof.
  induction 1 as [|frame skipped Hframe _ IH]; [reflexivity|].
  cbn [app await_frame]. now rewrite Hframe.
Qed.

Lemma subscribe_io_skips (request : json) (w : world) (skipped : list json) :
  Forall (fun frame => Py.contains "response" frame = Return false) skipped ->
  _subscribe request (set_socket (skipped ++ socket w) w)
  = _subscribe request w.
Proof.
  intros Hskip. unfold _subscribe.
  unfold bindM at 1. unfold send at 1.
  unfold bindM at 1. unfold await at 1.
  cbn [socket set_socket ws attempts sent log calls done].
  rewrite (await_frame_skips _ _ _ Hskip).
  symmetry.
  unfold bindM at 1. unfold send at 1.
  unfold bindM at 1. unfold await at 1.
  cbn [socket set_socket ws attempts sent log calls done].
  reflexivity.
Qed.

(** X13: frames that arrive before the confirmation of a subscribe
    request are discarded unseen.  With any frames that hold no
    ['response'] put in front of what the socket delivers (heartbeats,
    data frames of live subscriptions, ...), a call of [_ws_subscribe]
    ends exactly as without them, in the same world: they reach no
    consumer and leave no trace. *)
Theorem frames_before_confirmation_are_discarded :
  forall (service : WSService) (fs : list ws_field)
         (functions : list callback) (contexts : option (list json))
         (syms : option (list string)) (first_data : bool)
         (w : world) (request : json) (skipped : list json),
    subscribe_request (ws w) service fs syms = Return request ->
    Forall (fun frame => Py.contains "response" frame = Return false) skipped ->
    _ws_subscribe service fs functions contexts syms first_data
      (set_socket (skipped ++ socket w) w)
    = _ws_subscribe service fs functions contexts syms first_data w.
Proof.
  intros service fs functions contexts syms first_data w request skipped
         Hreq Hskip.
  unfold _ws_subscribe.
  unfold bindM at 1. unfold get_ws at 1.
  unfold bindM at 1. unfold lift at 1. cbn [ws set_socket]. rewrite Hreq.
  unfold bindM at 1. rewrite (subscribe_io_skips request w skipped Hskip).
  symmetry.
  unfold bindM at 1. unfold get_ws at 1.
  unfold bindM at 1. unfold lift at 1. rewrite Hreq.
  unfold bindM at 1. reflexivity.
Qed.

Lemma frames_before_confirmation_are_discarded_witness :
  _ws_subscribe CHART_EQUITY [ChartField CE_SYMBOL]
    [Sample.returns "on_chart"] (Some [JStr "c-ctx"]) (Some ["XYZ"]) true
    (set_socket
       ([Sample.heartbeat; Sample.data_frame [Sample.payload "QUOTE" [Sample.quote_item]]]
        ++ socket (Sample.world_quote_live
                     (Sample.payload "CHART_EQUITY" [Sample.chart_bar])))
       (Sample.world_quote_live
          (Sample.payload "CHART_EQUITY" [Sample.chart_bar])))
  = _ws_subscribe CHART_EQUITY [ChartField CE_SYMBOL]
      [Sample.returns "on_chart"] (Some [JStr "c-ctx"]) (Some ["XYZ"]) true
      (Sample.world_quote_live
         (Sample.payload "CHART_EQUITY" [Sample.chart_bar])).
Proof.
  eapply (frames_before_confirmation_are_discarded CHART_EQUITY
            [ChartField CE_SYMBOL] [Sample.returns "on_chart"]
            (Some [JStr "c-ctx"]) (Some ["XYZ"]) true
            (Sample.world_quote_live
               (Sample.payload "CHART_EQUITY" [Sample.chart_bar]))).
  - reflexivity.
  - repeat constructor.
Defined.

(** *** Requests sent *)

Lemma sends_bind {A B : Type} (l : list json) (m : M A) (k : A -> M B) :
  sends l m -> (forall a, sends [] (k a)) -> sends l (bindM m k).
Proof.
  intros Hm Hk w r w'. unfold bindM.
  destruct (m w) as [[a|e|] w1] eqn:E; intros H.
  - rewrite (Hk a _ _ _ H), (Hm _ _ _ E). now rewrite app_nil_r.
  - injection H as <- <-. eauto.
  - injection H as <- <-. eauto.
Qed.

Lemma sends_nothing_bind {A B : Type} (m : M A) (k : A -> M B) :
  sends [] m -> (forall a, sends [] (k a)) -> sends [] (bindM m k).
Proof. apply sends_bind. Qed.

Ltac sends_nothing_prim :=
  let H := fresh in
  intros ? ? ? H;
  repeat match type of H with
         | (let '(_, _) := ?x in _) = _ => destruct x
         | (match ?x with _ => _ end) = _ => destruct x
         end;
  injection H as <- <-; cbn [sent set_socket set_ws set_done set_attempts];
  now rewrite app_nil_r.

Lemma sends_nothing_ret {A : Type} (a : A) : sends [] (ret a).
Proof. unfold ret. sends_nothing_prim. Qed.

Lemma sends_nothing_lift {A : Type} (r : result A) : sends [] (lift r).
Proof. unfold lift. sends_nothing_prim. Qed.

Lemma sends_nothing_raise {A : Type} (e : exn) : sends [] (@raise A e).
Proof. unfold raise. sends_nothing_prim. Qed.

Lemma sends_nothing_get : sends [] get_ws.
Proof. unfold get_ws. sends_nothing_prim. Qed.

Lemma sends_nothing_await (key : string) : sends [] (await key).
Proof. unfold await. sends_nothing_prim. Qed.

Lemma sends_nothing_logger_error (entries : list log_entry) :
  sends [] (logger_error entries).
Proof. unfold logger_error. sends_nothing_prim. Qed.

Lemma sends_nothing_ws_store (name : string) (entry : subscription) :
  sends [] (ws_store name entry).
Proof. unfold ws_store. sends_nothing_prim. Qed.

Lemma sends_nothing_ws_entry (name : string) : sends [] (ws_entry name).
Proof. unfold ws_entry. sends_nothing_prim. Qed.

Lemma sends_nothing_invoke (cb : callback) (d : distilled) (context : json) :
  sends [] (invoke cb d context).
Proof. unfold invoke. sends_nothing_prim. Qed.

Lemma sends_nothing_dispatch (functions : list callback)
    (contexts : option (list json)) (d : distilled) :
  forall cb_idx, sends [] (dispatch functions cb_idx contexts d).
Proof.
  induction functions as [|cb rest IH]; intros cb_idx; cbn [dispatch].
  - apply sends_nothing_ret.
  - destruct contexts as [l|]; [|apply sends_nothing_raise].
    destruct (nth_error l cb_idx); [|apply sends_nothing_raise].
    apply sends_nothing_bind; [apply sends_nothing_invoke|]. intros _. apply IH.
Qed.

Lemma sends_nothing_distill (data : json) : sends [] (distill data).
Proof.
  unfold distill.
  apply sends_nothing_bind; [apply sends_nothing_logger_error|].
  intros _. apply sends_nothing_lift.
Qed.

Lemma sends_one_send (request : json) : sends [request] (send request).
Proof. intros w r w' [= <- <-]. reflexivity. Qed.

Lemma sends_one_subscribe_io (request : json) :
  sends [request] (_subscribe request).
Proof.
  unfold _subscribe.
  apply sends_bind; [apply sends_one_send|]. intros _.
  apply sends_nothing_bind; [apply sends_nothing_await|]. intros response.
  apply sends_nothing_bind; [apply sends_nothing_lift|]. intros failed.
  apply sends_nothing_bind;
    [destruct failed;
       [apply sends_nothing_logger_error|apply sends_nothing_ret]|].
  intros _.
  apply sends_nothing_bind; [apply sends_nothing_await|]. intros data_frame.
  apply sends_nothing_bind; [apply sends_nothing_lift|]. intros data_list.
  apply sends_nothing_lift.
Qed.

(** X14: a call of [_ws_subscribe] writes one request to the socket, the
    SUBS request built from its arguments, and nothing else, however the
    call ends: a rejected confirmation, an undecodable first data frame
    or a raising consumer lead to no second request. *)
Theorem subscribe_sends_one_request :
  forall (service : WSService) (fs : list ws_field)
         (functions : list callback) (contexts : option (list json))
         (syms : option (list string)) (first_data : bool)
         (w : world) (request : json),
    subscribe_request (ws w) service fs syms = Return request ->
    sent (snd (_ws_subscribe service fs functions contexts syms first_data w))
    = sent w ++ [request].
Proof.
  intros service fs functions contexts syms first_data w request Hreq.
  unfold _ws_subscribe.
  unfold bindM at 1. unfold get_ws at 1.
  unfold bindM at 1. unfold lift at 1. rewrite Hreq.
  match goal with
  | |- sent (snd (?m w)) = _ =>
      assert (Hsends : sends [request] m);
      [|destruct (m w) as [r w'] eqn:E; cbn [snd];
        exact (Hsends _ _ _ E)]
  end.
  apply sends_bind; [apply sends_one_subscribe_io|].
  intros data.
  apply sends_nothing_bind; [apply sends_nothing_lift|]. intros data_service.
  apply sends_nothing_bind; [apply sends_nothing_distill|].
  intros distilled_data.
  apply sends_nothing_bind; [apply sends_nothing_ws_store|]. intros _.
  destruct first_data, distilled_data as [d|]; try apply sends_nothing_ret.
  destruct data_service as [ds|]; [|apply sends_nothing_raise].
  apply sends_nothing_bind; [apply sends_nothing_ws_entry|]. intros entry.
  apply sends_nothing_dispatch.
Qed.

Lemma subscribe_sends_one_request_witness :
  sent (snd (_ws_subscribe QUOTE Sample.quote_fields [Sample.raises "on_quote"]
               (Some [JNull]) (Some ["XYZ"; "ABC"]) true
               (Sample.world_quote_live
                  (Sample.payload "QUOTE" [Sample.quote_item]))))
  = sent (Sample.world_quote_live (Sample.payload "QUOTE" [Sample.quote_item]))
    ++ [JDict [ ("requests", JList [ JDict
          [ ("service", JStr "QUOTE"); ("command", JStr "SUBS");
            ("requestid", JInt 1); ("account", JStr "A1");
            ("source", JStr "app");
            ("parameters", JDict
               [ ("keys", JStr "XYZ,ABC"); ("fields", JStr "0,1,2") ]) ] ]) ]].
Proof.
  apply (subscribe_sends_one_request QUOTE Sample.quote_fields
           [Sample.raises "on_quote"] (Some [JNull]) (Some ["XYZ"; "ABC"]) true
           (Sample.world_quote_live
              (Sample.payload "QUOTE" [Sample.quote_item]))).
  reflexivity.
Defined.

Ltac keeps_prim :=
  let H := fresh in
  intros ? ? ? H;
  repeat match type of H with
         | (let '(_, _) := ?x in _) = _ => destruct x
         | (match ?x with _ => _ end) = _ => destruct x
         end;
  injection H as <- <-; reflexivity.

Lemma keeps_calls_send (request : json) : keeps calls (send request).
Proof. unfold send. keeps_prim. Qed.

Lemma keeps_calls_await (key : string) : keeps calls (await key).
Proof. unfold await. keeps_prim. Qed.

Lemma keeps_calls_logger_error (entries : list log_entry) :
  keeps calls (logger_error entries).
Proof. unfold logger_error. keeps_prim. Qed.

Lemma keeps_calls_ws_store (name : string) (entry : subscription) :
  keeps calls (ws_store name entry).
Proof. unfold ws_store. keeps_prim. Qed.

Lemma keeps_calls_subscribe_io (request : json) :
  keeps calls (_subscribe request).
Proof.
  unfold _subscribe.
  apply keeps_bind; [apply keeps_calls_send|intros _].
  apply keeps_bind; [apply keeps_calls_await|intros response].
  apply keeps_bind; [apply keeps_lift|intros failed].
  apply keeps_bind;
    [destruct failed; [apply keeps_calls_logger_error|apply keeps_ret]
    |intros _].
  apply keeps_bind; [apply keeps_calls_await|intros data_frame].
  apply keeps_bind; [apply keeps_lift|intros data_list].
  apply keeps_lift.
Qed.

Lemma keeps_calls_subscribe_quietly (service : WSService)
    (fs : list ws_field) (functions : list callback)
    (contexts : option (list json)) (syms : option (list string)) :
  keeps calls (_ws_subscribe service fs functions contexts syms false).
Proof.
  unfold _ws_subscribe.
  apply keeps_bind; [apply keeps_get|intros h].
  apply keeps_bind; [apply keeps_lift|intros request].
  apply keeps_bind; [apply keeps_calls_subscribe_io|intros data].
  apply keeps_bind; [apply keeps_lift|intros data_service].
  apply keeps_bind.
  { unfold distill.
    apply keeps_bind; [apply keeps_calls_logger_error|intros _].
    apply keeps_lift. }
  intros distilled_data.
  apply keeps_bind; [apply keeps_calls_ws_store|intros _].
  apply keeps_ret.
Qed.

(** X15: a subscription made with [process_first_data] off calls no
    consumer while it is made, although it waits for the first data frame
    and decodes it; this is what [ws_subscribe_to_acct_activity] does,
    alone among the five public subscribe functions. *)
Theorem quiet_subscribe_calls_no_consumer :
  (forall (service : WSService) (fs : list ws_field)
          (functions : list callback) (contexts : option (list json))
          (syms : option (list string)) (w : world),
     calls (snd (_ws_subscribe service fs functions contexts syms false w))
     = calls w)
  /\ (forall (functions : list callback) (contexts : option (list json))
             (w : world),
        calls (snd (ws_subscribe_to_acct_activity functions contexts w))
        = calls w).
Proof.
  split.
  - intros service fs functions contexts syms w.
    destruct (_ws_subscribe service fs functions contexts syms false w)
      as [r w'] eqn:E.
    exact (keeps_calls_subscribe_quietly _ _ _ _ _ _ _ _ E).
  - intros functions contexts w. unfold ws_subscribe_to_acct_activity.
    match goal with
    | |- calls (snd (?m w)) = _ => destruct (m w) as [r w'] eqn:E
    end.
    exact (keeps_calls_subscribe_quietly _ _ _ _ _ _ _ _ E).
Qed.

(** *** Reconnecting, continued *)

Lemma keeps_ws_connect_io (frames : list json) (request : json) :
  keeps ws (_connect frames request).
Proof.
  intros w r w' H. unfold _connect in H.
  assert (Hk : keeps ws
            (exec send request;
             run response <- await "response";
             run failed <- lift (response_failed response);
             if (failed : bool)
             then logger_error [LogError "Failed to LOGIN: {}" response]
             else ret tt)).
  { apply keeps_ws_bind; [apply keeps_ws_send|intros _].
    apply keeps_ws_bind; [apply keeps_ws_await|intros response].
    apply keeps_ws_bind; [apply keeps_ws_lift|intros failed].
    destruct failed; [apply keeps_ws_logger_error|apply keeps_ws_ret]. }
  apply Hk in H. exact H.
Qed.

Lemma keeps_ws_fetch_user_principals (a : attempt) :
  keeps ws (fetch_user_principals a).
Proof.
  unfold fetch_user_principals.
  apply keeps_ws_bind; [apply keeps_ws_logger_error|intros _].
  apply keeps_ws_lift.
Qed.

Lemma keeps_ws_connect (account_id : string) (q : WSQOSLevel) :
  keeps ws (ws_connect account_id q).
Proof.
  intros w r w' H. unfold ws_connect in H.
  destruct (attempts w) as [|a later]; [now injection H as <- <-|].
  match type of H with
  | ?m (set_attempts later w) = _ =>
      assert (Hk : keeps ws m); [|apply Hk in H; exact H]
  end.
  apply keeps_ws_bind;
    [apply keeps_ws_fetch_user_principals|intros user_principal_dict].
  destruct (is_None user_principal_dict).
  - apply keeps_ws_bind; [apply keeps_ws_logger_error|intros _].
    apply keeps_ws_ret.
  - apply keeps_ws_bind; [apply keeps_ws_lift|intros accounts].
    apply keeps_ws_bind; [apply keeps_ws_lift|intros listed].
    apply keeps_ws_bind; [apply keeps_ws_lift|intros [acct|]].
    + apply keeps_ws_bind; [apply keeps_ws_lift|intros info].
      apply keeps_ws_bind; [apply keeps_ws_lift|intros stamp].
      apply keeps_ws_bind; [apply keeps_ws_lift|intros timestamp_ms].
      apply keeps_ws_bind; [apply keeps_ws_lift|intros request].
      apply keeps_ws_bind; [apply keeps_ws_lift|intros url].
      apply keeps_ws_bind; [apply keeps_ws_lift|intros uri].
      apply keeps_ws_bind; [apply keeps_ws_lift|intros frames].
      apply keeps_ws_bind; [apply keeps_ws_connect_io|intros _].
      apply keeps_ws_ret.
    + apply keeps_ws_bind; [apply keeps_ws_logger_error|intros _].
      apply keeps_ws_ret.
Qed.

Lemma keeps_ws_reconnect (fuel : nat) : keeps ws (reconnect fuel).
Proof.
  induction fuel as [|fuel IH]; intros w r w' H; cbn [reconnect] in H.
  - destruct (done w); now injection H as <- <-.
  - destruct (done w); [now injection H as <- <-|].
    match type of H with
    | ?m w = _ => assert (Hk : keeps ws m); [|apply Hk in H; exact H]
    end.
    apply keeps_ws_bind; [apply keeps_ws_get|intros h].
    apply keeps_ws_bind; [apply keeps_ws_lift|intros account_id].
    apply keeps_ws_bind; [apply keeps_ws_connect|intros [h'|]].
    + apply keeps_ws_ret.
    + exact IH.
Qed.

(** Resubscribing stores each visited entry again as it is. *)
Lemma resubscribe_each_keeps_ws (to_visit : list WSService) :
  forall w w', resubscribe_each to_visit w = (Return tt, w') -> ws w' = ws w.
Proof.
  induction to_visit as [|service rest IH]; intros w w' H;
    cbn [resubscribe_each] in H.
  - now injection H as <-.
  - apply bindM_inv in H as (h & w1 & H1 & H). injection H1 as <- <-.
    destruct (services (ws w) !! WSService_value service) as [params|] eqn:Hp;
      [|now apply IH].
    apply bindM_inv in H as ([] & w1 & H1 & H).
    apply _ws_subscribe_registry in H1. apply IH in H. rewrite H, H1.
    destruct params as [fs syms first functions contexts]. cbn [fields
      symbols process_first_data cb_functions cb_data].
    rewrite insert_id by exact Hp. now destruct (ws w).
Qed.

(** X16: a reconnect that goes through leaves the subscriptions as they
    were.  When [ws_listen]'s reconnect step returns with a new
    connection, the handle has the account, principal, quality of service
    and request id of the new handle, and under the service values
    exactly the entries it had before the connection was lost. *)
Theorem reconnect_keeps_subscriptions :
  forall (fuel : nat) (w w' : world),
    listen_reconnect fuel w = (Return tt, w') ->
    services (ws w') = services (ws w).
Proof.
  intros fuel w w' H. unfold listen_reconnect in H.
  apply bindM_inv in H as (ws_prime & w1 & H1 & H).
  apply keeps_ws_reconnect in H1.
  destruct ws_prime as [h'|]; [|injection H as <-; now rewrite H1].
  apply bindM_inv in H as ([] & w2 & H2 & H).
  unfold ws_update in H2. injection H2 as <-.
  unfold _ws_resubscribe in H. apply resubscribe_each_keeps_ws in H.
  rewrite H. cbn [ws set_ws services]. now rewrite H1.
Qed.

Lemma reconnect_keeps_subscriptions_witness :
  services (ws (snd (listen_reconnect 1 Sample.world_disconnected)))
  = services (ws Sample.world_disconnected).
Proof.
  apply (reconnect_keeps_subscriptions 1 Sample.world_disconnected).
  vm_compute. reflexivity.
Defined.

(** X17: the reconnect loop of [ws_listen] tries again for as long as
    [ws_connect] answers [None], however often that is: over any number
    of connection attempts that do not get the user principals it sends
    nothing, writes for each what [_get_user_principals] wrote and then
    its own error record, and goes on with the attempts that follow
    exactly as if it had started there. *)
Theorem reconnect_retries_until_connected :
  forall (failed later : list attempt) (fuel : nat) (w : world)
         (account_id : string),
    done w = false ->
    handle_account_id (ws w) = Return account_id ->
    attempts w = failed ++ later ->
    Forall (fun a =>
              snd (_get_user_principals (at_access_token a)
                                        (at_user_principals a))
              = Return JNull) failed ->
    reconnect (List.length failed + fuel) w
    = reconnect fuel
        (World (ws w) (socket w) later (sent w)
               (log w ++ flat_map failure_records failed)
               (calls w) (done w)).
Proof.
  induction failed as [|a failed IH];
    intros later fuel w account_id Hdone Hid Hattempts Hfailed.
  - cbn [List.length Nat.add flat_map]. rewrite app_nil_r.
    destruct w as [h s att snt lg cs d]. cbn in Hattempts |- *.
    now subst att.
  - inversion Hfailed as [|a0 l0 Ha Hrest]; subst a0 l0.
    cbn [List.length Nat.add]. cbn [reconnect]. rewrite Hdone.
    unfold bindM at 1. unfold get_ws at 1.
    unfold bindM at 1. unfold lift at 1. rewrite Hid.
    unfold bindM at 1. unfold ws_connect at 1. rewrite Hattempts.
    cbn [app].
    unfold bindM at 1. unfold fetch_user_principals at 1.
    unfold bindM at 1. unfold logger_error at 1. unfold lift at 1.
    rewrite Ha. cbn [is_None].
    unfold bindM at 1. unfold logger_error at 1. unfold ret at 1.
    cbn [ws socket attempts sent log calls done set_attempts].
    rewrite (IH later fuel _ account_id);
      cbn [ws socket attempts sent log calls done]; auto.
    cbn [flat_map]. unfold failure_records at 2.
    rewrite <- !List.app_assoc, ?Hdone. reflexivity.
Qed.

Lemma reconnect_retries_until_connected_witness :
  reconnect (2 + 1) Scene.world_two_failures
  = reconnect 1
      (World (ws Scene.world_two_failures) [] [Scene.answers_login] []
             [ LogValue (JStr "Unauthorized");
               LogError "Failed to retrieve user principals." JNull;
               LogValue (JStr "timed out");
               LogError "Failed to retrieve user principals." JNull ]
             [] false).
Proof.
  apply (reconnect_retries_until_connected
           [Scene.no_principals; Scene.unreachable] [Scene.answers_login]
           1 Scene.world_two_failures "A1").
  - reflexivity.
  - vm_compute. reflexivity.
  - reflexivity.
  - repeat constructor.
Defined.

Lemma lift_inv {A : Type} (r : result A) (a : A) (w w' : world) :
  lift r w = (Return a, w') -> r = Return a /\ w' = w.
Proof. unfold lift. intros H. now injection H as -> ->. Qed.

Lemma find_account_found (account_id : string) (listed : list json)
    (acct : json) :
  find_account account_id listed = Return (Some acct) ->
  In acct listed /\ Py.getitem acct "accountId" = Return (JStr account_id).
Proof.
  induction listed as [|listed_account rest IH]; cbn [find_account];
    [discriminate|].
  destruct (Py.getitem listed_account "accountId") as [listed_id| |] eqn:E;
    cbn [bind]; try discriminate.
  destruct (Py.is_str account_id listed_id) eqn:Eid.
  - intros H. injection H as <-. split; [now left|].
    destruct listed_id; try discriminate. cbn [Py.is_str] in Eid.
    apply String.eqb_eq in Eid. now subst.
  - intros H. apply IH in H as [Hin Hget]. split; [now right|exact Hget].
Qed.

Lemma sends_one_connect_io (frames : list json) (request : json) :
  sends [request] (_connect frames request).
Proof.
  intros w r w' H. unfold _connect in H.
  assert (Hs : sends [request]
            (exec send request;
             run response <- await "response";
             run failed <- lift (response_failed response);
             if (failed : bool)
             then logger_error [LogError "Failed to LOGIN: {}" response]
             else ret tt)).
  { apply sends_bind; [apply sends_one_send|intros _].
    apply sends_nothing_bind; [apply sends_nothing_await|intros response].
    apply sends_nothing_bind; [apply sends_nothing_lift|intros failed].
    destruct failed;
      [apply sends_nothing_logger_error|apply sends_nothing_ret]. }
  apply Hs in H. exact H.
Qed.

Lemma fetch_user_principals_inv (a : attempt) (w w' : world)
    (user_principal_dict : json) :
  fetch_user_principals a w = (Return user_principal_dict, w') ->
  snd (_get_user_principals (at_access_token a) (at_user_principals a))
  = Return user_principal_dict
  /\ w' = World (ws w) (socket w) (attempts w) (sent w)
                (log w
                 ++ fst (_get_user_principals (at_access_token a)
                                              (at_user_principals a)))
                (calls w) (done w).
Proof.
  unfold fetch_user_principals. unfold bindM, logger_error, lift.
  intros H. now injection H as -> <-.
Qed.

(** [_get_user_principals] writes a record only when it returns [None],
    and then one. *)
Lemma user_principals_records (access_token : result string)
    (answer : http_answer) (user_principal_dict : json) :
  snd (_get_user_principals access_token answer) = Return user_principal_dict ->
  (List.length (fst (_get_user_principals access_token answer)) <= 1)%nat
  /\ (is_None user_principal_dict = false ->
      fst (_get_user_principals access_token answer) = []).
Proof.
  destruct access_token as [t| |]; cbn [_get_user_principals snd fst];
    try discriminate.
  destruct answer as [message|[] reason body]; cbn [snd fst].
  - intros [= <-]. split; [cbn; lia|discriminate].
  - intros _. split; [cbn; lia|reflexivity].
  - intros [= <-]. split; [cbn; lia|discriminate].
Qed.

(** X18: when [ws_connect] answers [None] it has opened no connection and
    sent nothing, and the reason is one of two.  Either the user
    principals were not retrieved: the log then holds what
    [_get_user_principals] wrote (one record when the request failed,
    none when the body of the response was [null]) followed by the record
    of [ws_connect].  Or the principals list no account with the account
    id asked for: then [_get_user_principals] wrote nothing and the log
    grows by the one record that names the account id. *)
Theorem failed_connect_opens_nothing :
  forall (account_id : string) (q : WSQOSLevel) (w w' : world),
    ws_connect account_id q w = (Return None, w') ->
    sent w' = sent w /\ socket w' = socket w /\ ws w' = ws w
    /\ calls w' = calls w
    /\ exists (a : attempt) (user_principal_dict : json),
         nth_error (attempts w) 0 = Some a
         /\ snd (_get_user_principals (at_access_token a)
                                      (at_user_principals a))
            = Return user_principal_dict
         /\ (List.length
               (fst (_get_user_principals (at_access_token a)
                                          (at_user_principals a))) <= 1)%nat
         /\ (user_principal_dict = JNull
             /\ log w' = log w ++ failure_records a
             \/ (exists accounts listed,
                   Py.getitem user_principal_dict "accounts" = Return accounts
                   /\ Py.iter accounts = Return listed
                   /\ find_account account_id listed = Return None)
                /\ log w' = log w
                            ++ [LogError account_mismatch (JStr account_id)]).
Proof.
  intros account_id q w w' H. unfold ws_connect in H.
  destruct (attempts w) as [|a later] eqn:Hattempts; [discriminate|].
  apply bindM_inv in H as (user_principal_dict & w1 & H1 & H).
  apply fetch_user_principals_inv in H1 as [Hfetched ->].
  destruct (user_principals_records _ _ _ Hfetched) as [Hshort Hquiet].
  destruct (is_None user_principal_dict) eqn:Hnone.
  - injection H as <-.
    cbn [ws socket attempts sent log calls done set_attempts].
    repeat (split; [reflexivity|]).
    exists a, user_principal_dict.
    repeat (split; [reflexivity || assumption|]).
    left. split; [now destruct user_principal_dict|].
    unfold failure_records. now rewrite <- List.app_assoc.
  - apply bindM_inv in H as (accounts & w1 & H1 & H).
    apply lift_inv in H1 as [Haccounts ->].
    apply bindM_inv in H as (listed & w1 & H1 & H).
    apply lift_inv in H1 as [Hlisted ->].
    apply bindM_inv in H as (found & w1 & H1 & H).
    apply lift_inv in H1 as [Hfound ->].
    destruct found as [acct|].
    + exfalso.
      repeat (apply bindM_inv in H as (? & ? & _ & H)).
      discriminate.
    + injection H as <-.
      cbn [ws socket attempts sent log calls done set_attempts].
      repeat (split; [reflexivity|]).
      exists a, user_principal_dict.
      repeat (split; [reflexivity || assumption|]).
      right. split; [now exists accounts, listed|].
      rewrite (Hquiet eq_refl). now rewrite app_nil_r.
Qed.

Lemma failed_connect_opens_nothing_witness :
  sent (snd (ws_connect "B2" FAST Scene.world_connected)) = []
  /\ socket (snd (ws_connect "B2" FAST Scene.world_connected))
     = [Sample.heartbeat].
Proof.
  destruct (failed_connect_opens_nothing "B2" FAST Scene.world_connected
              (snd (ws_connect "B2" FAST Scene.world_connected)))
    as (Hsent & Hsocket & _).
  - vm_compute. reflexivity.
  - split; [exact Hsent|exact Hsocket].
Defined.

(** X19: the handle [ws_connect] returns is for the account asked for:
    its account is one the user principals list, with that account id;
    it carries the principals and the quality of service of the call,
    request id 1 and no subscription; and to get there [ws_connect] has
    sent one request, the login request built from them. *)
Theorem connect_gives_fresh_handle :
  forall (account_id : string) (q : WSQOSLevel) (w w' : world) (h' : handle),
    ws_connect account_id q w = (Return (Some h'), w') ->
    Py.getitem (account h') "accountId" = Return (JStr account_id)
    /\ (exists accounts listed,
          Py.getitem (principal h') "accounts" = Return accounts
          /\ Py.iter accounts = Return listed
          /\ In (account h') listed)
    /\ qos h' = q /\ next_request_id h' = 1 /\ services h' = ∅
    /\ exists (timestamp_ms : Z) (request : json),
         login_request (principal h') (account h') timestamp_ms q
         = Return request
         /\ sent w' = sent w ++ [request].
Proof.
  intros account_id q w w' h' H. unfold ws_connect in H.
  destruct (attempts w) as [|a later] eqn:Hattempts; [discriminate|].
  apply bindM_inv in H as (user_principal_dict & w1 & H1 & H).
  apply fetch_user_principals_inv in H1 as [Hfetched ->].
  destruct (is_None user_principal_dict); [discriminate|].
  apply bindM_inv in H as (accounts & w1 & H1 & H).
  apply lift_inv in H1 as [Haccounts ->].
  apply bindM_inv in H as (listed & w1 & H1 & H).
  apply lift_inv in H1 as [Hlisted ->].
  apply bindM_inv in H as (found & w1 & H1 & H).
  apply lift_inv in H1 as [Hfound ->].
  destruct found as [acct|]; [|discriminate].
  apply find_account_found in Hfound as [Hin Hid].
  apply bindM_inv in H as (info & w1 & H1 & H).
  apply lift_inv in H1 as [Hinfo ->].
  apply bindM_inv in H as (stamp & w1 & H1 & H).
  apply lift_inv in H1 as [Hstamp ->].
  apply bindM_inv in H as (timestamp_ms & w1 & H1 & H).
  apply lift_inv in H1 as [Hms ->].
  apply bindM_inv in H as (request & w1 & H1 & H).
  apply lift_inv in H1 as [Hrequest ->].
  apply bindM_inv in H as (url & w1 & H1 & H).
  apply lift_inv in H1 as [Hurl ->].
  apply bindM_inv in H as (uri & w1 & H1 & H).
  apply lift_inv in H1 as [Huri ->].
  apply bindM_inv in H as (frames & w1 & H1 & H).
  apply lift_inv in H1 as [Hframes ->].
  apply bindM_inv in H as ([] & w1 & H1 & H).
  apply sends_one_connect_io in H1.
  injection H as <- <-.
  cbn [account principal qos next_request_id services].
  split; [exact Hid|].
  split; [now exists accounts, listed|].
  repeat (split; [reflexivity|]).
  exists timestamp_ms, request. split; [exact Hrequest|exact H1].
Qed.

Lemma connect_gives_fresh_handle_witness :
  exists h' : handle,
    fst (ws_connect "A1" FAST Sample.world_disconnected) = Return (Some h')
    /\ Py.getitem (account h') "accountId" = Return (JStr "A1")
    /\ services h' = ∅.
Proof.
  eexists. split; [vm_compute; reflexivity|].
  destruct (connect_gives_fresh_handle "A1" FAST Sample.world_disconnected
              (snd (ws_connect "A1" FAST Sample.world_disconnected))
              (Handle Sample.listed_account Sample.user_principal_dict FAST 1 ∅))
    as (Hid & _ & _ & _ & Hservices & _).
  - vm_compute. reflexivity.
  - split; [exact Hid|exact Hservices].
Defined.

(** X20: [ws_disconnect] sends one request, the logout request with the
    handle's [next_request_id], and reads up to the first frame holding
    ['response'], whatever the frames before it are.  The websocket is
    closed exactly when that frame's code is 0; otherwise the function
    logs the response and returns with the connection left open.  The
    handle is left as it was either way. *)
Theorem disconnect_closes_when_confirmed :
  forall (w w' : world) (closed : bool),
    ws_disconnect w = (Return closed, w') ->
    exists request response,
      logout_request (ws w) = Return request
      /\ sent w' = sent w ++ [request]
      /\ await_frame "response" (socket w) = (Return response, socket w')
      /\ response_failed response = Return (negb closed)
      /\ log w' = log w
                  ++ (if closed then []
                      else [LogError "Failed to LOGOUT: {}" response])
      /\ ws w' = ws w /\ calls w' = calls w.
Proof.
  intros w w' closed H. unfold ws_disconnect in H.
  apply bindM_inv in H as (h & w1 & H1 & H). injection H1 as <- <-.
  apply bindM_inv in H as (request & w1 & H1 & H).
  apply lift_inv in H1 as [Hrequest ->].
  apply bindM_inv in H as ([] & w1 & H1 & H). injection H1 as <-.
  apply bindM_inv in H as (response & w1 & H1 & H).
  unfold await in H1.
  cbn [ws socket attempts sent log calls done] in H1.
  destruct (await_frame "response" (socket w)) as [r rest] eqn:Hawait.
  injection H1 as -> <-.
  apply bindM_inv in H as (failed & w1 & H1 & H).
  apply lift_inv in H1 as [Hfailed ->].
  exists request, response. split; [exact Hrequest|].
  destruct failed.
  - injection H as <- <-.
    cbn [ws socket attempts sent log calls done set_socket negb].
    repeat (split; [reflexivity || assumption|]). reflexivity.
  - injection H as <- <-.
    cbn [ws socket attempts sent log calls done set_socket negb].
    rewrite app_nil_r.
    repeat (split; [reflexivity || assumption|]). reflexivity.
Qed.

Lemma disconnect_closes_when_confirmed_witness :
  socket (snd (ws_disconnect Scene.world_logout_refused)) = [Sample.heartbeat]
  /\ log (snd (ws_disconnect Scene.world_logout_refused))
     = [LogError "Failed to LOGOUT: {}" (Sample.response_frame 3 "no")].
Proof.
  destruct (disconnect_closes_when_confirmed Scene.world_logout_refused
              (snd (ws_disconnect Scene.world_logout_refused)) false)
    as (request & response & _ & _ & Hawait & _ & Hlog & _).
  - vm_compute. reflexivity.
  - assert (Hresponse : response = Sample.response_frame 3 "no").
    { vm_compute in Hawait. now injection Hawait as <-. }
    subst response. split; [vm_compute; reflexivity|exact Hlog].
Defined.

(** *** The request id *)

Lemma keeps_request_id_of_ws {A : Type} (m : M A) :
  keeps_ws m -> keeps request_id m.
Proof.
  intros Hm w r w' H. unfold request_id. now rewrite (Hm _ _ _ H).
Qed.

Lemma keeps_request_id_ws_store (name : string) (entry : subscription) :
  keeps request_id (ws_store name entry).
Proof. unfold ws_store. keeps_prim. Qed.

Lemma keeps_ws_entry (name : string) : keeps_ws (ws_entry name).
Proof.
  intros w r w' H. unfold ws_entry in H.
  destruct (services (ws w) !! name); now injection H as <- <-.
Qed.

Lemma keeps_request_id_subscribe (service : WSService) (fs : list ws_field)
    (functions : list callback) (contexts : option (list json))
    (syms : option (list string)) (first_data : bool) :
  keeps request_id
        (_ws_subscribe service fs functions contexts syms first_data).
Proof.
  unfold _ws_subscribe.
  apply keeps_bind; [apply keeps_get|intros h].
  apply keeps_bind; [apply keeps_lift|intros request].
  apply keeps_bind;
    [apply keeps_request_id_of_ws, keeps_ws_subscribe_io|intros data].
  apply keeps_bind; [apply keeps_lift|intros data_service].
  apply keeps_bind;
    [apply keeps_request_id_of_ws, keeps_ws_distill|intros distilled_data].
  apply keeps_bind; [apply keeps_request_id_ws_store|intros _].
  destruct first_data, distilled_data as [d|]; try apply keeps_ret.
  destruct data_service as [ds|]; [|apply keeps_raise].
  apply keeps_bind;
    [apply keeps_request_id_of_ws, keeps_ws_entry|intros entry].
  apply keeps_request_id_of_ws, keeps_ws_dispatch.
Qed.

Lemma keeps_request_id_resubscribe_each (to_visit : list WSService) :
  keeps request_id (resubscribe_each to_visit).
Proof.
  induction to_visit as [|service rest IH]; cbn [resubscribe_each];
    [apply keeps_ret|].
  apply keeps_bind; [apply keeps_get|intros h].
  destruct (services h !! WSService_value service) as [params|]; [|exact IH].
  apply keeps_bind; [apply keeps_request_id_subscribe|intros _; exact IH].
Qed.

Lemma connect_request_id (account_id : string) (q : WSQOSLevel)
    (w w' : world) (h' : handle) :
  ws_connect account_id q w = (Return (Some h'), w') ->
  next_request_id h' = 1.
Proof.
  intros H. unfold ws_connect in H.
  destruct (attempts w) as [|a later]; [discriminate|].
  apply bindM_inv in H as (user_principal_dict & ? & _ & H).
  destruct (is_None user_principal_dict); [discriminate|].
  do 3 (apply bindM_inv in H as (? & ? & _ & H)).
  match type of H with
  | (match ?found with _ => _ end) _ = _ => destruct found; [|discriminate]
  end.
  do 8 (apply bindM_inv in H as (? & ? & _ & H)).
  now injection H as <- _.
Qed.

Lemma reconnect_request_id (fuel : nat) :
  forall (w w' : world) (h' : handle),
    reconnect fuel w = (Return (Some h'), w') -> next_request_id h' = 1.
Proof.
  induction fuel as [|fuel IH]; intros w w' h' H; cbn [reconnect] in H.
  - destruct (done w); discriminate.
  - destruct (done w); [discriminate|].
    apply bindM_inv in H as (h & w1 & _ & H).
    apply bindM_inv in H as (account_id & w2 & _ & H).
    apply bindM_inv in H as (ws_prime & w3 & H3 & H).
    destruct ws_prime as [h0|].
    + injection H as <- _. exact (connect_request_id _ _ _ _ _ H3).
    + exact (IH _ _ _ H).
Qed.

Lemma listen_reconnect_request_id (fuel : nat) (w w' : world)
    (r : result unit) :
  request_id w = 1 -> listen_reconnect fuel w = (r, w') -> request_id w' = 1.
Proof.
  intros Hw H. unfold listen_reconnect, bindM at 1 in H.
  destruct (reconnect fuel w) as [[ws_prime| |] w1] eqn:Hreconnect.
  - pose proof (keeps_ws_reconnect fuel _ _ _ Hreconnect) as Hws.
    destruct ws_prime as [h'|].
    + apply reconnect_request_id in Hreconnect.
      unfold bindM at 1, ws_update at 1 in H.
      apply (keeps_request_id_resubscribe_each _ _ _ _) in H.
      rewrite H. exact Hreconnect.
    + injection H as _ <-. unfold request_id. now rewrite Hws.
  - injection H as _ <-. unfold request_id.
    now rewrite (keeps_ws_reconnect fuel _ _ _ Hreconnect).
  - injection H as _ <-. unfold request_id.
    now rewrite (keeps_ws_reconnect fuel _ _ _ Hreconnect).
Qed.

Lemma keeps_request_id_listen_frame (frame : json) :
  keeps request_id (listen_frame frame).
Proof.
  intros w r w' H. apply keeps_wire_listen_frame in H.
  unfold wire in H. unfold request_id. now injection H as -> _ _ _.
Qed.

Lemma keeps_request_id_receive : keeps request_id _listen.
Proof.
  intros w r w' H. unfold _listen in H.
  destruct (socket w) as [|[] rest]; now injection H as _ <-.
Qed.

Lemma listen_request_id (fuel : nat) :
  forall (w w' : world) (r : result unit),
    request_id w = 1 -> ws_listen fuel w = (r, w') -> request_id w' = 1.
Proof.
  induction fuel as [|fuel IH]; intros w w' r Hw H; cbn [ws_listen] in H.
  - destruct (done w); now injection H as _ <-.
  - destruct (done w); [now injection H as _ <-|].
    unfold bindM at 1 in H.
    destruct (_listen w) as [received w0] eqn:Hreceived.
    pose proof (keeps_request_id_receive _ _ _ Hreceived) as Hw0.
    rewrite Hw in Hw0.
    destruct received as [[frame|]| |].
    + unfold bindM at 1 in H.
      destruct (listen_frame frame w0) as [[[]| |] w1] eqn:Hstep;
        pose proof (keeps_request_id_listen_frame _ _ _ _ Hstep) as Hw1;
        rewrite Hw0 in Hw1.
      * exact (IH _ _ _ Hw1 H).
      * now injection H as _ <-.
      * now injection H as _ <-.
    + unfold bindM at 1 in H.
      destruct (listen_reconnect fuel w0) as [[[]| |] w1] eqn:Hstep;
        pose proof (listen_reconnect_request_id _ _ _ _ Hw0 Hstep) as Hw1.
      * exact (IH _ _ _ Hw1 H).
      * now injection H as _ <-.
      * now injection H as _ <-.
    + now injection H as _ <-.
    + now injection H as _ <-.
Qed.

(** X21: the request id is never advanced.  [ws_connect] sets
    [next_request_id] to 1; nothing a session then does, whether
    subscribing or listening, reconnecting and resubscribing included,
    changes it, however the call ends.  So every request after the login
    goes out with the same id: [_ws_subscribe] writes 1 and
    [ws_disconnect] writes [next_request_id]. *)
Theorem request_id_is_never_advanced :
  forall w : world,
    request_id w = 1 ->
    (forall fuel : nat, request_id (snd (ws_listen fuel w)) = 1)
    /\ (forall (service : WSService) (fs : list ws_field)
               (functions : list callback) (contexts : option (list json))
               (syms : option (list string)) (first_data : bool),
          request_id
            (snd (_ws_subscribe service fs functions contexts syms
                                first_data w)) = 1).
Proof.
  intros w Hw. split.
  - intros fuel. destruct (ws_listen fuel w) as [r w'] eqn:H.
    exact (listen_request_id _ _ _ _ Hw H).
  - intros service fs functions contexts syms first_data.
    destruct (_ws_subscribe service fs functions contexts syms first_data w)
      as [r w'] eqn:H.
    apply keeps_request_id_subscribe in H. cbn [snd]. now rewrite H.
Qed.

Lemma request_id_is_never_advanced_witness :
  request_id (snd (ws_listen 3 Sample.world_disconnected)) = 1.
Proof.
  apply (request_id_is_never_advanced Sample.world_disconnected).
  reflexivity.
Defined.

(** ** The name-keyed decoders *)

Lemma dict_set_keys (k : key) (v : json) (d : record) (k0 : key) :
  In k0 (map fst (dict_set k v d)) -> k0 = k \/ In k0 (map fst d).
Proof.
  induction d as [|[k' v'] d IH]; cbn [dict_set].
  - cbn. intros [<-|[]]. now left.
  - destruct (decide (k = k')) as [->|Hne]; cbn [map fst In].
    + intros [<-|Hin]; right; [now left|now right].
    + intros [<-|Hin]; [right; now left|].
      destruct (IH Hin) as [->|Hd]; [now left|right; now right].
Qed.

Lemma dict_set_NoDup (k : key) (v : json) (d : record) :
  NoDup (map fst d) -> NoDup (map fst (dict_set k v d)).
Proof.
  induction d as [|[k' v'] d IH]; cbn [dict_set]; intros Hd.
  - cbn. constructor; [intros []|constructor].
  - destruct (decide (k = k')) as [->|Hne]; cbn [map fst] in Hd |- *;
      [exact Hd|].
    apply NoDup_cons_iff in Hd as [Hnotin Hd]. apply NoDup_cons_iff.
    split; [|exact (IH Hd)].
    intros Hin. apply dict_set_keys in Hin as [->|Hin]; [now apply Hne|].
    now apply Hnotin.
Qed.

Section NamedDecodingFacts.
Context {F : Type} `{EqDecision F}.
Variable cls : enum_class F.
Variable typecast : F -> typecast_fn.
Variable as_key : F -> key.

Lemma named_comprehension_Forall (P : key * json -> Prop) (u : F)
    (raw : json) :
  cls_UNSUPPORTED cls = Return u ->
  (forall f raw_value v,
     f <> u -> call_typecast (typecast f) raw_value = Return v ->
     P (as_key f, v)) ->
  forall (raw_fields : list json) (acc r : record),
    Forall P acc ->
    named_comprehension cls typecast as_key raw raw_fields acc = Return r ->
    Forall P r.
Proof.
  intros Hu HP.
  induction raw_fields as [|raw_field rest IH]; intros acc r Hacc;
    cbn [named_comprehension].
  - now intros [= <-].
  - destruct (_enum_case_insensitive_search_by_value cls raw_field)
      as [field| |]; cbn [bind]; try discriminate.
    rewrite Hu. cbn [bind].
    destruct (decide (field = u)) as [->|Hne]; [now apply IH|].
    destruct (PySeq.getitem_key raw raw_field) as [raw_value| |];
      cbn [bind]; try discriminate.
    destruct (call_typecast (typecast field) raw_value) as [v| |] eqn:Hv;
      cbn [bind]; try discriminate.
    apply IH. apply dict_set_Forall; [|exact Hacc].
    exact (HP _ _ _ Hne Hv).
Qed.

Lemma named_comprehension_NoDup (raw : json) :
  forall (raw_fields : list json) (acc r : record),
    NoDup (map fst acc) ->
    named_comprehension cls typecast as_key raw raw_fields acc = Return r ->
    NoDup (map fst r).
Proof.
  induction raw_fields as [|raw_field rest IH]; intros acc r Hacc;
    cbn [named_comprehension].
  - now intros [= <-].
  - destruct (_enum_case_insensitive_search_by_value cls raw_field)
      as [field| |]; cbn [bind]; try discriminate.
    destruct (cls_UNSUPPORTED cls) as [u| |]; cbn [bind]; try discriminate.
    destruct (decide (field = u)) as [->|Hne]; [now apply IH|].
    destruct (PySeq.getitem_key raw raw_field) as [raw_value| |];
      cbn [bind]; try discriminate.
    destruct (call_typecast (typecast field) raw_value) as [v| |];
      cbn [bind]; try discriminate.
    apply IH. now apply dict_set_NoDup.
Qed.

Lemma assoc_known_fields (k : string) (d : list (string * json)) :
  known_field cls k = true ->
  Py.assoc k (known_fields cls d) = Py.assoc k d.
Proof.
  intros Hk. induction d as [|[k' v'] d IH]; [reflexivity|].
  unfold known_fields in *. cbn [List.filter fst].
  destruct (known_field cls k') eqn:Hk'; cbn [Py.assoc];
    destruct (String.eqb k k') eqn:Ek; auto.
  apply String.eqb_eq in Ek. subst k'. congruence.
Qed.

Lemma named_comprehension_known_fields (d : list (string * json)) :
  forall (l : list (string * json)) (acc : record),
    named_comprehension cls typecast as_key (JDict d)
      (map (fun kv => JStr (fst kv)) l) acc
    = named_comprehension cls typecast as_key (JDict (known_fields cls d))
        (map (fun kv => JStr (fst kv)) (known_fields cls l)) acc.
Proof.
  induction l as [|[k v] l IH]; intros acc; [reflexivity|].
  unfold known_fields at 2. cbn [List.filter fst].
  fold (known_fields cls l).
  destruct (known_field cls k) eqn:Hk.
  - cbn [map fst named_comprehension].
    destruct (_enum_case_insensitive_search_by_value cls (JStr k))
      as [field| |]; cbn [bind]; try reflexivity.
    destruct (cls_UNSUPPORTED cls) as [u| |]; cbn [bind]; try reflexivity.
    destruct (decide (field = u)) as [->|Hne]; [apply IH|].
    cbn [PySeq.getitem_key Py.getitem].
    rewrite (assoc_known_fields k d Hk).
    destruct (Py.assoc k d) as [raw_value|]; cbn [bind]; [|reflexivity].
    destruct (call_typecast (typecast field) raw_value) as [v0| |];
      cbn [bind]; try reflexivity.
    apply IH.
  - cbn [map fst named_comprehension].
    unfold known_field in Hk.
    destruct (_enum_case_insensitive_search_by_value cls (JStr k))
      as [field| |]; try discriminate.
    destruct (cls_UNSUPPORTED cls) as [u| |]; try discriminate.
    cbn [bind]. apply negb_false_iff, bool_decide_eq_true in Hk.
    destruct (decide (field = u)) as [_|Hne]; [apply IH|contradiction].
Qed.

Lemma decode_named_known_fields (d : list (string * json)) :
  decode_named cls typecast as_key (JDict d)
  = decode_named cls typecast as_key (JDict (known_fields cls d)).
Proof.
  unfold decode_named. cbn [Py.iter bind].
  apply named_comprehension_known_fields.
Qed.
End NamedDecodingFacts.

(** X22: [get_history] returns the candles newest first.  When the
    request is answered with a body whose ['candles'] is a list and the
    call returns, it has logged nothing and the list returned has one
    dict per candle, the dict at position i decoded from the candle at
    position i counted from the end; so no candle is dropped, and a
    candle that does not decode leaves no partial history. *)
Theorem history_is_newest_first :
  forall (access_token reason : string) (body : json) (candles : list json)
         (history : list record),
    Py.getitem body "candles" = Return (JList candles) ->
    snd (get_history (Return access_token)
                     (HttpResponse true reason (Return body)))
    = Return (Some history) ->
    fst (get_history (Return access_token)
                     (HttpResponse true reason (Return body))) = []
    /\ List.length history = List.length candles
    /\ Forall2 (fun raw_bar bar => history_bar raw_bar = Return bar)
               (rev candles) history.
Proof.
  intros access_token reason body candles history Hcandles H.
  cbn [get_history fst snd bind] in H |- *. rewrite Hcandles in H.
  cbn [bind PySeq.reversed Py.iter] in H.
  destruct (for_each history_bar (rev candles)) as [bars| |] eqn:Hbars;
    cbn [bind] in H; try discriminate.
  injection H as <-. apply for_each_Forall2 in Hbars.
  split; [reflexivity|]. split; [|exact Hbars].
  apply Forall2_length in Hbars. rewrite <- Hbars. apply length_rev.
Qed.

Lemma history_is_newest_first_witness :
  exists newest oldest : record,
    snd (get_history (Return "token") Scene.history_answer)
    = Return (Some [newest; oldest])
    /\ history_bar Scene.candle_new = Return newest
    /\ history_bar Scene.candle_old = Return oldest.
Proof.
  destruct (snd (get_history (Return "token") Scene.history_answer))
    as [[[|newest [|oldest [|]]]|]| |] eqn:E; try (vm_compute in E; discriminate).
  exists newest, oldest. split; [reflexivity|].
  destruct (history_is_newest_first "token" "OK" Scene.history_body
              [Scene.candle_old; Scene.candle_new] [newest; oldest]
              eq_refl E) as (_ & _ & Hbars).
  cbn [rev app] in Hbars.
  inversion Hbars as [|? ? ? ? Hnew Hrest]; subst.
  inversion Hrest as [|? ? ? ? Hold _]; subst.
  split; [exact Hnew|exact Hold].
Defined.

(** X23: every dict [get_history] builds for a candle and [get_quotes]
    builds for a ticker is keyed by members of the field enumeration, no
    member twice and never UNSUPPORTED, and each value has the type of its
    member's typecast: [int] for a time stamp or a size, [float] for a
    price, whatever the type of the raw value was. *)
Theorem fetched_values_are_typed :
  forall (raw : json) (r : record),
    history_bar raw = Return r \/ quote_of raw = Return r ->
    Forall fetched_entry_typed r /\ NoDup (map fst r).
Proof.
  intros raw r [H|H]; unfold history_bar, quote_of, decode_named in H;
    destruct (Py.iter raw) as [raw_fields| |]; cbn [bind] in H;
    try discriminate.
  - split.
    + apply (named_comprehension_Forall tda.ChartBarField_class
               tda.ChartBarField_typecast KChartBar fetched_entry_typed
               tda.CB_UNSUPPORTED raw eq_refl) with (3 := H);
        [|constructor].
      intros f raw_value v Hf Hv. split; [exact Hf|].
      exact (call_typecast_has_type _ _ _ Hv).
    + apply (named_comprehension_NoDup tda.ChartBarField_class
               tda.ChartBarField_typecast KChartBar raw raw_fields [] r);
        [|exact H].
      constructor.
  - split.
    + apply (named_comprehension_Forall tda.QuoteField_class
               tda.QuoteField_typecast KQuote fetched_entry_typed
               tda.Q_UNSUPPORTED raw eq_refl) with (3 := H);
        [|constructor].
      intros f raw_value v Hf Hv. split; [exact Hf|].
      exact (call_typecast_has_type _ _ _ Hv).
    + apply (named_comprehension_NoDup tda.QuoteField_class
               tda.QuoteField_typecast KQuote raw raw_fields [] r);
        [|exact H].
      constructor.
Qed.

Lemma fetched_values_are_typed_witness :
  exists r : record,
    history_bar Scene.candle_new = Return r
    /\ dict_get (KChartBar tda.CB_CLOSE_PRICE) r = Some (JFloat 11)
    /\ Forall fetched_entry_typed r.
Proof.
  destruct (history_bar Scene.candle_new) as [r| |] eqn:E;
    try (vm_compute in E; discriminate).
  exists r. split; [reflexivity|].
  split; [vm_compute in E; injection E as <-; vm_compute; reflexivity|].
  exact (proj1 (fetched_values_are_typed Scene.candle_new r (or_introl E))).
Defined.

(** X24: fields the enumeration does not list are ignored.  A raw candle
    or quote decodes exactly as the same dict without the entries whose
    name resolves to UNSUPPORTED, with the same result or the same
    exception: what the service adds beside the listed fields changes
    nothing. *)
Theorem unlisted_fields_are_ignored :
  forall d : list (string * json),
    history_bar (JDict d)
    = history_bar (JDict (known_fields tda.ChartBarField_class d))
    /\ quote_of (JDict d)
       = quote_of (JDict (known_fields tda.QuoteField_class d)).
Proof.
  intros d. split; apply decode_named_known_fields.
Qed.

(** X25: [get_quotes] answers with one entry per ticker of the response
    body, under the ticker as the service wrote it and in the order of
    the body, each holding the dict decoded from that ticker's raw quote;
    when the call returns nothing has been logged. *)
Theorem quotes_are_keyed_by_ticker :
  forall (access_token reason : string) (d : list (string * json))
         (quotes : list (string * record)),
    snd (get_quotes (Return access_token)
                    (HttpResponse true reason (Return (JDict d))))
    = Return (Some quotes) ->
    fst (get_quotes (Return access_token)
                    (HttpResponse true reason (Return (JDict d)))) = []
    /\ map fst quotes = map fst d
    /\ Forall2 (fun raw quote => quote_of (snd raw) = Return (snd quote))
               d quotes.
Proof.
  intros access_token reason d quotes H.
  cbn [get_quotes fst snd bind PySeq.items] in H |- *.
  match type of H with
  | (do quotes <- for_each ?f d; _) = _ =>
      destruct (for_each f d) as [decoded| |] eqn:Hdecoded;
        cbn [bind] in H; try discriminate
  end.
  injection H as <-. apply for_each_Forall2 in Hdecoded.
  split; [reflexivity|].
  induction Hdecoded as [|[ticker raw] [ticker' quote] d decoded Hhd Htl IH].
  - split; constructor.
  - cbn [fst snd] in Hhd.
    destruct (quote_of raw) as [q| |] eqn:Hq; cbn [bind] in Hhd;
      try discriminate.
    injection Hhd as <- <-. destruct IH as [IHkeys IHquotes].
    split; [cbn [map fst]; now rewrite IHkeys|].
    constructor; [exact Hq|exact IHquotes].
Qed.

Lemma quotes_are_keyed_by_ticker_witness :
  exists quotes : list (string * record),
    snd (get_quotes (Return "token")
                    (HttpResponse true "OK" (Return (JDict Scene.quotes_body))))
    = Return (Some quotes)
    /\ map fst quotes = ["XYZ"; "ABC"].
Proof.
  destruct (snd (get_quotes (Return "token")
                   (HttpResponse true "OK"
                      (Return (JDict Scene.quotes_body)))))
    as [[quotes|]| |] eqn:E; try (vm_compute in E; discriminate).
  exists quotes. split; [reflexivity|].
  exact (proj1 (proj2 (quotes_are_keyed_by_ticker "token" "OK"
                         Scene.quotes_body quotes E))).
Defined.
